(** * E-commerce AI agent: the query translation and execution pipeline

    A shallow embedding of [src/llm_helper.py] (the SQL sanitizer, the SQL
    generator and the response formatter) and of [src/main.py] (the HTTP
    handlers [/query], [/query/stream], [/query/visualize], [/query/clean]),
    followed by the properties the specification states about them.  Part
    III adds the rest of the helper (its construction, its catalogue), the
    handler [/query/html] and the CSV loader of [src/datab.py], with
    properties read off the code. *)

From Stdlib Require Import String Ascii.
From Stdlib Require Import List NArith ZArith QArith Bool Lia.
From Stdlib Require Import Sorting.Sorted Sorting.Permutation.
From Stdlib Require Import Floats.SpecFloat.
From Stdlib Require Import Numbers.DecimalString.
Import ListNotations.

(* ================================================================== *)
(** * Part I: definitions                                              *)
(* ================================================================== *)

(** ** Python text

    A Python [str] is a sequence of Unicode code points; a code point is a
    number, and a string the list of its code points. *)

Definition char := N.
Definition str := list char.

(** The code points of an ASCII literal. *)
Definition lit (s : string) : str := map N_of_ascii (list_ascii_of_string s).

Definition NL : char := 10%N.        (* '\n' *)
Definition SPACE : char := 32%N.     (* ' '  *)
Definition DASH : char := 45%N.      (* '-'  *)
Definition SEMI : char := 59%N.      (* ';'  *)
Definition BACKTICK : char := 96%N.  (* '`'  *)

(** [str.isspace] on one code point: the set [str.split()] and [str.strip()]
    use (the ASCII table 0x09-0x0D, 0x1C-0x20 and the Unicode White_Space
    code points beyond ASCII). *)
Definition isspace (c : char) : bool :=
  (((9 <=? c) && (c <=? 13)) || ((28 <=? c) && (c <=? 32))
   || (c =? 133) || (c =? 160) || (c =? 5760)
   || ((8192 <=? c) && (c <=? 8202))
   || (c =? 8232) || (c =? 8233) || (c =? 8239) || (c =? 8287)
   || (c =? 12288))%N.

(** [s.startswith(p)] *)
Fixpoint startswith (s p : str) : bool :=
  match p, s with
  | [], _ => true
  | _ :: _, [] => false
  | x :: p', c :: s' => (c =? x)%N && startswith s' p'
  end.

(** [s.endswith(p)]: [p] is a suffix of [s]. *)
Definition endswith (s p : str) : bool := startswith (rev s) (rev p).

(** [p in s] for strings: [p] occurs in [s] at some position. *)
Fixpoint contains (p s : str) : bool :=
  startswith s p ||
  match s with
  | [] => false
  | _ :: t => contains p t
  end.

(** The slice [s[a:-b]] for [b > 0]: from index [a] up to [len(s) - b];
    empty when the two bounds cross (subtraction on [nat] stops at 0, as
    Python's clamping of slice bounds does). *)
Definition slice (s : str) (a b : nat) : str :=
  firstn (length s - b - a) (skipn a s).

(** [s.lstrip()], [s.rstrip()], [s.strip()] with no argument. *)
Fixpoint lstrip (s : str) : str :=
  match s with
  | [] => []
  | c :: t => if isspace c then lstrip t else s
  end.

Definition rstrip (s : str) : str := rev (lstrip (rev s)).

Definition strip (s : str) : str := rstrip (lstrip s).

(** [s.split()] with no argument: the maximal runs of non-whitespace code
    points, left to right; runs of whitespace separate them and never give
    an empty word. *)
Definition push_front (c : char) (ws : list str) : list str :=
  match ws with
  | [] => [[c]]
  | w :: ws' => (c :: w) :: ws'
  end.

Fixpoint split (s : str) : list str :=
  match s with
  | [] => []
  | c :: t =>
      if isspace c then split t
      else match t with
           | [] => [[c]]
           | d :: _ => if isspace d then [c] :: split t
                       else push_front c (split t)
           end
  end.

(** [sep.join(ws)] *)
Fixpoint join (sep : str) (ws : list str) : str :=
  match ws with
  | [] => []
  | w :: ws' =>
      match ws' with
      | [] => w
      | _ :: _ => w ++ sep ++ join sep ws'
      end
  end.

(** [re.sub(r'--.*$', '', s, flags=re.MULTILINE)].

    A match starts at the leftmost two dashes, [.*] takes every code point
    that is not ['\n'], and [$] holds there (before a ['\n'] or at the end
    of the text); the scan resumes after the match.  [in_comment] says
    whether the scan is inside a match: its code points are dropped up to,
    and without, the next ['\n']. *)
Fixpoint re_sub_comment (in_comment : bool) (s : str) : str :=
  match s with
  | [] => []
  | c :: t =>
      if in_comment then
        if (c =? NL)%N then c :: re_sub_comment false t
        else re_sub_comment true t
      else if startswith s [DASH; DASH] then re_sub_comment true t
      else c :: re_sub_comment false t
  end.

Definition remove_line_comments (s : str) : str := re_sub_comment false s.

(** ** [LLMHelper._clean_sql_response] (src/llm_helper.py, lines 71-97) *)

Definition FENCE : str := lit "```".
Definition FENCE_SQL : str := lit "```sql".

(** Lines 82-85: remove a code fence that wraps the whole text. *)
Definition strip_fence (sql : str) : str :=
  if startswith sql FENCE_SQL && endswith sql FENCE then strip (slice sql 6 3)
  else if startswith sql FENCE && endswith sql FENCE then strip (slice sql 3 3)
  else sql.

(** Lines 94-95: end the statement with a semicolon. *)
Definition ensure_semicolon (sql : str) : str :=
  if endswith sql [SEMI] then sql else sql ++ [SEMI].

Definition _clean_sql_response (sql : str) : str :=
  let sql := strip_fence sql in
  let sql := remove_line_comments sql in
  let sql := join [SPACE] (split sql) in
  let sql := ensure_semicolon sql in
  strip sql.

(** ** Exceptions, effects and the handler monad

    Every exception the pipeline meets derives from Python's [Exception]:
    FastAPI's [HTTPException], and the others, kept with their class name
    and their [str(e)]. *)

Inductive exn : Type :=
| HTTPException (status_code : N) (detail : str)
| PyException (cls : string) (msg : str).

Definition RuntimeError (msg : str) : exn := PyException "RuntimeError" msg.
Definition ValueError (msg : str) : exn := PyException "ValueError" msg.
Definition IndexError (msg : str) : exn := PyException "IndexError" msg.

(** The decimal digits of a number. *)
Definition str_of_N (n : N) : str := lit (NilZero.string_of_uint (N.to_uint n)).

(** [str(e)].  For [HTTPException] it is Starlette's [__str__], the status
    code, a colon and the detail. *)
Definition str_of_exn (e : exn) : str :=
  match e with
  | HTTPException status_code detail => str_of_N status_code ++ lit ": " ++ detail
  | PyException _ msg => msg
  end.

(** A cell of a result row, or of the frame built from the rows. *)
Inductive value : Type :=
| VNone                      (* SQL NULL, Python None *)
| VInt (z : Z)
| VFloat (f : spec_float)
| VStr (s : str)
| VTimestamp (ns : Z)        (* a pandas Timestamp *)
| VNaT.                      (* pandas' missing Timestamp *)

(** [dict(row)]: the columns of a row, in order, with their values. *)
Definition row := list (str * value).

(** What the renderer is asked to draw: the [plt] and [DataFrame.plot]
    calls of [visualize_data]. *)
Inductive plot_cmd : Type :=
| PltFigure
| PltStyleUse (style : str)
| PltPlot (x y : list value) (label : str)
| PltLegend
| DfPlotBar (x y : str) (xs ys : list value)
| PltPie (values labels : list value)
| PltTitle (title : str)
| PltXticks
| PltTightLayout
| PltSavefig
| PltClose.

(** The effects of one request, in the order they happen. *)
Inductive event : Type :=
| LogError (msg : str)
| LogDebug (msg : str)
| ModelCall (prompt : str)
| SessionOpen
| SessionExecute (sql : str)
| SessionClose
| Yield (chunk : str)
| Sleep
| Plt (cmd : plot_cmd).

Inductive result (A : Type) : Type :=
| Return (a : A)
| Raise (e : exn).
Arguments Return {A} a.
Arguments Raise {A} e.

(** A computation gives a value or an exception, and the events it caused
    on the way; the events of what ran before an exception stay. *)
Definition M (A : Type) : Type := (result A * list event)%type.

Definition ret {A} (a : A) : M A := (Return a, []).

Definition bind {A B} (m : M A) (k : A -> M B) : M B :=
  match m with
  | (Return a, evs) => let (r, evs') := k a in (r, evs ++ evs')
  | (Raise e, evs) => (Raise e, evs)
  end.

Definition raise {A} (e : exn) : M A := (Raise e, []).

Definition emit (ev : event) : M unit := (Return tt, [ev]).

(** [try: body except Exception as e: handler(e)] *)
Definition try_except {A} (body : M A) (handler : exn -> M A) : M A :=
  match body with
  | (Return a, evs) => (Return a, evs)
  | (Raise e, evs) => let (r, evs') := handler e in (r, evs ++ evs')
  end.

(** [try: body finally: cleanup] *)
Definition try_finally {A} (body : M A) (cleanup : M unit) : M A :=
  match body, cleanup with
  | (r, evs), (Return _, evs') => (r, evs ++ evs')
  | (_, evs), (Raise e, evs') => (Raise e, evs ++ evs')
  end.

Declare Scope monad_scope.
Delimit Scope monad_scope with monad.
Notation "x <- m ;; k" := (bind m (fun x => k))
  (at level 61, m at next level, right associativity) : monad_scope.
Notation "m ;; k" := (bind m (fun _ => k))
  (at level 61, right associativity) : monad_scope.
Open Scope monad_scope.

(** [for x in xs: body(x)] *)
Fixpoint for_each {A} (xs : list A) (body : A -> M unit) : M unit :=
  match xs with
  | [] => ret tt
  | x :: xs' => body x ;; for_each xs' body
  end.

(** The outcome and the events of a computation. *)
Definition outcome {A} (m : M A) : result A := fst m.
Definition events {A} (m : M A) : list event := snd m.

(** ** The language-model backend and [LLMHelper] (src/llm_helper.py) *)

Record GenerationConfig : Type := {
  temperature : Q;
  max_output_tokens : N;
  top_p : Q
}.

(** What [model.generate_content(prompt, ...)] followed by [response.text]
    does: it raises, or gives the text (empty when the backend returned
    none). *)
Inductive gen_outcome : Type :=
| GenRaises (e : exn)
| GenText (text : str).

Record LLMHelper : Type := {
  model_name : str;
  model : option (str -> GenerationConfig -> gen_outcome)
}.

Definition QUOTE : char := 34%N.   (* the double quote *)

Definition lines (ls : list str) : str := join [NL] ls.

(** The prompt of [generate_sql_query] (lines 110-122). *)
Definition sql_prompt (question schema_info : str) : str :=
  lines
    [ lit "You are an expert SQLite SQL developer. Follow these rules exactly:";
      lit "        1. Given these tables:";
      lit "        " ++ schema_info;
      lit "        2. Convert this question to SQL: " ++ [QUOTE] ++ question ++ [QUOTE];
      lit "        3. Return ONLY the pure SQL query without:";
      lit "           - Markdown code blocks";
      lit "           - Explanations";
      lit "           - Any text besides the SQL";
      lit "        4. Use SQLite compatible syntax";
      lit "        5. Never use backticks or code formatting";
      lit "        6. Ensure the query ends with a semicolon";
      lit "        ";
      lit "        SQL Query:" ].

(** The prompt of [format_response] (lines 166-177); [data] is the text
    Python's [str()] gives for the rows. *)
Definition format_prompt (question data : str) : str :=
  lines
    [ lit "Format this data into a professional business report for: "
        ++ [QUOTE] ++ question ++ [QUOTE];
      lit "        Data: " ++ data;
      lit "        ";
      lit "        Guidelines:";
      lit "        1. Start with a direct answer to the question";
      lit "        2. Use bullet points for multiple items";
      lit "        3. Include specific numbers with proper formatting";
      lit "        4. Highlight key insights";
      lit "        5. Keep it concise (1-2 paragraphs max)";
      lit "        6. Use professional business language";
      lit "        ";
      lit "        Formatted Answer:" ].

Definition sql_config : GenerationConfig :=
  {| temperature := 1 # 10; max_output_tokens := 1000; top_p := 95 # 100 |}.

Definition format_config : GenerationConfig :=
  {| temperature := 3 # 10; max_output_tokens := 2000; top_p := 95 # 100 |}.

(** [if not self.model: raise RuntimeError("Model not initialized")] *)
Definition require_model (self : LLMHelper)
  : M (str -> GenerationConfig -> gen_outcome) :=
  match model self with
  | None => raise (RuntimeError (lit "Model not initialized"))
  | Some m => ret m
  end.

(** [m.generate_content(prompt, generation_config=...)] and the read of
    [response.text]. *)
Definition generate_content (m : str -> GenerationConfig -> gen_outcome)
    (prompt : str) (config : GenerationConfig) : M str :=
  emit (ModelCall prompt) ;;
  match m prompt config with
  | GenRaises e => raise e
  | GenText text => ret text
  end.

(** [not text] for a string: it is empty. *)
Definition is_empty (s : str) : bool :=
  match s with [] => true | _ :: _ => false end.

(** [LLMHelper.generate_sql_query] (lines 99-153). *)
Definition generate_sql_query (self : LLMHelper) (question schema_info : str)
  : M str :=
  let prompt := sql_prompt question schema_info in
  try_except
    (m <- require_model self ;;
     text <- generate_content m prompt sql_config ;;
     if is_empty text then raise (ValueError (lit "Empty response from model"))
     else
       let cleaned_sql := _clean_sql_response text in
       emit (LogDebug (lit "Generated SQL: " ++ cleaned_sql)) ;;
       ret cleaned_sql)
    (fun e =>
       let error_msg := lit "Error generating SQL: " ++ str_of_exn e in
       emit (LogError error_msg) ;;
       ret error_msg).

(** [LLMHelper.format_response] (lines 155-200); [data] is the text of the
    rows as the f-string prints them. *)
Definition format_response (self : LLMHelper) (question data : str) : M str :=
  let prompt := format_prompt question data in
  try_except
    (m <- require_model self ;;
     text <- generate_content m prompt format_config ;;
     if is_empty text then raise (ValueError (lit "Empty response from model"))
     else ret (strip text))
    (fun e =>
       let error_msg := lit "Error formatting response: " ++ str_of_exn e in
       emit (LogError error_msg) ;;
       ret error_msg).

(** ** The store, the tabular result and the renderer's inputs *)

(** What [session.execute(text(sql))] followed by
    [[dict(row) for row in result.mappings()]] does: the store rejects the
    statement with an exception, or gives the rows in its order. *)
Inductive store_outcome : Type :=
| StoreRaises (cls : string) (msg : str)
| StoreRows (rows : list row).

(** What [pd.to_datetime] does on one cell. *)
Inductive datetime_outcome : Type :=
| DtRaises (cls : string) (msg : str)
| DtTimestamp (ns : Z)
| DtNaT.

(** The process: the two long-lived handles of [main.py] (lines 29-30) and
    the library functions whose results the pipeline only passes on. *)
Record App : Type := {
  llm_helper : LLMHelper;
  engine : str -> store_outcome;
  str_of_rows : list row -> str;          (* Python's [str()] of the rows *)
  to_datetime : value -> datetime_outcome (* [pd.to_datetime] on a cell *)
}.

(** [SCHEMA_INFO] (main.py, lines 33-38). *)
Definition SCHEMA_INFO : str :=
  [NL] ++
  lines
    [ lit "Tables:";
      lit "1. product_total_sales: date (Date), item_id (String), total_sales (Float), total_units_ordered (Integer)";
      lit "2. product_ad_sales: date (Date), item_id (String), ad_sales (Float), impressions (Integer), ad_spend (Float), clicks (Integer), units_sold (Integer)";
      lit "3. product_eligibility: eligibility_datetime_utc (DateTime), item_id (String), eligibility (String), message (String)" ]
  ++ [NL].

Definition ERROR : str := lit "Error".

Fixpoint str_eqb (a b : str) : bool :=
  match a, b with
  | [], [] => true
  | x :: a', y :: b' => (x =? y)%N && str_eqb a' b'
  | _, _ => false
  end.

(** [session = get_session(engine)], [session.execute(...)] with the rows
    made into dicts, and [session.close()]. *)
Definition get_session : M unit := emit SessionOpen.

Definition session_execute (app : App) (sql : str) : M (list row) :=
  emit (SessionExecute sql) ;;
  match engine app sql with
  | StoreRaises cls msg => raise (PyException cls msg)
  | StoreRows rows => ret rows
  end.

Definition session_close : M unit := emit SessionClose.

(** A [pandas.DataFrame] built from a list of dicts: the column labels in
    the order the keys first appear, and the records. *)
Record DataFrame : Type := {
  columns : list str;
  records : list row
}.

Definition add_column (cols : list str) (c : str) : list str :=
  if existsb (str_eqb c) cols then cols else cols ++ [c].

Definition DataFrame_of_rows (rows : list row) : DataFrame :=
  {| columns := fold_left (fun cols r => fold_left add_column (map fst r) cols)
                          rows [];
     records := rows |}.

(** [len(df)] *)
Definition len (df : DataFrame) : nat := length (records df).

(** [c in df.columns] *)
Definition has_column (df : DataFrame) (c : str) : bool :=
  existsb (str_eqb c) (columns df).

(** The cell of a record under a column label; a missing cell is None. *)
Fixpoint cell (c : str) (r : row) : value :=
  match r with
  | [] => VNone
  | (k, v) :: r' => if str_eqb k c then v else cell c r'
  end.

Fixpoint set_cell (c : str) (v : value) (r : row) : row :=
  match r with
  | [] => [(c, v)]
  | (k, w) :: r' => if str_eqb k c then (k, v) :: r' else (k, w) :: set_cell c v r'
  end.

(** [df[c]] *)
Definition column (df : DataFrame) (c : str) : list value :=
  map (cell c) (records df).

(** [df.columns[i]], an [IndexError] when [i] is out of range. *)
Definition columns_at (cols : list str) (i : nat) : M str :=
  match nth_error cols i with
  | Some c => ret c
  | None =>
      raise (IndexError (lit "index " ++ str_of_N (N.of_nat i)
                         ++ lit " is out of bounds for axis 0 with size "
                         ++ str_of_N (N.of_nat (length cols))))
  end.

(** [df.select_dtypes(include=['number']).columns]: the columns whose cells
    are integers or floats, missing cells allowed next to them. *)
Definition is_number (v : value) : bool :=
  match v with VInt _ | VFloat _ => true | _ => false end.

Definition is_none (v : value) : bool :=
  match v with VNone => true | _ => false end.

Definition numeric_column (df : DataFrame) (c : str) : bool :=
  forallb (fun v => is_number v || is_none v) (column df c)
  && existsb is_number (column df c).

Definition numeric_columns (df : DataFrame) : list str :=
  filter (numeric_column df) (columns df).

(** [df['date'] = pd.to_datetime(df['date'])], record by record. *)
Fixpoint to_datetime_records (app : App) (c : str) (rs : list row)
  : M (list row) :=
  match rs with
  | [] => ret []
  | r :: rs' =>
      match to_datetime app (cell c r) with
      | DtRaises cls msg => raise (PyException cls msg)
      | DtTimestamp ns =>
          rs'' <- to_datetime_records app c rs' ;;
          ret (set_cell c (VTimestamp ns) r :: rs'')
      | DtNaT =>
          rs'' <- to_datetime_records app c rs' ;;
          ret (set_cell c VNaT r :: rs'')
      end
  end.

Definition to_datetime_column (app : App) (df : DataFrame) (c : str)
  : M DataFrame :=
  rs <- to_datetime_records app c (records df) ;;
  ret {| columns := columns df; records := rs |}.

(** The order [sort_values] uses on a column of timestamps: ascending, the
    missing ones last. *)
Definition timestamp_leb (a b : value) : bool :=
  match a, b with
  | VTimestamp x, VTimestamp y => (x <=? y)%Z
  | _, VTimestamp _ => false
  | _, _ => true
  end.

Fixpoint insert_sorted (c : str) (r : row) (rs : list row) : list row :=
  match rs with
  | [] => [r]
  | r' :: rs' =>
      if timestamp_leb (cell c r) (cell c r') then r :: rs
      else r' :: insert_sorted c r rs'
  end.

(** [df.sort_values(c)] (pandas leaves the order of equal keys open; here
    they keep their order). *)
Definition sort_values (df : DataFrame) (c : str) : DataFrame :=
  {| columns := columns df;
     records := fold_right (insert_sorted c) [] (records df) |}.

(** ** The handlers of [main.py] *)

Definition DATE : str := lit "date".
Definition LINE : str := lit "line".
Definition BAR : str := lit "bar".
Definition PIE : str := lit "pie".
Definition HISTOGRAM : str := lit "histogram".

(** The body of the successful [/query] answer (lines 89-94). *)
Record QueryResponse : Type := {
  question : str;
  sql_query : str;
  answer : str;
  data : list row
}.

(** [answer_question], the handler of [/query] (lines 67-99). *)
Definition answer_question (app : App) (question : str) : M QueryResponse :=
  try_except
    (sql_query <- generate_sql_query (llm_helper app) question SCHEMA_INFO ;;
     if startswith sql_query ERROR then raise (HTTPException 400 sql_query)
     else
       get_session ;;
       rows <- try_finally (session_execute app sql_query) session_close ;;
       formatted_response <-
         format_response (llm_helper app) question (str_of_rows app rows) ;;
       if startswith formatted_response ERROR
       then raise (HTTPException 400 formatted_response)
       else ret {| question := question;
                   sql_query := sql_query;
                   answer := formatted_response;
                   data := rows |})
    (fun e =>
       match e with
       | HTTPException _ _ => raise e
       | PyException _ _ => raise (HTTPException 500 (str_of_exn e))
       end).

(** The generator [generate] inside [answer_question_stream], the handler
    of [/query/stream] (lines 101-136). *)
Definition generate (app : App) (question : str) : M unit :=
  try_except
    (sql_query <- generate_sql_query (llm_helper app) question SCHEMA_INFO ;;
     if startswith sql_query ERROR
     then emit (Yield (lit "Error: " ++ sql_query ++ [NL]))
     else
       emit (Yield (lit "Generated SQL: " ++ sql_query ++ [NL; NL])) ;;
       get_session ;;
       rows <- try_finally (session_execute app sql_query) session_close ;;
       formatted_response <-
         format_response (llm_helper app) question (str_of_rows app rows) ;;
       if startswith formatted_response ERROR
       then emit (Yield (lit "Error: " ++ formatted_response ++ [NL]))
       else
         for_each (split formatted_response)
                  (fun word => emit (Yield (word ++ [SPACE])) ;; emit Sleep))
    (fun e => emit (Yield (lit "Error: " ++ str_of_exn e ++ [NL]))).

(** The chunks a trace yields, in order. *)
Fixpoint chunks (tr : list event) : list str :=
  match tr with
  | [] => []
  | Yield chunk :: tr' => chunk :: chunks tr'
  | _ :: tr' => chunks tr'
  end.

(** The body [StreamingResponse(generate(), ...)] sends when the client
    reads it to the end. *)
Definition answer_question_stream (app : App) (question : str) : list str :=
  chunks (events (generate app question)).

(** [not chart_type] for an optional string: None or empty. *)
Definition not_given (chart_type : option str) : bool :=
  match chart_type with
  | None => true
  | Some s => is_empty s
  end.

(** Lines 160-166: the chart type, from the hint or from the rows. *)
Definition select_chart_type (chart_type : option str) (df : DataFrame) : str :=
  if not_given chart_type then
    if has_column df DATE && (3 <? len df)%nat then LINE
    else if (len df <=? 10)%nat then BAR
    else HISTOGRAM
  else match chart_type with
       | Some s => s
       | None => []
       end.

(** Lines 169-186: the chart itself. *)
Definition draw_chart (app : App) (df : DataFrame) (chart_type : str) : M unit :=
  if has_column df DATE then
    df <- to_datetime_column app df DATE ;;
    let df := sort_values df DATE in
    if str_eqb chart_type LINE then
      for_each (numeric_columns df)
               (fun col =>
                  if negb (str_eqb col DATE)
                  then emit (Plt (PltPlot (column df DATE) (column df col) col))
                  else ret tt) ;;
      emit (Plt PltLegend)
    else if str_eqb chart_type BAR then
      y <- columns_at (numeric_columns df) 0 ;;
      emit (Plt (DfPlotBar DATE y (column df DATE) (column df y)))
    else ret tt
  else
    x <- columns_at (columns df) 0 ;;
    if str_eqb chart_type BAR then
      y <- columns_at (columns df) 1 ;;
      emit (Plt (DfPlotBar x y (column df x) (column df y)))
    else if str_eqb chart_type PIE then
      y <- columns_at (columns df) 1 ;;
      emit (Plt (PltPie (column df y) (column df x)))
    else ret tt.

(** [visualize_data], the handler of [/query/visualize] (lines 138-201); a
    normal return stands for the PNG response. *)
Definition visualize_data (app : App) (question : str)
    (chart_type : option str) : M unit :=
  try_except
    (sql_query <- generate_sql_query (llm_helper app) question SCHEMA_INFO ;;
     if startswith sql_query ERROR then raise (HTTPException 400 sql_query)
     else
       get_session ;;
       df <- try_finally
               (rows <- session_execute app sql_query ;;
                ret (DataFrame_of_rows rows))
               session_close ;;
       emit (Plt PltFigure) ;;
       emit (Plt (PltStyleUse (lit "ggplot"))) ;;
       let chart_type := select_chart_type chart_type df in
       draw_chart app df chart_type ;;
       emit (Plt (PltTitle (lit "Visualization: " ++ firstn 50 question
                            ++ lit "..."))) ;;
       emit (Plt PltXticks) ;;
       emit (Plt PltTightLayout) ;;
       emit (Plt PltSavefig) ;;
       emit (Plt PltClose) ;;
       ret tt)
    (fun e => raise (HTTPException 500 (str_of_exn e))).

(** [clean_answer], the handler of [/query/clean] (lines 216-236). *)
Definition clean_answer (app : App) (question : str) : M str :=
  try_except
    (sql_query <- generate_sql_query (llm_helper app) question SCHEMA_INFO ;;
     if startswith sql_query ERROR then ret (lit "Error: " ++ sql_query)
     else
       get_session ;;
       rows <- session_execute app sql_query ;;
       session_close ;;
       formatted_response <-
         format_response (llm_helper app) question (str_of_rows app rows) ;;
       ret formatted_response)
    (fun e => ret (lit "Error processing request: " ++ str_of_exn e)).

(** Sessions opened and sessions closed in a trace. *)
Definition is_open (ev : event) : bool :=
  match ev with SessionOpen => true | _ => false end.

Definition is_close (ev : event) : bool :=
  match ev with SessionClose => true | _ => false end.

Definition opened (tr : list event) : nat := length (filter is_open tr).
Definition closed (tr : list event) : nat := length (filter is_close tr).

(** The plot commands of a trace, in order. *)
Fixpoint plots (tr : list event) : list plot_cmd :=
  match tr with
  | [] => []
  | Plt cmd :: tr' => cmd :: plots tr'
  | _ :: tr' => plots tr'
  end.

(** ** Notions used in the statements *)

(** No code point of [w] is whitespace. *)
Definition nospace (w : str) : bool := forallb (fun c => negb (isspace c)) w.

(** A word as [split] gives them: not empty and without whitespace. *)
Definition word (w : str) : Prop := w <> [] /\ nospace w = true.

Definition DASHES : str := [DASH; DASH].

(** Add a code point at the end of the last word. *)
Fixpoint snoc_last (c : char) (ws : list str) : list str :=
  match ws with
  | [] => [[c]]
  | w :: ws' =>
      match ws' with
      | [] => [w ++ [c]]
      | _ :: _ => w :: snoc_last c ws'
      end
  end.

(** Everything after the fence step: comments, whitespace, semicolon. *)
Definition clean_body (sql : str) : str :=
  strip (ensure_semicolon (join [SPACE] (split (remove_line_comments sql)))).

(** Every whitespace code point is a space that no whitespace follows:
    whitespace comes in runs of one space. *)
Fixpoint single_spaced (s : str) : bool :=
  match s with
  | [] => true
  | c :: t =>
      (if isspace c
       then (c =? SPACE)%N
            && match t with [] => true | d :: _ => negb (isspace d) end
       else true)
      && single_spaced t
  end.

(** The events the language-model helper causes. *)
Definition is_llm_event (ev : event) : bool :=
  match ev with
  | LogError _ | LogDebug _ | ModelCall _ => true
  | _ => false
  end.

(** What a helper method returns for each behaviour of the backend: when
    the model is missing, raises or gives no text, the marker followed by
    the reason, a text that starts with the reserved prefix; otherwise the
    processed model text. *)
Definition generation_result (self : LLMHelper) (prompt : str)
    (config : GenerationConfig) (marker : str) (post : str -> str)
    (s : str) : Prop :=
  match model self with
  | None =>
      s = marker ++ lit "Model not initialized" /\ startswith s ERROR = true
  | Some m =>
      match m prompt config with
      | GenRaises e =>
          s = marker ++ str_of_exn e /\ startswith s ERROR = true
      | GenText [] =>
          s = marker ++ lit "Empty response from model"
          /\ startswith s ERROR = true
      | GenText (c :: t) => s = post (c :: t)
      end
  end.



(** The events of the scoped execution of a statement. *)
Definition session_events (sql : str) : list event :=
  [SessionOpen; SessionExecute sql; SessionClose].

(** An event that neither opens nor closes a session. *)
Definition no_session_event (ev : event) : bool :=
  negb (is_open ev) && negb (is_close ev).

(** A computation that neither opens nor closes a session. *)
Definition quiet {A} (m : M A) : Prop :=
  forallb no_session_event (events m) = true.

(** The events of the loop that streams the words. *)
Definition word_events (ws : list str) : list event :=
  flat_map (fun w => [Yield (w ++ [SPACE]); Sleep]) ws.

(** The chunk of a word of the answer: the word and a space. *)
Definition word_chunk (word : str) : str := word ++ [SPACE].


(** ** Concrete backends, stores and requests *)

(** The raw text of a model that closes its fenced block with a line
    break. *)
Definition raw_fence_newline : str :=
  lit "```sql" ++ [NL] ++ lit "SELECT 1;" ++ [NL] ++ lit "```" ++ [NL].

Definition raw_fenced_select : str :=
  lit "```sql" ++ [NL] ++ lit "SELECT * FROM product_total_sales -- all"
  ++ [NL] ++ lit "```".

(** A backend that always answers with the same text. *)
Definition mock_llm (text : str) : LLMHelper :=
  {| model_name := lit "models/gemini-1.5-flash";
     model := Some (fun _ _ => GenText text) |}.

(** A store that knows no table. *)
Definition app_store_fails : App :=
  {| llm_helper := mock_llm (lit "SELECT COUNT(*) FROM orders");
     engine := fun _ => StoreRaises "OperationalError"
                                    (lit "no such table: orders");
     str_of_rows := fun _ => lit "[]";
     to_datetime := fun _ => DtNaT |}.

Definition question_orders : str := lit "How many orders were placed?".

(** Synthetic row sets: [n] rows of daily sales with a date column, and
    [n] rows of sales per item without one. *)
Definition dated_row : row :=
  [(DATE, VStr (lit "2024-01-01")); (lit "total_sales", VInt 10)].

Definition item_row : row :=
  [(lit "item_id", VStr (lit "A1")); (lit "total_sales", VInt 10)].

(** A backend that answers the SQL prompt with one text and any other
    prompt with another. *)
Definition scripted_llm (sql_text answer_text : str) : LLMHelper :=
  {| model_name := lit "models/gemini-1.5-flash";
     model :=
       Some (fun prompt _ =>
               if startswith prompt (lit "You are an expert SQLite SQL developer.")
               then GenText sql_text
               else GenText answer_text) |}.

Definition day1 : str := lit "2024-01-01".
Definition day2 : str := lit "2024-01-02".

(** [pd.to_datetime] on the two days of the example, in nanoseconds. *)
Definition parse_day (v : value) : datetime_outcome :=
  match v with
  | VStr s =>
      if str_eqb s day1 then DtTimestamp 1704067200000000000
      else if str_eqb s day2 then DtTimestamp 1704153600000000000
      else DtRaises "ValueError" (lit "Unknown datetime string format")
  | VNone => DtNaT
  | _ => DtRaises "TypeError" (lit "not convertible to datetime")
  end.

Definition TOTAL_SALES : str := lit "total_sales".
Definition TOTAL_UNITS : str := lit "total_units_ordered".

(** 1234.5 and 99.25 as binary floats. *)
Definition f1234_5 : spec_float := S754_finite false 2469 (-1).
Definition f99_25 : spec_float := S754_finite false 397 (-2).

(** Two days of sales, the later day first. *)
Definition rows_two_days : list row :=
  [ [(DATE, VStr day2); (TOTAL_SALES, VFloat f1234_5); (TOTAL_UNITS, VInt 7)];
    [(DATE, VStr day1); (TOTAL_SALES, VFloat f99_25); (TOTAL_UNITS, VInt 3)] ].



Definition sql_daily : str :=
  lit "SELECT date, total_sales, total_units_ordered FROM product_total_sales;".

Definition app_two_days : App :=
  {| llm_helper := scripted_llm sql_daily (lit "Sales rose from day to day.");
     engine := fun _ => StoreRows rows_two_days;
     str_of_rows := fun _ => lit "[...]";
     to_datetime := parse_day |}.

Definition question_daily : str := lit "Daily sales and units".

Definition sql_june : str :=
  lit "SELECT item_id, total_sales FROM product_total_sales WHERE date = '2031-06-01';".

Definition app_no_rows : App :=
  {| llm_helper := scripted_llm sql_june (lit "No sales were recorded.");
     engine := fun _ => StoreRows [];
     str_of_rows := fun _ => lit "[]";
     to_datetime := parse_day |}.

Definition question_june : str := lit "Sales per item on 1 June 2031".

(** The end-to-end example of the specification. *)
Definition sql_yesterday : str :=
  lit "SELECT SUM(total_sales) FROM product_total_sales WHERE date = '2024-01-01';".

Definition answer_yesterday : str :=
  lit "Total sales yesterday were  1,234.50 in all." ++ [NL].

Definition rows_yesterday : list row :=
  [ [(lit "SUM(total_sales)", VFloat f1234_5)] ].

Definition app_sales : App :=
  {| llm_helper := scripted_llm sql_yesterday answer_yesterday;
     engine := fun _ => StoreRows rows_yesterday;
     str_of_rows := fun _ => lit "[{'SUM(total_sales)': 1234.5}]";
     to_datetime := parse_day |}.

Definition question_yesterday : str := lit "What was total sales yesterday?".

(** ** Further inputs *)

(** A statement between line breaks, as inside a fenced block. *)
Definition raw_padded_select : str := [NL] ++ lit "SELECT 1 " ++ [NL].

(** A fenced block that holds a comment and no statement. *)
Definition raw_comment_only : str :=
  lit "```sql" ++ [NL] ++ lit "-- no query can answer this" ++ [NL] ++ lit "```".

(** A refusal in prose that happens to begin with the reserved prefix. *)
Definition raw_refusal : str := lit "Errors in the question: no such metric".

Definition app_refusal : App :=
  {| llm_helper := mock_llm raw_refusal;
     engine := fun _ => StoreRows [];
     str_of_rows := fun _ => lit "[]";
     to_datetime := fun _ => DtNaT |}.

(** A backend whose answer to the formatting prompt is blank. *)
Definition app_blank_answer : App :=
  {| llm_helper := scripted_llm sql_yesterday ([NL] ++ lit "  " ++ [NL]);
     engine := fun _ => StoreRows rows_yesterday;
     str_of_rows := fun _ => lit "[{'SUM(total_sales)': 1234.5}]";
     to_datetime := fun _ => DtNaT |}.

(** ** The handler of [/query/html] (main.py, lines 239-258) *)

(** The page of a successful answer, with the fields put in as they are. *)
Definition html_page (app : App) (result : QueryResponse) : str :=
  lines
    [ [];
      lit "        <html>";
      lit "            <head><title>Query Result</title></head>";
      lit "            <body>";
      lit "                <h1>" ++ question result ++ lit "</h1>";
      lit "                <p>" ++ answer result ++ lit "</p>";
      lit "                <details>";
      lit "                    <summary>Technical Details</summary>";
      lit "                    <pre>SQL: " ++ sql_query result ++ lit "</pre>";
      lit "                    <pre>Data: " ++ str_of_rows app (data result)
        ++ lit "</pre>";
      lit "                </details>";
      lit "            </body>";
      lit "        </html>";
      lit "        " ].

Definition html_error (e : exn) : str :=
  lit "<html><body>Error: " ++ str_of_exn e ++ lit "</body></html>".

Definition html_answer (app : App) (question : str) : M str :=
  try_except
    (result <- answer_question app question ;;
     ret (html_page app result))
    (fun e => ret (html_error e)).

(** The statements a trace sends to the store, in order. *)
Fixpoint executed (tr : list event) : list str :=
  match tr with
  | [] => []
  | SessionExecute sql :: tr' => sql :: executed tr'
  | _ :: tr' => executed tr'
  end.

(** A plot command that draws data. *)
Definition is_series (cmd : plot_cmd) : bool :=
  match cmd with
  | PltPlot _ _ _ | DfPlotBar _ _ _ _ | PltPie _ _ => true
  | _ => false
  end.

(** The plot commands around the chart: before it and after it. *)
Definition chart_prologue : list event :=
  [Plt PltFigure; Plt (PltStyleUse (lit "ggplot"))].

Definition chart_epilogue (question : str) : list event :=
  [Plt (PltTitle (lit "Visualization: " ++ firstn 50 question ++ lit "..."));
   Plt PltXticks; Plt PltTightLayout; Plt PltSavefig; Plt PltClose].

(** The line that announces the statement in the stream. *)
Definition sql_line (sql : str) : str :=
  lit "Generated SQL: " ++ sql ++ [NL; NL].

(** An inline error of the stream. *)
Definition error_line (msg : str) : str := lit "Error: " ++ msg ++ [NL].

(** A count: one row with one column. *)
Definition sql_count : str := lit "SELECT COUNT(*) FROM product_total_sales;".

Definition rows_count : list row := [ [(lit "COUNT(*)", VInt 42)] ].

Definition app_count : App :=
  {| llm_helper := scripted_llm sql_count (lit "There are 42 rows.");
     engine := fun _ => StoreRows rows_count;
     str_of_rows := fun _ => lit "[{'COUNT(*)': 42}]";
     to_datetime := parse_day |}.

Definition question_count : str := lit "How many sales rows are there?".

(** Eleven items without a date. *)
Definition sql_items : str := lit "SELECT item_id, total_sales FROM product_total_sales;".

Definition app_items : App :=
  {| llm_helper := scripted_llm sql_items (lit "Eleven items were sold.");
     engine := fun _ => StoreRows (repeat item_row 11);
     str_of_rows := fun _ => lit "[...]";
     to_datetime := parse_day |}.

Definition question_items : str := lit "Sales per item".

(** An event that sends no statement to the store. *)
Definition no_execute_event (ev : event) : bool :=
  match ev with SessionExecute _ => false | _ => true end.

(** Every event of a computation satisfies [P]. *)
Definition only (P : event -> bool) {A} (m : M A) : Prop :=
  forallb P (events m) = true.

(** No statement, or the one sanitized text of the backend, which does
    not start with the reserved prefix. *)
Definition sanitized_or_none (app : App) (q : str) (sqls : list str) : Prop :=
  sqls = [] \/
  exists m text,
    model (llm_helper app) = Some m /\
    m (sql_prompt q SCHEMA_INFO) sql_config = GenText text /\
    sqls = [_clean_sql_response text] /\
    startswith (_clean_sql_response text) ERROR = false.

(** ** [LLMHelper]: construction, catalogue and [get_model_info]
    (src/llm_helper.py, lines 18-69 and 202-215) *)

(** A model as [genai.list_models()] describes it, and as the catalogue
    keeps it (there the methods are filed under [supported_methods]). *)
Record ModelEntry : Type := {
  entry_name : str;
  entry_description : str;
  entry_input_token_limit : N;
  entry_output_token_limit : N;
  entry_supported_methods : list str
}.

(** A Python dict with text keys: the items in the order the keys were
    first set. *)
Definition dict (V : Type) : Type := list (str * V).

Fixpoint dict_get {V} (d : dict V) (k : str) : option V :=
  match d with
  | [] => None
  | (k', v) :: d' => if str_eqb k' k then Some v else dict_get d' k
  end.

Fixpoint dict_set {V} (d : dict V) (k : str) (v : V) : dict V :=
  match d with
  | [] => [(k, v)]
  | (k', v') :: d' =>
      if str_eqb k' k then (k', v) :: d' else (k', v') :: dict_set d' k v
  end.

Definition dict_keys {V} (d : dict V) : list str := map fst d.

(** [k in d] *)
Definition dict_mem {V} (d : dict V) (k : str) : bool :=
  match dict_get d k with Some _ => true | None => false end.

(** The SDK as the constructor meets it. *)
Inductive list_outcome : Type :=
| ListRaises (e : exn)
| ListModels (ms : list ModelEntry).

Inductive model_outcome : Type :=
| ModelRaises (e : exn)
| ModelHandle (m : str -> GenerationConfig -> gen_outcome).

Record Genai : Type := {
  list_models : list_outcome;              (* iterating [genai.list_models()] *)
  configure : str -> option exn;           (* [genai.configure(api_key=...)] *)
  GenerativeModel : str -> model_outcome   (* [genai.GenerativeModel(name)] *)
}.

(** The effects of the construction. *)
Inductive init_event : Type :=
| InitLogInfo (msg : str)
| InitLogError (msg : str)
| Configured (api_key : str).

(** Computations of the construction: as [M], over their own events. *)
Definition Init (A : Type) : Type := (result A * list init_event)%type.

Definition iret {A} (a : A) : Init A := (Return a, []).

Definition ibind {A B} (m : Init A) (k : A -> Init B) : Init B :=
  match m with
  | (Return a, evs) => let (r, evs') := k a in (r, evs ++ evs')
  | (Raise e, evs) => (Raise e, evs)
  end.

Definition iraise {A} (e : exn) : Init A := (Raise e, []).

Definition iemit (ev : init_event) : Init unit := (Return tt, [ev]).

Definition itry {A} (body : Init A) (handler : exn -> Init A) : Init A :=
  match body with
  | (Return a, evs) => (Return a, evs)
  | (Raise e, evs) => let (r, evs') := handler e in (r, evs ++ evs')
  end.

Definition GENERATE_CONTENT : str := lit "generateContent".

(** ['generateContent' in m.supported_generation_methods] *)
Definition supports_generate (m : ModelEntry) : bool :=
  existsb (str_eqb GENERATE_CONTENT) (entry_supported_methods m).

(** The dict comprehension of [_get_available_models]: a later model of
    the same name replaces the earlier one. *)
Definition catalogue_of (ms : list ModelEntry) : dict ModelEntry :=
  fold_left
    (fun d m => if supports_generate m then dict_set d (entry_name m) m else d)
    ms [].

(** [LLMHelper._get_available_models] (lines 53-69). *)
Definition _get_available_models (genai : Genai) : Init (dict ModelEntry) :=
  itry
    (match list_models genai with
     | ListRaises e => iraise e
     | ListModels ms => iret (catalogue_of ms)
     end)
    (fun e =>
       ibind (iemit (InitLogError (lit "Error fetching available models: "
                                   ++ str_of_exn e)))
             (fun _ => iret [])).

(** The object the constructor builds: the two fields the query path
    reads, and the catalogue. *)
Record LLMHelperObject : Type := {
  helper : LLMHelper;
  available_models : dict ModelEntry
}.

(** [not d] for a dict. *)
Definition dict_is_empty {V} (d : dict V) : bool :=
  match d with [] => true | _ :: _ => false end.

(** [LLMHelper.__init__] (lines 18-51); [api_key] is what
    [os.getenv('GEMINI_API_KEY')] gives. *)
Definition __init__ (genai : Genai) (api_key : option str) (model_name : str)
  : Init LLMHelperObject :=
  ibind (_get_available_models genai) (fun available_models =>
  itry
    (match api_key with
     | None | Some [] =>
         iraise (ValueError (lit "GEMINI_API_KEY not found in .env file"))
     | Some key =>
         ibind (iemit (Configured key)) (fun _ =>
         match configure genai key with
         | Some e => iraise e
         | None =>
             if dict_is_empty available_models
             then iraise (RuntimeError (lit "No available models found"))
             else if negb (dict_mem available_models model_name)
             then iraise (ValueError
                            (lit "Model " ++ model_name ++ lit " not available."
                             ++ [NL] ++ lit "Available models:" ++ [NL]
                             ++ join [NL] (dict_keys available_models)))
             else
               match GenerativeModel genai model_name with
               | ModelRaises e => iraise e
               | ModelHandle m =>
                   ibind (iemit (InitLogInfo
                                   (lit "Successfully initialized model: "
                                    ++ model_name)))
                         (fun _ =>
                            iret {| helper := {| model_name := model_name;
                                                 model := Some m |};
                                    available_models := available_models |})
               end
         end)
     end)
    (fun e =>
       ibind (iemit (InitLogError (lit "Failed to initialize Gemini: "
                                   ++ str_of_exn e)))
             (fun _ => iraise (RuntimeError (lit "LLM initialization failed: "
                                             ++ str_of_exn e))))).

(** The dict [get_model_info] returns. *)
Inductive ModelInfo : Type :=
| InfoError (error : str)
| Info (name description : str) (input_token_limit output_token_limit : N)
       (supported_methods : list str) (status : str).

(** [LLMHelper.get_model_info] (lines 202-215). *)
Definition get_model_info (self : LLMHelperObject) : ModelInfo :=
  match model (helper self) with
  | None => InfoError (lit "Model not initialized")
  | Some _ =>
      let model_info := dict_get (available_models self)
                                 (model_name (helper self)) in
      Info (model_name (helper self))
           (match model_info with Some e => entry_description e | None => [] end)
           (match model_info with Some e => entry_input_token_limit e | None => 0%N end)
           (match model_info with Some e => entry_output_token_limit e | None => 0%N end)
           (match model_info with Some e => entry_supported_methods e | None => [] end)
           (lit "active")
  end.

(** An SDK with two models, one of which cannot generate content. *)
Definition flash_entry : ModelEntry :=
  {| entry_name := lit "models/gemini-1.5-flash";
     entry_description := lit "Fast and versatile";
     entry_input_token_limit := 1048576;
     entry_output_token_limit := 8192;
     entry_supported_methods := [lit "generateContent"; lit "countTokens"] |}.

Definition embedding_entry : ModelEntry :=
  {| entry_name := lit "models/embedding-001";
     entry_description := lit "Embeddings";
     entry_input_token_limit := 2048;
     entry_output_token_limit := 1;
     entry_supported_methods := [lit "embedContent"] |}.

Definition genai_two_models : Genai :=
  {| list_models := ListModels [embedding_entry; flash_entry];
     configure := fun _ => None;
     GenerativeModel := fun _ => ModelHandle (fun _ _ => GenText sql_yesterday) |}.

Definition flash_object : LLMHelperObject :=
  {| helper := {| model_name := lit "models/gemini-1.5-flash";
                  model := Some (fun _ _ => GenText sql_yesterday) |};
     available_models := [(lit "models/gemini-1.5-flash", flash_entry)] |}.

(** ** The CSV loader (src/datab.py, lines 36-136)

    The loader works on a database and on files.  The database is kept as
    the rows of each table; the files, the parsers of pandas and the faults
    of the store are given from outside.  What it prints is left out. *)

Definition DB : Type := dict (list row).

(** The rows of a table, none when the table holds nothing yet. *)
Definition table_rows (db : DB) (table : str) : list row :=
  match dict_get db table with
  | Some rows => rows
  | None => []
  end.

Inductive read_outcome : Type :=
| ReadRaises (e : exn)
| ReadFrame (df : DataFrame).

Inductive convert_outcome : Type :=
| ConvertRaises (e : exn)
| Converted (cells : list value).

Record LoadEnv : Type := {
  csv_exists : str -> bool;                    (* [os.path.exists] of the file *)
  read_csv : str -> read_outcome;              (* [pd.read_csv] of the file *)
  to_datetime_coerce : list value -> convert_outcome;
                      (* [pd.to_datetime(column, errors='coerce')] *)
  to_numeric_coerce : list value -> convert_outcome;
                      (* [pd.to_numeric(column, errors='coerce')] *)
  count_fails : str -> option exn;             (* a fault of the count query *)
  to_sql_fails : str -> list row -> option exn (* a fault of [df.to_sql] *)
}.

(** What the loader does to its session and to the store. *)
Inductive load_event : Type :=
| Opened
| Counted (table : str)
| Wrote (table : str) (rows : list row)
| Committed
| RolledBack
| Closed.

(** Computations of the loader: they read and change the database, and
    give a value or an exception with their events. *)
Definition Ld (A : Type) : Type := DB -> (result A * list load_event) * DB.

Definition lret {A} (a : A) : Ld A := fun db => ((Return a, []), db).

Definition lbind {A B} (m : Ld A) (k : A -> Ld B) : Ld B :=
  fun db =>
    match m db with
    | ((Return a, evs), db') =>
        match k a db' with
        | ((r, evs'), db'') => ((r, evs ++ evs'), db'')
        end
    | ((Raise e, evs), db') => ((Raise e, evs), db')
    end.

Definition lraise {A} (e : exn) : Ld A := fun db => ((Raise e, []), db).

Definition lemit (ev : load_event) : Ld unit :=
  fun db => ((Return tt, [ev]), db).

(** [try: body except Exception as e: handler(e)] *)
Definition ltry_except {A} (body : Ld A) (handler : exn -> Ld A) : Ld A :=
  fun db =>
    match body db with
    | ((Return a, evs), db') => ((Return a, evs), db')
    | ((Raise e, evs), db') =>
        match handler e db' with
        | ((r, evs'), db'') => ((r, evs ++ evs'), db'')
        end
    end.

(** [try: body finally: cleanup] *)
Definition ltry_finally {A} (body : Ld A) (cleanup : Ld unit) : Ld A :=
  fun db =>
    match body db with
    | ((r, evs), db') =>
        match cleanup db' with
        | ((Return _, evs'), db'') => ((r, evs ++ evs'), db'')
        | ((Raise e, evs'), db'') => ((Raise e, evs ++ evs'), db'')
        end
    end.

Definition PRODUCT_TOTAL_SALES : str := lit "product_total_sales".
Definition PRODUCT_AD_SALES : str := lit "product_ad_sales".
Definition PRODUCT_ELIGIBILITY : str := lit "product_eligibility".
Definition ELIGIBILITY_DATETIME_UTC : str := lit "eligibility_datetime_utc".

(** [MODEL_MAPPING.get(table_name) is not None] (lines 37-41). *)
Definition in_model_mapping (table_name : str) : bool :=
  str_eqb table_name PRODUCT_TOTAL_SALES
  || str_eqb table_name PRODUCT_AD_SALES
  || str_eqb table_name PRODUCT_ELIGIBILITY.

(** [numeric_cols.get(table_name)] (lines 104-107): the columns to make
    numeric, none for a table that is not listed. *)
Definition numeric_cols (table_name : str) : list str :=
  if str_eqb table_name PRODUCT_TOTAL_SALES
  then [lit "total_sales"; lit "total_units_ordered"]
  else if str_eqb table_name PRODUCT_AD_SALES
  then [lit "ad_sales"; lit "impressions"; lit "ad_spend"; lit "clicks";
        lit "units_sold"]
  else [].

(** [session.query(ModelClass).count()] *)
Definition count_rows (env : LoadEnv) (table_name : str) : Ld nat :=
  lbind (lemit (Counted table_name)) (fun _ =>
  match count_fails env table_name with
  | Some e => lraise e
  | None => fun db => ((Return (length (table_rows db table_name)), []), db)
  end).

(** [isna] on a cell: None, NaT and the float NaN. *)
Definition isna (v : value) : bool :=
  match v with
  | VNone | VNaT | VFloat S754_nan => true
  | _ => false
  end.

(** [df[c] = cells]: each record gets its cell, in order. *)
Fixpoint assign_column (c : str) (cells : list value) (rs : list row)
  : list row :=
  match rs, cells with
  | r :: rs', v :: cells' => set_cell c v r :: assign_column c cells' rs'
  | _, _ => rs
  end.

(** [df.dropna(subset=[c], inplace=True)] *)
Definition dropna (c : str) (df : DataFrame) : DataFrame :=
  {| columns := columns df;
     records := filter (fun r => negb (isna (cell c r))) (records df) |}.

(** One conversion step of the loader (lines 91-102, 111-115): the column
    is replaced by its converted cells and the rows whose cell is missing
    are dropped. *)
Definition convert_column (convert : list value -> convert_outcome)
    (c : str) (df : DataFrame) : Ld DataFrame :=
  match convert (column df c) with
  | ConvertRaises e => lraise e
  | Converted cells =>
      lret (dropna c {| columns := columns df;
                        records := assign_column c cells (records df) |})
  end.

(** The same, when the frame has the column. *)
Definition convert_if_present (convert : list value -> convert_outcome)
    (c : str) (df : DataFrame) : Ld DataFrame :=
  if has_column df c then convert_column convert c df else lret df.

(** The loop over the numeric columns of the table (lines 109-117). *)
Fixpoint convert_numeric (env : LoadEnv) (cols : list str) (df : DataFrame)
  : Ld DataFrame :=
  match cols with
  | [] => lret df
  | c :: cols' =>
      lbind (convert_if_present (to_numeric_coerce env) c df)
            (convert_numeric env cols')
  end.

(** [df.empty]: no row or no column. *)
Definition frame_empty (df : DataFrame) : bool :=
  match records df, columns df with
  | _ :: _, _ :: _ => false
  | _, _ => true
  end.

(** [df.to_sql(table_name, con=engine, if_exists='append', index=False)] *)
Definition to_sql (env : LoadEnv) (table_name : str) (df : DataFrame)
  : Ld unit :=
  match to_sql_fails env table_name (records df) with
  | Some e => lraise e
  | None =>
      fun db =>
        ((Return tt, [Wrote table_name (records df)]),
         dict_set db table_name (table_rows db table_name ++ records df))
  end.

(** The cleaning of the frame (lines 90-117). *)
Definition clean_frame (env : LoadEnv) (table_name : str) (df : DataFrame)
  : Ld DataFrame :=
  lbind (convert_if_present (to_datetime_coerce env) DATE df) (fun df =>
  lbind (convert_if_present (to_datetime_coerce env) ELIGIBILITY_DATETIME_UTC df)
        (fun df =>
  convert_numeric env (numeric_cols table_name) df)).

(** [load_data_from_csv] (lines 55-136). *)
Definition load_data_from_csv (env : LoadEnv) (table_name csv_file_name : str)
  : Ld unit :=
  if negb (csv_exists env csv_file_name) then lret tt
  else
    lbind (lemit Opened) (fun _ =>
    ltry_finally
      (ltry_except
         (if negb (in_model_mapping table_name)
          then lemit Closed
          else
            lbind (count_rows env table_name) (fun n =>
            if (0 <? n)%nat then lemit Closed
            else
              match read_csv env csv_file_name with
              | ReadRaises e => lraise e
              | ReadFrame df =>
                  lbind (clean_frame env table_name df) (fun df =>
                  if negb (frame_empty df)
                  then lbind (to_sql env table_name df)
                             (fun _ => lemit Committed)
                  else lret tt)
              end))
         (fun e => lemit RolledBack))
      (lemit Closed)).

(** [init_db] of [datab.py] (lines 43-53): the three loads in a row. *)
Definition init_db_load (env : LoadEnv) : Ld unit :=
  lbind (load_data_from_csv env PRODUCT_TOTAL_SALES
                            (lit "product_total_sales.csv")) (fun _ =>
  lbind (load_data_from_csv env PRODUCT_AD_SALES
                            (lit "product_ad_sales.csv")) (fun _ =>
  load_data_from_csv env PRODUCT_ELIGIBILITY
                     (lit "product_eligibility.csv"))).

(** The rows a trace writes, and how often it closes the session. *)
Fixpoint written (tr : list load_event) : list (str * list row) :=
  match tr with
  | [] => []
  | Wrote table rows :: tr' => (table, rows) :: written tr'
  | _ :: tr' => written tr'
  end.

Definition closes (tr : list load_event) : nat :=
  length (filter (fun ev => match ev with Closed => true | _ => false end) tr).

Definition opens (tr : list load_event) : nat :=
  length (filter (fun ev => match ev with Opened => true | _ => false end) tr).

(** No record of the frame lacks its cell in the column [c]. *)
Definition column_complete (c : str) (df : DataFrame) : Prop :=
  forall r, In r (records df) -> isna (cell c r) = false.

(** The columns the loader cleans for a table. *)
Definition cleaned_columns (table_name : str) : list str :=
  DATE :: ELIGIBILITY_DATETIME_UTC :: numeric_cols table_name.

(** A CSV of daily sales with an unreadable date and an unreadable
    amount, and the parsers on its cells. *)
Definition csv_sales : DataFrame :=
  {| columns := [DATE; lit "item_id"; TOTAL_SALES; TOTAL_UNITS];
     records :=
       [ [(DATE, VStr day1); (lit "item_id", VStr (lit "A1"));
          (TOTAL_SALES, VStr (lit "12")); (TOTAL_UNITS, VInt 3)];
         [(DATE, VStr (lit "yesterday")); (lit "item_id", VStr (lit "A2"));
          (TOTAL_SALES, VStr (lit "7")); (TOTAL_UNITS, VInt 1)];
         [(DATE, VStr day2); (lit "item_id", VStr (lit "A3"));
          (TOTAL_SALES, VStr (lit "n/a")); (TOTAL_UNITS, VInt 2)] ] |}.

Definition coerce_day (v : value) : value :=
  match parse_day v with
  | DtTimestamp ns => VTimestamp ns
  | _ => VNaT
  end.

Definition coerce_number (v : value) : value :=
  match v with
  | VInt z => VInt z
  | VFloat f => VFloat f
  | VStr s =>
      if str_eqb s (lit "12") then VInt 12
      else if str_eqb s (lit "7") then VInt 7
      else VFloat S754_nan
  | _ => VFloat S754_nan
  end.

Definition env_sales : LoadEnv :=
  {| csv_exists := fun _ => true;
     read_csv := fun _ => ReadFrame csv_sales;
     to_datetime_coerce := fun cells => Converted (map coerce_day cells);
     to_numeric_coerce := fun cells => Converted (map coerce_number cells);
     count_fails := fun _ => None;
     to_sql_fails := fun _ _ => None |}.

Definition sales_csv_name : str := lit "product_total_sales.csv".

(** The ways a run of the loader can go: its events and the database it
    leaves, from the database [db] it starts on. *)
Inductive load_path (env : LoadEnv) (table_name csv_file_name : str) (db : DB)
  : list load_event -> DB -> Prop :=
| LoadNoFile :
    csv_exists env csv_file_name = false ->
    load_path env table_name csv_file_name db [] db
| LoadUnknownTable :
    csv_exists env csv_file_name = true ->
    in_model_mapping table_name = false ->
    load_path env table_name csv_file_name db [Opened; Closed; Closed] db
| LoadHasData :
    csv_exists env csv_file_name = true ->
    in_model_mapping table_name = true ->
    count_fails env table_name = None ->
    table_rows db table_name <> [] ->
    load_path env table_name csv_file_name db
      [Opened; Counted table_name; Closed; Closed] db
| LoadFailed :
    csv_exists env csv_file_name = true ->
    in_model_mapping table_name = true ->
    count_fails env table_name <> None \/ table_rows db table_name = [] ->
    load_path env table_name csv_file_name db
      [Opened; Counted table_name; RolledBack; Closed] db
| LoadNothing :
    csv_exists env csv_file_name = true ->
    in_model_mapping table_name = true ->
    table_rows db table_name = [] ->
    load_path env table_name csv_file_name db
      [Opened; Counted table_name; Closed] db
| LoadWrote (df df' : DataFrame) :
    csv_exists env csv_file_name = true ->
    in_model_mapping table_name = true ->
    count_fails env table_name = None ->
    table_rows db table_name = [] ->
    read_csv env csv_file_name = ReadFrame df ->
    fst (fst (clean_frame env table_name df db)) = Return df' ->
    records df' <> [] ->
    load_path env table_name csv_file_name db
      [Opened; Counted table_name; Wrote table_name (records df');
       Committed; Closed]
      (dict_set db table_name (records df')).

(** ** A column of dates under another label *)

Definition stamp1 : str := lit "2024-01-01 00:00:00.000000".
Definition stamp2 : str := lit "2024-01-02 00:00:00.000000".

(** [pd.to_datetime] on the two stored timestamps, and on the two days. *)
Definition parse_stamp (v : value) : datetime_outcome :=
  match v with
  | VStr s =>
      if str_eqb s stamp1 then DtTimestamp 1704067200000000000
      else if str_eqb s stamp2 then DtTimestamp 1704153600000000000
      else parse_day v
  | _ => parse_day v
  end.

(** A row of [product_eligibility], with the columns [SCHEMA_INFO] gives
    the table. *)
Definition eligibility_row (stamp item : str) : row :=
  [ (ELIGIBILITY_DATETIME_UTC, VStr stamp);
    (lit "item_id", VStr item);
    (lit "eligibility", VStr (lit "TRUE"));
    (lit "message", VNone) ].

Definition rows_eligibility : list row :=
  [ eligibility_row stamp1 (lit "A1");
    eligibility_row stamp1 (lit "A2");
    eligibility_row stamp2 (lit "A1");
    eligibility_row stamp2 (lit "A2");
    eligibility_row stamp2 (lit "A3") ].

Definition sql_eligibility : str :=
  lit "SELECT * FROM product_eligibility LIMIT 5;".

Definition app_eligibility : App :=
  {| llm_helper := scripted_llm sql_eligibility (lit "Five items were checked.");
     engine := fun _ => StoreRows rows_eligibility;
     str_of_rows := fun _ => lit "[...]";
     to_datetime := parse_stamp |}.

(** *** The selection policy in the words of the specification *)

(** A cell that holds a date: a timestamp, or a text that [pd.to_datetime]
    turns into one. *)
Definition is_date_cell (app : App) (v : value) : bool :=
  match v with
  | VTimestamp _ => true
  | VStr _ =>
      match to_datetime app v with
      | DtTimestamp _ => true
      | _ => false
      end
  | _ => false
  end.

(** "A date-like column": a column of a frame with rows, every cell of
    which holds a date. The label plays no part. *)
Definition spec_date_like (app : App) (df : DataFrame) (c : str) : bool :=
  (0 <? len df)%nat && forallb (is_date_cell app) (column df c).

(** "If a date-like column exists and row count > 3: line chart; else if
    row count <= 10: bar chart; else: histogram." *)
Definition spec_select_chart_type (app : App) (df : DataFrame) : str :=
  if existsb (spec_date_like app df) (columns df) && (3 <? len df)%nat
  then LINE
  else if (len df <=? 10)%nat then BAR
  else HISTOGRAM.

(** ** Two requests *)

(** What the backend of a helper replies to a prompt, when the helper has
    one. *)
Definition reply (self : LLMHelper) (prompt : str) (config : GenerationConfig)
  : option gen_outcome :=
  match model self with
  | None => None
  | Some m => Some (m prompt config)
  end.

(** The process at a later request, [app'], meets what the request for
    [q] that was answered with [r] met in [app]: the backend replies to the
    two prompts of the request as it did, and the store gives the same
    outcome for the statement of [r], printed the same way. *)
Definition same_replies (app app' : App) (q : str) (r : QueryResponse) : Prop :=
  reply (llm_helper app') (sql_prompt q SCHEMA_INFO) sql_config
    = reply (llm_helper app) (sql_prompt q SCHEMA_INFO) sql_config /\
  engine app' (sql_query r) = engine app (sql_query r) /\
  str_of_rows app' (data r) = str_of_rows app (data r) /\
  reply (llm_helper app') (format_prompt q (str_of_rows app (data r)))
        format_config
    = reply (llm_helper app) (format_prompt q (str_of_rows app (data r)))
            format_config.

(** The process of the end-to-end example at a later time: the backend
    has used up its quota for every other question, and the store is
    locked for every other statement. *)
Definition llm_quota : LLMHelper :=
  {| model_name := lit "models/gemini-1.5-flash";
     model :=
       Some (fun prompt _ =>
               if contains question_yesterday prompt
               then if startswith prompt
                         (lit "You are an expert SQLite SQL developer.")
                    then GenText sql_yesterday
                    else GenText answer_yesterday
               else GenRaises (PyException "ResourceExhausted"
                                 (lit "429 Quota exceeded"))) |}.

Definition app_sales_later : App :=
  {| llm_helper := llm_quota;
     engine := fun sql =>
                 if str_eqb sql sql_yesterday then StoreRows rows_yesterday
                 else StoreRaises "OperationalError" (lit "database is locked");
     str_of_rows := fun _ => lit "[{'SUM(total_sales)': 1234.5}]";
     to_datetime := fun _ => DtNaT |}.

(* ================================================================== *)
(** * Part II: properties                                              *)
(* ================================================================== *)

(** ** The text functions on examples *)

Example clean_example_1 :
  _clean_sql_response
    (lit "```sql" ++ [NL] ++ lit "SELECT * FROM product_total_sales -- all" ++ [NL] ++ lit "```")
  = lit "SELECT * FROM product_total_sales;".
Proof. vm_compute. reflexivity. Qed.

Example clean_example_2 :
  _clean_sql_response (lit "```sql" ++ [NL] ++ lit "SELECT 1;" ++ [NL] ++ lit "```" ++ [NL])
  = lit "```sql SELECT 1; ```;".
Proof. vm_compute. reflexivity. Qed.

Example clean_example_3 :
  _clean_sql_response (lit "  a --x" ++ [NL] ++ lit "-" ++ [NL] ++ lit "- b ; ")
  = lit "a - - b ;".
Proof. vm_compute. reflexivity. Qed.

Example clean_example_4 : _clean_sql_response (lit "````") = lit ";".
Proof. vm_compute. reflexivity. Qed.

Example clean_example_5 :
  _clean_sql_response (lit "``````SELECT 1``````") = lit "```SELECT 1```;".
Proof. vm_compute. reflexivity. Qed.

Example split_example :
  split ([9%N] ++ lit " a  b" ++ [NL; 160%N] ++ lit "c ") = [lit "a"; lit "b"; lit "c"].
Proof. vm_compute. reflexivity. Qed.

Example strip_example : strip ([NL] ++ lit "  a b " ++ [NL]) = lit "a b".
Proof. vm_compute. reflexivity. Qed.

Example slice_example_1 : slice (lit "```sql```") 6 3 = [].
Proof. reflexivity. Qed.

Example slice_example_2 : slice (lit "````") 3 3 = [].
Proof. reflexivity. Qed.

Example slice_example_3 : slice (lit "```sql x ```") 6 3 = lit " x ".
Proof. reflexivity. Qed.

Example remove_line_comments_example :
  remove_line_comments (lit "a --x" ++ [NL] ++ lit "b-c ---" ++ [13%N] ++ lit "d")
  = lit "a " ++ [NL] ++ lit "b-c ".
Proof. vm_compute. reflexivity. Qed.

(** ** Text: prefixes, occurrences and separators *)

Arguments isspace : simpl never.

Lemma isspace_SPACE : isspace SPACE = true.
Proof. reflexivity. Qed.

Lemma nospace_not_In (p : str) (c : char) :
  nospace p = true -> isspace c = true -> ~ In c p.
Proof.
  unfold nospace. intros Hp Hc Hin.
  rewrite forallb_forall in Hp. apply Hp in Hin.
  rewrite Hc in Hin. discriminate.
Qed.

Lemma startswith_nil (s : str) : startswith s [] = true.
Proof. destruct s; reflexivity. Qed.

Lemma startswith_cons (c x : char) (s p : str) :
  startswith (c :: s) (x :: p) = (c =? x)%N && startswith s p.
Proof. reflexivity. Qed.

Lemma startswith_nil_l (p : str) : p <> [] -> startswith [] p = false.
Proof. destruct p; [congruence | reflexivity]. Qed.

Lemma startswith_app_same (p s : str) : startswith (p ++ s) p = true.
Proof.
  induction p as [|x p IH]; simpl.
  - apply startswith_nil.
  - now rewrite N.eqb_refl.
Qed.

(** A pattern without the code point [c] cannot reach across a [c]. *)
Lemma startswith_sep (p a b : str) (c : char) :
  ~ In c p -> startswith (a ++ c :: b) p = startswith a p.
Proof.
  revert a. induction p as [|x p IH]; intros a Hc.
  - now rewrite !startswith_nil.
  - destruct a as [|y a]; simpl.
    + destruct (N.eqb_spec c x) as [->|_]; [|reflexivity].
      exfalso. apply Hc. now left.
    + rewrite IH; [reflexivity|]. intro H. apply Hc. now right.
Qed.

Lemma contains_cons (p : str) (c : char) (s : str) :
  contains p (c :: s) = startswith (c :: s) p || contains p s.
Proof. reflexivity. Qed.

Lemma existsb_cons_eq {A} (f : A -> bool) (a : A) (l : list A) :
  existsb f (a :: l) = f a || existsb f l.
Proof. reflexivity. Qed.

Lemma contains_nil_r (p : str) : p <> [] -> contains p [] = false.
Proof. destruct p; [congruence | reflexivity]. Qed.

Lemma contains_cons_sep (p b : str) (c : char) :
  p <> [] -> ~ In c p -> contains p (c :: b) = contains p b.
Proof.
  intros Hp Hc. destruct p as [|x p]; [congruence|].
  change (contains (x :: p) (c :: b))
    with (startswith (c :: b) (x :: p) || contains (x :: p) b).
  simpl startswith.
  destruct (N.eqb_spec c x) as [->|_]; [|reflexivity].
  exfalso. apply Hc. now left.
Qed.

Lemma contains_sep (p a b : str) (c : char) :
  p <> [] -> ~ In c p ->
  contains p (a ++ c :: b) = contains p a || contains p b.
Proof.
  intros Hp Hc. induction a as [|y a IH].
  - simpl app. rewrite contains_cons_sep by assumption.
    now rewrite contains_nil_r.
  - change (contains p ((y :: a) ++ c :: b))
      with (startswith ((y :: a) ++ c :: b) p || contains p (a ++ c :: b)).
    rewrite startswith_sep by assumption. rewrite IH.
    change (contains p (y :: a)) with (startswith (y :: a) p || contains p a).
    now rewrite !orb_assoc.
Qed.

Lemma contains_snoc_sep (p a : str) (c : char) :
  p <> [] -> ~ In c p -> contains p (a ++ [c]) = contains p a.
Proof.
  intros Hp Hc. rewrite contains_sep by assumption.
  rewrite contains_nil_r by assumption. apply orb_false_r.
Qed.

Lemma contains_join (p : str) (c : char) (ws : list str) :
  p <> [] -> ~ In c p ->
  contains p (join [c] ws) = existsb (contains p) ws.
Proof.
  intros Hp Hc. induction ws as [|w ws IH].
  - now apply contains_nil_r.
  - destruct ws as [|w' ws].
    + simpl. now rewrite orb_false_r.
    + change (join [c] (w :: w' :: ws)) with (w ++ c :: join [c] (w' :: ws)).
      rewrite contains_sep by assumption. rewrite IH. reflexivity.
Qed.

(** ** Text: [split] and [join] *)

Lemma split_space (c : char) (t : str) :
  isspace c = true -> split (c :: t) = split t.
Proof. intro H. simpl. now rewrite H. Qed.

Lemma split_word_space (c d : char) (t : str) :
  isspace c = false -> isspace d = true ->
  split (c :: d :: t) = [c] :: split t.
Proof. intros Hc Hd. simpl. now rewrite Hc, Hd. Qed.

Lemma split_word_more (c d : char) (t : str) :
  isspace c = false -> isspace d = false ->
  split (c :: d :: t) = push_front c (split (d :: t)).
Proof.
  intros Hc Hd.
  change (split (c :: d :: t))
    with (if isspace c then split (d :: t)
          else if isspace d then [c] :: split (d :: t)
               else push_front c (split (d :: t))).
  now rewrite Hc, Hd.
Qed.

(** The first word of a text that starts with a non-whitespace code point,
    and what follows it. *)
Lemma split_head (t : str) (d : char) :
  isspace d = false ->
  exists w ws rest,
    split (d :: t) = (d :: w) :: ws /\
    d :: t = (d :: w) ++ rest /\
    nospace w = true /\
    (rest = [] \/ exists sp r, rest = sp :: r /\ isspace sp = true).
Proof.
  revert d. induction t as [|e t IH]; intros d Hd.
  - exists [], [], []. simpl. rewrite Hd. auto.
  - destruct (isspace e) eqn:He.
    + exists [], (split t), (e :: t).
      rewrite split_word_space by assumption.
      repeat split; eauto.
    + destruct (IH e He) as (w & ws & rest & Hs & Ht & Hw & Hr).
      exists (e :: w), ws, rest.
      rewrite split_word_more by assumption. rewrite Hs.
      repeat split; auto.
      * simpl. f_equal. exact Ht.
      * simpl. now rewrite He.
Qed.

Lemma split_words (s : str) : Forall word (split s).
Proof.
  induction s as [|c t IH]; [constructor|].
  destruct (isspace c) eqn:Hc.
  - now rewrite split_space.
  - destruct t as [|d t].
    + simpl. rewrite Hc. constructor; [|constructor].
      split; [discriminate|]. simpl. now rewrite Hc.
    + destruct (isspace d) eqn:Hd.
      * rewrite split_word_space by assumption.
        rewrite split_space in IH by assumption.
        constructor; [|exact IH].
        split; [discriminate|]. simpl. now rewrite Hc.
      * rewrite split_word_more by assumption.
        destruct (split (d :: t)) as [|w ws]; simpl.
        -- constructor; [|constructor].
           split; [discriminate|]. simpl. now rewrite Hc.
        -- inversion IH as [|? ? [_ Hw] Hws]; subst.
           constructor; [|exact Hws].
           split; [discriminate|]. simpl. now rewrite Hc, Hw.
Qed.

Lemma split_one_word (w : str) : word w -> split w = [w].
Proof.
  intros [Hne Hw]. induction w as [|c w IH]; [congruence|].
  simpl in Hw. apply andb_true_iff in Hw as [Hc Hw].
  apply negb_true_iff in Hc.
  destruct w as [|d w].
  - simpl. now rewrite Hc.
  - assert (Hd : isspace d = false).
    { simpl in Hw. apply andb_true_iff in Hw as [Hd _].
      now apply negb_true_iff in Hd. }
    rewrite split_word_more by assumption.
    rewrite IH; [reflexivity|discriminate|exact Hw].
Qed.

Lemma split_word_app (w s : str) (sp : char) :
  word w -> isspace sp = true -> split (w ++ sp :: s) = w :: split s.
Proof.
  intros [Hne Hw] Hsp. induction w as [|c w IH]; [congruence|].
  simpl in Hw. apply andb_true_iff in Hw as [Hc Hw].
  apply negb_true_iff in Hc.
  destruct w as [|d w].
  - simpl app. now rewrite split_word_space.
  - assert (Hd : isspace d = false).
    { simpl in Hw. apply andb_true_iff in Hw as [Hd _].
      now apply negb_true_iff in Hd. }
    change ((c :: d :: w) ++ sp :: s) with (c :: d :: (w ++ sp :: s)).
    rewrite split_word_more by assumption.
    change (d :: w ++ sp :: s) with ((d :: w) ++ sp :: s).
    rewrite IH; [reflexivity|discriminate|exact Hw].
Qed.

(** Splitting the words joined by single spaces gives the words back. *)
Lemma split_join (ws : list str) :
  Forall word ws -> split (join [SPACE] ws) = ws.
Proof.
  induction 1 as [|w ws Hw Hws IH]; [reflexivity|].
  destruct ws as [|w' ws].
  - now apply split_one_word.
  - change (join [SPACE] (w :: w' :: ws))
      with (w ++ SPACE :: join [SPACE] (w' :: ws)).
    rewrite split_word_app by (assumption || apply isspace_SPACE).
    now rewrite IH.
Qed.

(** A pattern without whitespace occurs in a text exactly when it occurs
    in one of its words. *)
Lemma contains_split (p s : str) :
  p <> [] -> nospace p = true ->
  existsb (contains p) (split s) = contains p s.
Proof.
  intros Hp Hn. induction s as [|c t IH].
  - symmetry. now apply contains_nil_r.
  - destruct (isspace c) eqn:Hc.
    + rewrite split_space by assumption. rewrite IH.
      symmetry. apply contains_cons_sep; [assumption|].
      now apply nospace_not_In.
    + destruct t as [|d t].
      * simpl split. rewrite Hc. simpl existsb. apply orb_false_r.
      * destruct (isspace d) eqn:Hd.
        -- rewrite split_word_space by assumption.
           rewrite split_space in IH by assumption.
           change (c :: d :: t) with ([c] ++ d :: t).
           rewrite contains_sep; [|assumption|now apply nospace_not_In].
           simpl existsb. rewrite IH.
           rewrite (contains_cons_sep p t d); [reflexivity|assumption|].
           now apply nospace_not_In.
        -- rewrite split_word_more by assumption.
           destruct (split_head t d Hd) as (w & ws & rest & Hs & Ht & Hw & Hr).
           assert (Hst : startswith (c :: d :: w) p = startswith (c :: d :: t) p).
           { rewrite Ht. destruct Hr as [->|(sp & r & -> & Hsp)].
             - now rewrite app_nil_r.
             - change (c :: (d :: w) ++ sp :: r)
                 with ((c :: d :: w) ++ sp :: r).
               symmetry. apply startswith_sep. now apply nospace_not_In. }
           rewrite Hs in IH |- *.
           change (push_front c ((d :: w) :: ws)) with ((c :: d :: w) :: ws).
           rewrite !existsb_cons_eq in *.
           rewrite (contains_cons p c (d :: w)), (contains_cons p c (d :: t)).
           rewrite <- IH, Hst. now rewrite orb_assoc.
Qed.

Lemma contains_join_split (p s : str) :
  p <> [] -> nospace p = true ->
  contains p (join [SPACE] (split s)) = contains p s.
Proof.
  intros Hp Hn. rewrite contains_join.
  - now apply contains_split.
  - assumption.
  - apply nospace_not_In; [assumption | apply isspace_SPACE].
Qed.

(** ** Text: removing line comments *)

Lemma re_sub_comment_cons_false (c : char) (t : str) :
  re_sub_comment false (c :: t) =
  if startswith (c :: t) DASHES then re_sub_comment true t
  else c :: re_sub_comment false t.
Proof. reflexivity. Qed.

Lemma re_sub_comment_cons_true (c : char) (t : str) :
  re_sub_comment true (c :: t) =
  if (c =? NL)%N then c :: re_sub_comment false t else re_sub_comment true t.
Proof. reflexivity. Qed.

(** Inside a match nothing is kept before the next line break. *)
Lemma re_sub_comment_true_head (s : str) :
  re_sub_comment true s = [] \/
  exists r, re_sub_comment true s = NL :: r.
Proof.
  induction s as [|c t IH]; [now left|].
  rewrite re_sub_comment_cons_true.
  destruct (N.eqb_spec c NL) as [->|_]; [|exact IH].
  right. eauto.
Qed.

(** Inside a match the code points before the line break, or before the
    end of the text, are dropped. *)
Lemma re_sub_comment_true_line (body rest : str) :
  ~ In NL body -> (rest = [] \/ exists r, rest = NL :: r) ->
  re_sub_comment true (body ++ rest) = re_sub_comment false rest.
Proof.
  intros Hb Hr. induction body as [|c body IH].
  - destruct Hr as [->|[r ->]]; [reflexivity|].
    simpl app. rewrite re_sub_comment_cons_true.
    change (NL =? NL)%N with true. cbv iota.
    rewrite re_sub_comment_cons_false. reflexivity.
  - simpl app. rewrite re_sub_comment_cons_true.
    destruct (N.eqb_spec c NL) as [->|_].
    + exfalso. apply Hb. now left.
    + apply IH. intro H. apply Hb. now right.
Qed.

(** The substitution as the pattern reads: two dashes and the rest of their
    line are replaced by nothing, and the scan goes on at the line break. *)
Lemma re_sub_comment_match (body rest : str) :
  ~ In NL body -> (rest = [] \/ exists r, rest = NL :: r) ->
  remove_line_comments (DASHES ++ body ++ rest) = remove_line_comments rest.
Proof.
  intros Hb Hr. unfold remove_line_comments.
  change (DASHES ++ body ++ rest) with (DASH :: (DASH :: body) ++ rest).
  rewrite re_sub_comment_cons_false.
  assert (E : startswith (DASH :: (DASH :: body) ++ rest) DASHES = true).
  { unfold DASHES. change ((DASH :: body) ++ rest) with (DASH :: body ++ rest).
    rewrite !startswith_cons, startswith_nil. reflexivity. }
  rewrite E. apply re_sub_comment_true_line; [|exact Hr].
  intros [H|H]; [discriminate|contradiction].
Qed.

Lemma startswith_re_sub (s q : str) :
  ~ In NL q ->
  startswith (re_sub_comment false s) q = true -> startswith s q = true.
Proof.
  revert q. induction s as [|c t IH]; intros q Hq H; [exact H|].
  destruct q as [|x q]; [reflexivity|].
  rewrite re_sub_comment_cons_false in H.
  destruct (startswith (c :: t) DASHES).
  - exfalso. destruct (re_sub_comment_true_head t) as [E|[r E]];
      rewrite E in H; [discriminate|].
    rewrite startswith_cons in H.
    apply andb_true_iff in H as [H _]. apply N.eqb_eq in H.
    apply Hq. now left.
  - rewrite startswith_cons in H |- *. apply andb_true_iff in H as [H1 H2].
    rewrite H1. simpl. apply IH; [|exact H2].
    intro Hin. apply Hq. now right.
Qed.

(** A pattern without a line break that occurs after the removal occurred
    before it: the removal joins no two pieces of a line. *)
Lemma contains_re_sub (p s : str) (b : bool) :
  p <> [] -> ~ In NL p ->
  contains p (re_sub_comment b s) = true -> contains p s = true.
Proof.
  intros Hp Hn. revert b. induction s as [|c t IH]; intros b H.
  - destruct b; exact H.
  - rewrite contains_cons. destruct b.
    + rewrite re_sub_comment_cons_true in H.
      destruct (N.eqb_spec c NL) as [->|_].
      * rewrite contains_cons_sep in H by assumption.
        rewrite (IH false H). apply orb_true_r.
      * rewrite (IH true H). apply orb_true_r.
    + rewrite re_sub_comment_cons_false in H.
      destruct (startswith (c :: t) DASHES) eqn:E.
      * rewrite (IH true H). apply orb_true_r.
      * rewrite contains_cons in H. apply orb_true_iff in H as [H|H].
        -- destruct p as [|x p]; [congruence|].
           rewrite startswith_cons in H |- *.
           apply andb_true_iff in H as [H1 H2].
           rewrite H1. simpl.
           rewrite (startswith_re_sub t p); [reflexivity| |exact H2].
           intro Hin. apply Hn. now right.
        -- rewrite (IH false H). apply orb_true_r.
Qed.

(** After the removal no two dashes remain next to each other. *)
Lemma re_sub_comment_no_dashes (s : str) (b : bool) :
  contains DASHES (re_sub_comment b s) = false.
Proof.
  revert b. induction s as [|c t IH]; intros b.
  - destruct b; reflexivity.
  - destruct b.
    + rewrite re_sub_comment_cons_true.
      destruct (N.eqb_spec c NL) as [->|_].
      * rewrite contains_cons_sep; [apply IH|discriminate|].
        intros [H|[H|[]]]; discriminate.
      * apply IH.
    + rewrite re_sub_comment_cons_false.
      destruct (startswith (c :: t) DASHES) eqn:E; [apply IH|].
      rewrite contains_cons, IH, orb_false_r.
      destruct (startswith (c :: re_sub_comment false t) DASHES) eqn:F;
        [|reflexivity].
      exfalso. unfold DASHES in E, F. rewrite startswith_cons in E, F.
      apply andb_true_iff in F as [F1 F2].
      assert (G : startswith t [DASH] = true).
      { apply startswith_re_sub.
        - intros [H|[]]; discriminate.
        - exact F2. }
      rewrite F1, G in E. discriminate.
Qed.

(** A text without two dashes in a row has no match and is left as it is. *)
Lemma re_sub_comment_id (s : str) :
  contains DASHES s = false -> re_sub_comment false s = s.
Proof.
  induction s as [|c t IH]; intro H; [reflexivity|].
  rewrite contains_cons in H. apply orb_false_iff in H as [H1 H2].
  rewrite re_sub_comment_cons_false, H1. now rewrite IH.
Qed.

(** ** Text: [strip] on words joined by spaces *)

Lemma lstrip_nospace_head (c : char) (s : str) :
  isspace c = false -> lstrip (c :: s) = c :: s.
Proof. intro H. simpl. now rewrite H. Qed.

Lemma lstrip_app_id (a b : str) : a <> [] -> lstrip a = a -> lstrip (a ++ b) = a ++ b.
Proof.
  destruct a as [|c a]; [congruence|]. intros _ H.
  simpl in H |- *. destruct (isspace c) eqn:E; [|reflexivity].
  exfalso. assert (L : forall s, (length (lstrip s) <= length s)%nat).
  { induction s as [|x s IHs]; simpl; [lia|].
    destruct (isspace x); simpl; lia. }
  specialize (L a). rewrite H in L. simpl in L. lia.
Qed.

Lemma word_lstrip (w : str) : word w -> lstrip w = w.
Proof.
  intros [Hne Hw]. destruct w as [|c w]; [congruence|].
  simpl in Hw. apply andb_true_iff in Hw as [Hc _].
  apply negb_true_iff in Hc. now apply lstrip_nospace_head.
Qed.

Lemma word_rev (w : str) : word w -> word (rev w).
Proof.
  intros [Hne Hw]. split.
  - intro E. apply Hne. rewrite <- (rev_involutive w), E. reflexivity.
  - unfold nospace in *. rewrite forallb_forall in *.
    intros x Hx. apply Hw. now apply in_rev.
Qed.

Lemma join_nonempty (sep : str) (w : str) (ws : list str) :
  w <> [] -> join sep (w :: ws) <> [].
Proof.
  intros Hw. destruct ws; simpl; [exact Hw|].
  destruct w; [congruence|discriminate].
Qed.

Lemma join_cons2 (sep w w' : str) (ws : list str) :
  join sep (w :: w' :: ws) = w ++ sep ++ join sep (w' :: ws).
Proof. reflexivity. Qed.

Lemma join_words_lstrip (ws : list str) :
  Forall word ws -> lstrip (join [SPACE] ws) = join [SPACE] ws.
Proof.
  intros H. destruct H as [|w ws Hw Hws]; [reflexivity|].
  destruct ws as [|w' ws].
  - now apply word_lstrip.
  - rewrite join_cons2. apply lstrip_app_id; [apply Hw|now apply word_lstrip].
Qed.

Lemma join_words_rstrip (ws : list str) :
  Forall word ws -> lstrip (rev (join [SPACE] ws)) = rev (join [SPACE] ws).
Proof.
  induction 1 as [|w ws Hw Hws IH]; [reflexivity|].
  destruct ws as [|w' ws].
  - apply word_lstrip. now apply word_rev.
  - rewrite join_cons2, !rev_app_distr.
    rewrite <- app_assoc.
    apply lstrip_app_id; [|exact IH].
    intro E. apply (f_equal (@rev char)) in E. rewrite rev_involutive in E.
    revert E. apply join_nonempty. inversion Hws as [|? ? [Hne _] _]. exact Hne.
Qed.

Lemma strip_join_words (ws : list str) :
  Forall word ws -> strip (join [SPACE] ws) = join [SPACE] ws.
Proof.
  intro H. unfold strip, rstrip.
  rewrite join_words_lstrip, join_words_rstrip by assumption.
  apply rev_involutive.
Qed.

(** ** Text: the closing semicolon *)

Lemma join_snoc_last (c : char) (ws : list str) :
  join [SPACE] ws ++ [c] = join [SPACE] (snoc_last c ws).
Proof.
  induction ws as [|w ws IH]; [reflexivity|].
  destruct ws as [|w' ws]; [reflexivity|].
  rewrite join_cons2.
  change (snoc_last c (w :: w' :: ws)) with (w :: snoc_last c (w' :: ws)).
  assert (E : exists v vs, snoc_last c (w' :: ws) = v :: vs).
  { destruct ws; simpl; eauto. }
  destruct E as (v & vs & E). rewrite E in *.
  rewrite join_cons2, <- IH. now rewrite <- !app_assoc.
Qed.

Lemma snoc_last_words (c : char) (ws : list str) :
  isspace c = false -> Forall word ws -> Forall word (snoc_last c ws).
Proof.
  intros Hc. induction 1 as [|w ws Hw Hws IH].
  - constructor; [|constructor]. split; [discriminate|].
    simpl. now rewrite Hc.
  - destruct ws as [|w' ws].
    + constructor; [|constructor]. destruct Hw as [Hne Hw]. split.
      * destruct w; discriminate.
      * unfold nospace in *. rewrite forallb_app, Hw. simpl. now rewrite Hc.
    + constructor; assumption.
Qed.

Lemma endswith_snoc (s : str) (c : char) : endswith (s ++ [c]) [c] = true.
Proof.
  unfold endswith. rewrite rev_app_distr.
  change (rev [c] ++ rev s) with (c :: rev s). change (rev [c]) with [c].
  rewrite startswith_cons, N.eqb_refl. apply startswith_nil.
Qed.

Lemma endswith_last (s p : str) (c d : char) :
  endswith s [c] = true -> c <> d -> endswith s (p ++ [d]) = false.
Proof.
  unfold endswith. rewrite rev_app_distr.
  change (rev [d] ++ rev p) with (d :: rev p). change (rev [c]) with [c].
  destruct (rev s) as [|x r]; [discriminate|].
  rewrite !startswith_cons.
  intros H Hcd. apply andb_true_iff in H as [H _]. apply N.eqb_eq in H.
  subst x. destruct (N.eqb_spec c d); [contradiction|reflexivity].
Qed.

(** What [ensure_semicolon] gives on single-spaced words: single-spaced
    words again, the last of which ends with the semicolon. *)
Lemma ensure_semicolon_words (ws : list str) :
  Forall word ws ->
  exists vs, Forall word vs /\
             ensure_semicolon (join [SPACE] ws) = join [SPACE] vs /\
             endswith (join [SPACE] vs) [SEMI] = true.
Proof.
  intro H. unfold ensure_semicolon.
  destruct (endswith (join [SPACE] ws) [SEMI]) eqn:E.
  - exists ws. auto.
  - exists (snoc_last SEMI ws). rewrite join_snoc_last. split; [|split].
    + now apply snoc_last_words.
    + reflexivity.
    + rewrite <- join_snoc_last. apply endswith_snoc.
Qed.

(** ** The shape of sanitized SQL *)

Lemma clean_unfold (sql : str) :
  _clean_sql_response sql = clean_body (strip_fence sql).
Proof. reflexivity. Qed.

Lemma clean_body_shape (sql : str) :
  exists vs, Forall word vs /\
             clean_body sql = join [SPACE] vs /\
             endswith (join [SPACE] vs) [SEMI] = true /\
             ensure_semicolon (join [SPACE] (split (remove_line_comments sql)))
               = join [SPACE] vs.
Proof.
  unfold clean_body.
  destruct (ensure_semicolon_words (split (remove_line_comments sql))
              (split_words _)) as (vs & Hvs & E & Hend).
  exists vs. rewrite E. repeat split; auto. now apply strip_join_words.
Qed.

Lemma strip_fence_semicolon (s : str) :
  endswith s [SEMI] = true -> strip_fence s = s.
Proof.
  intro H. unfold strip_fence.
  assert (E : endswith s FENCE = false).
  { change FENCE with ([BACKTICK; BACKTICK] ++ [BACKTICK]).
    apply endswith_last with (c := SEMI); [exact H|discriminate]. }
  rewrite E, !andb_false_r. reflexivity.
Qed.

Lemma ensure_semicolon_id (s : str) :
  endswith s [SEMI] = true -> ensure_semicolon s = s.
Proof. intro H. unfold ensure_semicolon. now rewrite H. Qed.

Lemma clean_body_no_dashes (sql : str) :
  contains DASHES (clean_body sql) = false.
Proof.
  destruct (clean_body_shape sql) as (vs & Hvs & E & Hend & Hens).
  unfold clean_body. rewrite Hens, strip_join_words by assumption.
  rewrite <- Hens. unfold ensure_semicolon.
  assert (H : contains DASHES (join [SPACE] (split (remove_line_comments sql)))
              = false).
  { rewrite contains_join_split; [|discriminate|reflexivity].
    apply re_sub_comment_no_dashes. }
  clear Hend.
  destruct (endswith (join [SPACE] (split (remove_line_comments sql))) [SEMI]);
    [exact H|].
  rewrite contains_snoc_sep; [exact H|discriminate|].
  intros [F|[F|[]]]; discriminate.
Qed.

(** A pattern of the statement text (no whitespace, no semicolon) occurs
    in the sanitized body exactly when it is left after the comments are
    removed. *)
Lemma clean_body_contains (p sql : str) :
  p <> [] -> nospace p = true -> ~ In SEMI p ->
  contains p (clean_body sql) = contains p (remove_line_comments sql).
Proof.
  intros Hp Hn Hs.
  destruct (clean_body_shape sql) as (vs & Hvs & E & _ & Hens).
  unfold clean_body. rewrite Hens, strip_join_words by assumption.
  rewrite <- Hens. unfold ensure_semicolon.
  destruct (endswith (join [SPACE] (split (remove_line_comments sql))) [SEMI]).
  - now apply contains_join_split.
  - rewrite contains_snoc_sep by assumption. now apply contains_join_split.
Qed.

Lemma single_spaced_nospace_app (w s : str) :
  nospace w = true -> single_spaced (w ++ s) = single_spaced s.
Proof.
  induction w as [|c w IH]; intro H; [reflexivity|].
  simpl in H. apply andb_true_iff in H as [Hc Hw].
  apply negb_true_iff in Hc.
  change ((c :: w) ++ s) with (c :: (w ++ s)).
  change (single_spaced (c :: w ++ s))
    with ((if isspace c
           then (c =? SPACE)%N
                && match w ++ s with [] => true | d :: _ => negb (isspace d) end
           else true) && single_spaced (w ++ s)).
  rewrite Hc. now apply IH.
Qed.

Lemma single_spaced_join (ws : list str) :
  Forall word ws -> single_spaced (join [SPACE] ws) = true.
Proof.
  induction 1 as [|w ws [Hne Hw] Hws IH]; [reflexivity|].
  destruct ws as [|w' ws].
  - change (join [SPACE] [w]) with w.
    rewrite <- (app_nil_r w). now rewrite single_spaced_nospace_app.
  - rewrite join_cons2, single_spaced_nospace_app by assumption.
    change ([SPACE] ++ join [SPACE] (w' :: ws))
      with (SPACE :: join [SPACE] (w' :: ws)).
    inversion Hws as [|? ? [Hne' Hw'] _]; subst.
    assert (Hhd : exists d r, join [SPACE] (w' :: ws) = d :: r
                              /\ isspace d = false).
    { destruct w' as [|d w']; [congruence|].
      simpl in Hw'. apply andb_true_iff in Hw' as [Hd _].
      apply negb_true_iff in Hd.
      destruct ws; simpl; eauto. }
    destruct Hhd as (d & r & Ej & Hd). rewrite Ej in *.
    change (single_spaced (SPACE :: d :: r))
      with ((if isspace SPACE
             then (SPACE =? SPACE)%N && negb (isspace d)
             else true) && single_spaced (d :: r)).
    rewrite isspace_SPACE, Hd, IH. reflexivity.
Qed.

(** ** The sanitizer *)

(** C1. Sanitizing is idempotent: for every raw model text, sanitizing the
    sanitized text gives the sanitized text again. *)
Theorem clean_sql_response_idempotent (x : str) :
  _clean_sql_response (_clean_sql_response x) = _clean_sql_response x.
Proof.
  rewrite (clean_unfold x). generalize (strip_fence x). intro s.
  destruct (clean_body_shape s) as (vs & Hvs & E & Hend & _).
  rewrite clean_unfold, E.
  rewrite strip_fence_semicolon by exact Hend.
  unfold clean_body, remove_line_comments.
  rewrite re_sub_comment_id.
  - rewrite split_join by assumption.
    rewrite ensure_semicolon_id by assumption.
    now apply strip_join_words.
  - rewrite <- E. apply clean_body_no_dashes.
Qed.

(** C2 fails on a fenced block that is followed by a line break. The
    sanitizer is to "remove markdown code blocks" and to return a query
    "ready for execution", but its two fence tests look at the raw text,
    before any [strip]: the closing marker is then not the end of the text,
    no branch is taken, and both markers stay in the output. The same block
    without the line break at its end is unwrapped. *)
Theorem clean_sql_response_keeps_inner_fence :
  _clean_sql_response raw_fence_newline = lit "```sql SELECT 1; ```;" /\
  contains FENCE (_clean_sql_response raw_fence_newline) = true /\
  _clean_sql_response (rstrip raw_fence_newline) = lit "SELECT 1;" /\
  ~ (endswith (_clean_sql_response raw_fence_newline) [SEMI] = true /\
     contains FENCE (_clean_sql_response raw_fence_newline) = false /\
     contains DASHES (_clean_sql_response raw_fence_newline) = false /\
     single_spaced (_clean_sql_response raw_fence_newline) = true).
Proof.
  split; [vm_compute; reflexivity|].
  split; [vm_compute; reflexivity|].
  split; [vm_compute; reflexivity|].
  intros (_ & H & _). vm_compute in H. discriminate.
Qed.

(** X24. What the sanitizer does give for every raw text: the sanitized
    text ends with the semicolon, has no two dashes in a row (no line
    comment), and its whitespace is single spaces between words; it has no
    fence marker whenever the raw text, once the fence wrapping the whole of
    it is taken off, has none. *)
Theorem clean_sql_response_shape (x : str) :
  endswith (_clean_sql_response x) [SEMI] = true /\
  contains DASHES (_clean_sql_response x) = false /\
  single_spaced (_clean_sql_response x) = true /\
  join [SPACE] (split (_clean_sql_response x)) = _clean_sql_response x /\
  (contains FENCE (strip_fence x) = false ->
   contains FENCE (_clean_sql_response x) = false).
Proof.
  rewrite clean_unfold.
  destruct (clean_body_shape (strip_fence x)) as (vs & Hvs & E & Hend & _).
  repeat split.
  - now rewrite E.
  - apply clean_body_no_dashes.
  - rewrite E. now apply single_spaced_join.
  - rewrite E. now rewrite split_join.
  - intro H. rewrite clean_body_contains.
    + destruct (contains FENCE (remove_line_comments (strip_fence x))) eqn:F;
        [|reflexivity].
      apply contains_re_sub in F.
      * congruence.
      * discriminate.
      * intros [G|[G|[G|[]]]]; discriminate.
    + discriminate.
    + reflexivity.
    + intros [G|[G|[G|[]]]]; discriminate.
Qed.

Lemma clean_sql_response_shape_witness :
  contains FENCE (_clean_sql_response raw_fenced_select) = false.
Proof.
  apply (proj2 (proj2 (proj2 (proj2 (clean_sql_response_shape raw_fenced_select))))).
  vm_compute. reflexivity.
Defined.

(** ** Computations: sequencing and handlers *)


Ltac run_monad :=
  cbv beta iota delta
    [bind try_except try_finally ret raise emit require_model
     generate_content get_session session_close session_execute is_empty].

Lemma forallb_app_true {A} (f : A -> bool) (l l' : list A) :
  forallb f l = true -> forallb f l' = true -> forallb f (l ++ l') = true.
Proof. intros H H'. now rewrite forallb_app, H, H'. Qed.

(** ** The language-model helper *)

Lemma generate_sql_query_returns (self : LLMHelper) (q sch : str) :
  exists s evs,
    generate_sql_query self q sch = (Return s, evs) /\
    forallb is_llm_event evs = true /\
    generation_result self (sql_prompt q sch) sql_config
      (lit "Error generating SQL: ") _clean_sql_response s.
Proof.
  unfold generate_sql_query, generation_result.
  destruct (model self) as [m|] eqn:Em; run_monad; rewrite ?Em.
  - destruct (m (sql_prompt q sch) sql_config) as [e|[|c t]] eqn:Eg;
      eexists; eexists; repeat split.
  - eexists; eexists. repeat split.
Qed.

Lemma format_response_returns (self : LLMHelper) (q data : str) :
  exists s evs,
    format_response self q data = (Return s, evs) /\
    forallb is_llm_event evs = true /\
    generation_result self (format_prompt q data) format_config
      (lit "Error formatting response: ") strip s.
Proof.
  unfold format_response, generation_result.
  destruct (model self) as [m|] eqn:Em; run_monad; rewrite ?Em.
  - destruct (m (format_prompt q data) format_config) as [e|[|c t]] eqn:Eg;
      eexists; eexists; repeat split.
  - eexists; eexists. repeat split.
Qed.

(** C4. Whatever the backend does (no model, an exception, no text, some
    text), [generate_sql_query] and [format_response] return and do not
    raise: on a failure the error marker, which starts with the reserved
    prefix and carries the reason, and on success the sanitized,
    respectively stripped, model text. *)
Theorem llm_helper_never_raises (self : LLMHelper) (q sch data : str) :
  (exists s evs,
     generate_sql_query self q sch = (Return s, evs) /\
     generation_result self (sql_prompt q sch) sql_config
       (lit "Error generating SQL: ") _clean_sql_response s) /\
  (exists s evs,
     format_response self q data = (Return s, evs) /\
     generation_result self (format_prompt q data) format_config
       (lit "Error formatting response: ") strip s).
Proof.
  split.
  - destruct (generate_sql_query_returns self q sch) as (s & evs & H & _ & G).
    exists s, evs. now split.
  - destruct (format_response_returns self q data) as (s & evs & H & _ & G).
    exists s, evs. now split.
Qed.

(** C9. The raw text [```sql\nSELECT * FROM product_total_sales -- all\n```]
    sanitizes to [SELECT * FROM product_total_sales;], and with a mocked
    backend that returns that raw text [generate_sql_query] returns exactly
    this statement, for every question and schema. *)
Theorem generate_sql_query_fenced_select (q sch : str) :
  _clean_sql_response raw_fenced_select
    = lit "SELECT * FROM product_total_sales;" /\
  generate_sql_query (mock_llm raw_fenced_select) q sch
    = (Return (lit "SELECT * FROM product_total_sales;"),
       [ModelCall (sql_prompt q sch);
        LogDebug (lit "Generated SQL: SELECT * FROM product_total_sales;")]).
Proof.
  assert (E : _clean_sql_response raw_fenced_select
              = lit "SELECT * FROM product_total_sales;")
    by (vm_compute; reflexivity).
  split; [exact E|].
  unfold generate_sql_query, mock_llm. run_monad.
  cbv beta iota delta [model]. run_monad.
  change (is_empty raw_fenced_select) with false. run_monad.
  rewrite E. reflexivity.
Qed.

(** ** The handler of [/query] *)

Ltac step H := rewrite H; run_monad.

Ltac tidy_events :=
  repeat (rewrite <- app_assoc || rewrite app_nil_r); cbn [app].

(** C5. [/query] answers with the error marker as the detail of an HTTP 400
    as soon as the generated SQL starts with the reserved prefix (no session
    is opened, the formatter is not called), and likewise when the
    formatted answer does; an exception of the store becomes an HTTP 500
    with its text as detail; otherwise the body holds the question, the
    generated SQL, the formatted answer and the rows. *)
Theorem answer_question_responses (app : App) (q : str) :
  exists sql evs,
    generate_sql_query (llm_helper app) q SCHEMA_INFO = (Return sql, evs) /\
    if startswith sql ERROR
    then answer_question app q = (Raise (HTTPException 400 sql), evs)
    else
      match engine app sql with
      | StoreRaises cls msg =>
          answer_question app q
          = (Raise (HTTPException 500 msg), evs ++ session_events sql)
      | StoreRows rows =>
          exists ans evs',
            format_response (llm_helper app) q (str_of_rows app rows)
              = (Return ans, evs') /\
            answer_question app q
            = (if startswith ans ERROR
               then Raise (HTTPException 400 ans)
               else Return {| question := q; sql_query := sql;
                              answer := ans; data := rows |},
               evs ++ session_events sql ++ evs')
      end.
Proof.
  destruct (generate_sql_query_returns (llm_helper app) q SCHEMA_INFO)
    as (sql & evs & Hg & _).
  exists sql, evs. split; [exact Hg|].
  unfold answer_question. rewrite Hg.
  destruct (startswith sql ERROR) eqn:Es.
  - run_monad. rewrite Es. run_monad. tidy_events. reflexivity.
  - destruct (engine app sql) as [cls msg|rows] eqn:Ee.
    + run_monad. rewrite Es. run_monad. rewrite Ee. run_monad.
      tidy_events. reflexivity.
    + destruct (format_response_returns (llm_helper app) q
                  (str_of_rows app rows)) as (ans & evs' & Hf & _).
      exists ans, evs'. split; [exact Hf|].
      run_monad. rewrite Es. run_monad. rewrite Ee. run_monad.
      rewrite Hf. run_monad.
      destruct (startswith ans ERROR); run_monad; tidy_events; reflexivity.
Qed.

(** ** Sessions: opened and closed *)

Lemma events_bind {A B} (m : M A) (k : A -> M B) :
  events (bind m k)
  = events m ++ match outcome m with
                | Return a => events (k a)
                | Raise _ => []
                end.
Proof.
  destruct m as [[a|e] evs]; unfold bind, events, outcome; simpl.
  - now destruct (k a).
  - now rewrite app_nil_r.
Qed.

Lemma events_try_except {A} (m : M A) (h : exn -> M A) :
  events (try_except m h)
  = events m ++ match outcome m with
                | Return _ => []
                | Raise e => events (h e)
                end.
Proof.
  destruct m as [[a|e] evs]; unfold try_except, events, outcome; simpl.
  - now rewrite app_nil_r.
  - now destruct (h e).
Qed.

Lemma events_try_finally {A} (m : M A) (c : M unit) :
  events (try_finally m c) = events m ++ events c.
Proof.
  destruct m as [r evs], c as [[u|e] evs']; reflexivity.
Qed.

Lemma opened_app (a b : list event) : opened (a ++ b) = (opened a + opened b)%nat.
Proof. unfold opened. now rewrite filter_app, length_app. Qed.

Lemma closed_app (a b : list event) : closed (a ++ b) = (closed a + closed b)%nat.
Proof. unfold closed. now rewrite filter_app, length_app. Qed.

Lemma no_session_counts (evs : list event) :
  forallb no_session_event evs = true -> opened evs = 0%nat /\ closed evs = 0%nat.
Proof.
  unfold opened, closed. induction evs as [|ev evs IH]; [now split|].
  simpl. intro H. apply andb_true_iff in H as [H1 H2].
  unfold no_session_event in H1. apply andb_true_iff in H1 as [Ho Hc].
  apply negb_true_iff in Ho, Hc. rewrite Ho, Hc. now apply IH.
Qed.

Lemma llm_events_no_session (evs : list event) :
  forallb is_llm_event evs = true -> forallb no_session_event evs = true.
Proof.
  rewrite !forallb_forall. intros H ev Hin. specialize (H ev Hin).
  now destruct ev.
Qed.

Lemma quiet_ret {A} (a : A) : quiet (ret a).
Proof. reflexivity. Qed.

Lemma quiet_raise {A} (e : exn) : quiet (@raise A e).
Proof. reflexivity. Qed.

Lemma quiet_bind {A B} (m : M A) (k : A -> M B) :
  quiet m -> (forall a, quiet (k a)) -> quiet (bind m k).
Proof.
  unfold quiet. intros Hm Hk. rewrite events_bind.
  apply forallb_app_true; [exact Hm|]. destruct (outcome m); [apply Hk|reflexivity].
Qed.

Lemma quiet_try_except {A} (m : M A) (h : exn -> M A) :
  quiet m -> (forall e, quiet (h e)) -> quiet (try_except m h).
Proof.
  unfold quiet. intros Hm Hh. rewrite events_try_except.
  apply forallb_app_true; [exact Hm|]. destruct (outcome m); [reflexivity|apply Hh].
Qed.

Lemma quiet_for_each {A} (xs : list A) (body : A -> M unit) :
  (forall x, quiet (body x)) -> quiet (for_each xs body).
Proof.
  intro H. induction xs as [|x xs IH]; [reflexivity|].
  simpl. apply quiet_bind; [apply H|]. intros _. exact IH.
Qed.

Lemma quiet_generate_sql_query (self : LLMHelper) (q sch : str) :
  quiet (generate_sql_query self q sch).
Proof.
  destruct (generate_sql_query_returns self q sch) as (s & evs & H & Hl & _).
  unfold quiet. rewrite H. now apply llm_events_no_session.
Qed.

Lemma quiet_format_response (self : LLMHelper) (q data : str) :
  quiet (format_response self q data).
Proof.
  destruct (format_response_returns self q data) as (s & evs & H & Hl & _).
  unfold quiet. rewrite H. now apply llm_events_no_session.
Qed.

Lemma quiet_session_execute (app : App) (sql : str) :
  quiet (session_execute app sql).
Proof. unfold session_execute. run_monad. now destruct (engine app sql). Qed.

Lemma quiet_columns_at (cols : list str) (i : nat) : quiet (columns_at cols i).
Proof. unfold columns_at. now destruct (nth_error cols i). Qed.

Lemma quiet_to_datetime_records (app : App) (c : str) (rs : list row) :
  quiet (to_datetime_records app c rs).
Proof.
  induction rs as [|r rs IH]; [reflexivity|]. simpl.
  destruct (to_datetime app (cell c r)).
  - reflexivity.
  - apply quiet_bind; [exact IH|]. intro. apply quiet_ret.
  - apply quiet_bind; [exact IH|]. intro. apply quiet_ret.
Qed.

Ltac quiet_tac :=
  repeat first
    [ apply quiet_ret | apply quiet_raise | reflexivity
    | apply quiet_generate_sql_query | apply quiet_format_response
    | apply quiet_session_execute | apply quiet_columns_at
    | apply quiet_to_datetime_records
    | apply quiet_bind | apply quiet_try_except | apply quiet_for_each
    | intro
    | match goal with
      | |- quiet (if ?c then _ else _) => destruct c
      | |- quiet (match ?e with _ => _ end) => destruct e
      end ].

Lemma quiet_draw_chart (app : App) (df : DataFrame) (chart_type : str) :
  quiet (draw_chart app df chart_type).
Proof. unfold draw_chart, to_datetime_column. quiet_tac. Qed.

(** The scoped use of a session: opened, used, closed whatever the use
    does, and then the rest of the handler. *)
Lemma scoped_session_balanced {A B} (use : M A) (rest : A -> M B) :
  quiet use -> (forall a, quiet (rest a)) ->
  opened (events (get_session ;; x <- try_finally use session_close ;; rest x))
    = 1%nat /\
  closed (events (get_session ;; x <- try_finally use session_close ;; rest x))
    = 1%nat.
Proof.
  intros Hu Hr.
  assert (Hrest : forallb no_session_event
                    match outcome (try_finally use session_close) with
                    | Return a => events (rest a)
                    | Raise _ => []
                    end = true).
  { destruct (outcome (try_finally use session_close)); [apply Hr|reflexivity]. }
  apply no_session_counts in Hrest as [Ho Hc].
  apply no_session_counts in Hu as [Huo Huc].
  rewrite events_bind. change (outcome get_session) with (Return tt).
  rewrite events_bind, events_try_finally.
  rewrite !opened_app, !closed_app, Ho, Hc, Huo, Huc. split; reflexivity.
Qed.

(** A handler that generates the SQL and goes on under a catch-all: when
    what follows the generation closes what it opens, so does the handler. *)
Lemma handler_balanced {B} (app : App) (q : str)
    (body : str -> M B) (handler : exn -> M B) :
  (forall sql, opened (events (body sql)) = closed (events (body sql))) ->
  (forall e, quiet (handler e)) ->
  opened (events (try_except
                    (sql_query <- generate_sql_query (llm_helper app) q SCHEMA_INFO ;;
                     body sql_query)
                    handler))
  = closed (events (try_except
                      (sql_query <- generate_sql_query (llm_helper app) q SCHEMA_INFO ;;
                       body sql_query)
                      handler)).
Proof.
  intros Hbody Hh.
  rewrite events_try_except, events_bind.
  destruct (generate_sql_query_returns (llm_helper app) q SCHEMA_INFO)
    as (sql & evs & Hg & Hl & _).
  rewrite Hg. change (outcome (Return sql, evs)) with (Return sql).
  change (events (Return sql, evs)) with evs.
  apply llm_events_no_session, no_session_counts in Hl as [Hlo Hlc].
  match goal with
  | |- context [outcome ?m] =>
      assert (Hhd : forallb no_session_event
                      match outcome m with
                      | Return _ => []
                      | Raise e => events (handler e)
                      end = true)
        by (destruct (outcome m); [reflexivity|apply Hh]);
      apply no_session_counts in Hhd as [Hho Hhc]
  end.
  rewrite !opened_app, !closed_app, Hlo, Hlc, Hho, Hhc, Hbody. reflexivity.
Qed.

Lemma quiet_balanced {A} (m : M A) :
  quiet m -> opened (events m) = closed (events m).
Proof. intro H. now destruct (no_session_counts _ H) as [-> ->]. Qed.

Lemma scoped_balanced {A B} (use : M A) (rest : A -> M B) :
  quiet use -> (forall a, quiet (rest a)) ->
  opened (events (get_session ;; x <- try_finally use session_close ;; rest x))
  = closed (events (get_session ;; x <- try_finally use session_close ;; rest x)).
Proof.
  intros Hu Hr. now destruct (scoped_session_balanced use rest Hu Hr) as [-> ->].
Qed.

(** [/query] closes the session it opens, whatever the backend and the
    store do. *)
Lemma answer_question_closes_session (app : App) (q : str) :
  opened (events (answer_question app q))
  = closed (events (answer_question app q)).
Proof.
  unfold answer_question. apply handler_balanced.
  - intro sql. destruct (startswith sql ERROR).
    + apply quiet_balanced. quiet_tac.
    + apply scoped_balanced; quiet_tac.
  - quiet_tac.
Qed.

(** [/query/stream] closes the session it opens. *)
Lemma generate_closes_session (app : App) (q : str) :
  opened (events (generate app q)) = closed (events (generate app q)).
Proof.
  unfold generate. apply handler_balanced.
  - intro sql. destruct (startswith sql ERROR).
    + apply quiet_balanced. quiet_tac.
    + rewrite events_bind. change (outcome (emit _)) with (Return tt).
      rewrite opened_app, closed_app. f_equal.
      apply scoped_balanced; quiet_tac.
  - quiet_tac.
Qed.

(** [/query/visualize] closes the session it opens. *)
Lemma visualize_data_closes_session (app : App) (q : str)
    (chart_type : option str) :
  opened (events (visualize_data app q chart_type))
  = closed (events (visualize_data app q chart_type)).
Proof.
  unfold visualize_data. apply handler_balanced.
  - intro sql. destruct (startswith sql ERROR).
    + apply quiet_balanced. quiet_tac.
    + apply scoped_balanced; quiet_tac. apply quiet_draw_chart.
  - quiet_tac.
Qed.

Lemma generate_sql_query_events (self : LLMHelper) (q sch : str) r evs :
  generate_sql_query self q sch = (r, evs) -> forallb is_llm_event evs = true.
Proof.
  destruct (generate_sql_query_returns self q sch) as (s & evs' & H & Hl & _).
  rewrite H. intro E. injection E as _ <-. exact Hl.
Qed.

Lemma format_response_events (self : LLMHelper) (q data : str) r evs :
  format_response self q data = (r, evs) -> forallb is_llm_event evs = true.
Proof.
  destruct (format_response_returns self q data) as (s & evs' & H & Hl & _).
  rewrite H. intro E. injection E as _ <-. exact Hl.
Qed.

(** C3 fails on [/query/clean]: when the store rejects the statement, the
    handler returns its error text with the session opened and not closed
    (there is no [finally] around the execution, unlike in the three other
    handlers). *)
Theorem clean_answer_leaves_session_open :
  outcome (clean_answer app_store_fails question_orders)
    = Return (lit "Error processing request: no such table: orders") /\
  events (clean_answer app_store_fails question_orders)
    = [ModelCall (sql_prompt question_orders SCHEMA_INFO);
       LogDebug (lit "Generated SQL: SELECT COUNT(*) FROM orders;");
       SessionOpen;
       SessionExecute (lit "SELECT COUNT(*) FROM orders;")] /\
  opened (events (clean_answer app_store_fails question_orders)) = 1%nat /\
  closed (events (clean_answer app_store_fails question_orders)) = 0%nat.
Proof. vm_compute. repeat split. Qed.

(** The same on every request whose statement the store rejects. *)
Lemma clean_answer_store_raises (app : App) (q sql : str)
    (evs : list event) (cls : string) (msg : str) :
  generate_sql_query (llm_helper app) q SCHEMA_INFO = (Return sql, evs) ->
  startswith sql ERROR = false ->
  engine app sql = StoreRaises cls msg ->
  clean_answer app q
  = (Return (lit "Error processing request: " ++ msg),
     evs ++ [SessionOpen; SessionExecute sql]).
Proof.
  intros Hg Es Ee. unfold clean_answer. rewrite Hg. run_monad.
  rewrite Es. run_monad. rewrite Ee. run_monad.
  tidy_events. reflexivity.
Qed.

(** The same request on [/query]: the session is closed before the 500. *)
Example answer_question_store_fails :
  outcome (answer_question app_store_fails question_orders)
    = Raise (HTTPException 500 (lit "no such table: orders")) /\
  opened (events (answer_question app_store_fails question_orders)) = 1%nat /\
  closed (events (answer_question app_store_fails question_orders)) = 1%nat.
Proof. vm_compute. repeat split. Qed.

(** ** The handler of [/query/stream] *)

Lemma chunks_app (a b : list event) : chunks (a ++ b) = chunks a ++ chunks b.
Proof.
  induction a as [|ev a IH]; [reflexivity|].
  destruct ev; simpl; rewrite IH; reflexivity.
Qed.

Lemma chunks_llm (evs : list event) :
  forallb is_llm_event evs = true -> chunks evs = [].
Proof.
  induction evs as [|ev evs IH]; [reflexivity|].
  simpl. intro H. apply andb_true_iff in H as [H1 H2].
  destruct ev; try discriminate; now apply IH.
Qed.

Lemma for_each_words (ws : list str) :
  for_each ws (fun word => emit (Yield (word ++ [SPACE])) ;; emit Sleep)
  = (Return tt, word_events ws).
Proof.
  induction ws as [|w ws IH]; [reflexivity|].
  cbn [for_each]. rewrite IH. reflexivity.
Qed.

Lemma chunks_word_events (ws : list str) :
  chunks (word_events ws) = map word_chunk ws.
Proof.
  induction ws as [|w ws IH]; [reflexivity|].
  simpl. now rewrite IH.
Qed.

Lemma split_concat_tokens (ws : list str) :
  Forall word ws -> split (concat (map word_chunk ws)) = ws.
Proof.
  induction 1 as [|w ws Hw Hws IH]; [reflexivity|].
  cbn [map concat]. unfold word_chunk at 1. rewrite <- app_assoc.
  change ([SPACE] ++ concat (map word_chunk ws))
    with (SPACE :: concat (map word_chunk ws)).
  rewrite split_word_app by (assumption || apply isspace_SPACE).
  now rewrite IH.
Qed.

Lemma split_join_tokens (ws : list str) :
  Forall word ws -> split (join [SPACE] (map word_chunk ws)) = ws.
Proof.
  induction 1 as [|w ws Hw Hws IH]; [reflexivity|].
  destruct ws as [|w' ws].
  - cbn [map join]. unfold word_chunk.
    rewrite split_word_app by (assumption || apply isspace_SPACE).
    reflexivity.
  - cbn [map] in IH |- *. rewrite join_cons2.
    set (rest := join [SPACE] (word_chunk w' :: map word_chunk ws)) in *.
    unfold word_chunk at 1. rewrite <- app_assoc.
    change ([SPACE] ++ [SPACE] ++ rest) with (SPACE :: SPACE :: rest).
    rewrite split_word_app by (assumption || apply isspace_SPACE).
    rewrite split_space by apply isspace_SPACE.
    now rewrite IH.
Qed.

(** C8. On a successful streaming request the chunks are the SQL line and
    then, in their order, the words of the formatted answer, each followed
    by a space; put together again (one after the other, or joined by
    single spaces) the answer chunks have the answer's word sequence. *)
Theorem answer_question_stream_chunks (app : App) (q sql ans : str)
    (rows : list row) (evs evs' : list event) :
  generate_sql_query (llm_helper app) q SCHEMA_INFO = (Return sql, evs) ->
  startswith sql ERROR = false ->
  engine app sql = StoreRows rows ->
  format_response (llm_helper app) q (str_of_rows app rows) = (Return ans, evs') ->
  startswith ans ERROR = false ->
  answer_question_stream app q
    = (lit "Generated SQL: " ++ sql ++ [NL; NL])
      :: map word_chunk (split ans) /\
  split (concat (tl (answer_question_stream app q))) = split ans /\
  split (join [SPACE] (tl (answer_question_stream app q))) = split ans.
Proof.
  intros Hg Es Ee Hf Ea.
  assert (E : answer_question_stream app q
              = (lit "Generated SQL: " ++ sql ++ [NL; NL])
                :: map word_chunk (split ans)).
  { unfold answer_question_stream, generate. rewrite Hg. run_monad.
    rewrite Es. run_monad. rewrite Ee. run_monad. rewrite Hf. run_monad.
    rewrite Ea, for_each_words. run_monad. unfold events. cbn [snd].
    rewrite !chunks_app.
    rewrite (chunks_llm evs) by exact (generate_sql_query_events _ _ _ _ _ Hg).
    rewrite (chunks_llm evs') by exact (format_response_events _ _ _ _ _ Hf).
    rewrite chunks_word_events. reflexivity. }
  rewrite E. cbn [tl]. repeat split.
  - apply split_concat_tokens, split_words.
  - apply split_join_tokens, split_words.
Qed.

(** ** The handler of [/query/visualize]: chart type and chart *)

(** C6, as stated, fails: the selection looks for the label [date] and
    not for a column of dates. Five rows of [product_eligibility] have the
    date-like column [eligibility_datetime_utc]; the policy as the
    specification words it gives a line chart, and the code a bar chart. *)
Lemma select_chart_type_misses_datetime_column :
  spec_date_like app_eligibility (DataFrame_of_rows rows_eligibility)
                 ELIGIBILITY_DATETIME_UTC = true /\
  len (DataFrame_of_rows rows_eligibility) = 5%nat /\
  has_column (DataFrame_of_rows rows_eligibility) DATE = false /\
  spec_select_chart_type app_eligibility (DataFrame_of_rows rows_eligibility)
    = LINE /\
  select_chart_type None (DataFrame_of_rows rows_eligibility) = BAR /\
  select_chart_type None (DataFrame_of_rows rows_eligibility)
    <> spec_select_chart_type app_eligibility
         (DataFrame_of_rows rows_eligibility).
Proof.
  repeat split; try (vm_compute; reflexivity).
  vm_compute. discriminate.
Qed.

(** On the three row sets of the specification the policy in its words and
    the code agree. *)
Lemma spec_select_chart_type_examples :
  spec_select_chart_type app_two_days (DataFrame_of_rows (repeat dated_row 5))
    = select_chart_type None (DataFrame_of_rows (repeat dated_row 5)) /\
  spec_select_chart_type app_two_days (DataFrame_of_rows (repeat item_row 7))
    = select_chart_type None (DataFrame_of_rows (repeat item_row 7)) /\
  spec_select_chart_type app_two_days (DataFrame_of_rows (repeat item_row 50))
    = select_chart_type None (DataFrame_of_rows (repeat item_row 50)).
Proof. repeat split; vm_compute; reflexivity. Qed.

(** C6, amended. Without a hint the chart type follows the rows: a line
    chart when there is a column labelled [date] and more than 3 rows;
    otherwise a bar chart when there are at most 10 rows; otherwise a
    histogram. *)
Theorem select_chart_type_auto (rows : list row) :
  (has_column (DataFrame_of_rows rows) DATE = true -> (3 < length rows)%nat ->
   select_chart_type None (DataFrame_of_rows rows) = LINE) /\
  (~ (has_column (DataFrame_of_rows rows) DATE = true /\ (3 < length rows)%nat) ->
   (length rows <= 10)%nat ->
   select_chart_type None (DataFrame_of_rows rows) = BAR) /\
  (~ (has_column (DataFrame_of_rows rows) DATE = true /\ (3 < length rows)%nat) ->
   (10 < length rows)%nat ->
   select_chart_type None (DataFrame_of_rows rows) = HISTOGRAM).
Proof.
  unfold select_chart_type, not_given, len.
  change (records (DataFrame_of_rows rows)) with rows.
  repeat split.
  - intros Hd Hn. apply Nat.ltb_lt in Hn. now rewrite Hd, Hn.
  - intros Hno Hn. apply Nat.leb_le in Hn. rewrite Hn.
    destruct (has_column (DataFrame_of_rows rows) DATE); [|reflexivity].
    destruct (Nat.ltb_spec 3 (length rows)); [|reflexivity].
    exfalso. apply Hno. now split.
  - intros Hno Hn. apply Nat.leb_gt in Hn. rewrite Hn.
    destruct (has_column (DataFrame_of_rows rows) DATE); [|reflexivity].
    destruct (Nat.ltb_spec 3 (length rows)); [|reflexivity].
    exfalso. apply Hno. now split.
Qed.

Lemma select_chart_type_auto_witness :
  select_chart_type None (DataFrame_of_rows (repeat dated_row 5)) = LINE /\
  select_chart_type None (DataFrame_of_rows (repeat item_row 7)) = BAR /\
  select_chart_type None (DataFrame_of_rows (repeat item_row 50)) = HISTOGRAM.
Proof.
  split; [|split].
  - apply (proj1 (select_chart_type_auto (repeat dated_row 5))).
    + reflexivity.
    + simpl; lia.
  - apply (proj1 (proj2 (select_chart_type_auto (repeat item_row 7)))).
    + intros [H _]. vm_compute in H. discriminate.
    + simpl; lia.
  - apply (proj2 (proj2 (select_chart_type_auto (repeat item_row 50)))).
    + intros [H _]. vm_compute in H. discriminate.
    + simpl; lia.
Defined.

(** *** Sorting by the date column *)







(** *** The series of a chart *)

Lemma to_datetime_records_events (app : App) (c : str) (rs : list row) :
  events (to_datetime_records app c rs) = [].
Proof.
  induction rs as [|r rs IH]; [reflexivity|]. simpl.
  destruct (to_datetime app (cell c r)); [reflexivity| |];
    rewrite events_bind, IH;
    now destruct (outcome (to_datetime_records app c rs)).
Qed.




(** The request of the example gives a bar chart of the first numeric
    column, over the two days in ascending order. *)
Example visualize_data_two_days :
  outcome (visualize_data app_two_days question_daily None) = Return tt /\
  plots (events (visualize_data app_two_days question_daily None))
  = [PltFigure; PltStyleUse (lit "ggplot");
     DfPlotBar DATE TOTAL_SALES
       [VTimestamp 1704067200000000000; VTimestamp 1704153600000000000]
       [VFloat f99_25; VFloat f1234_5];
     PltTitle (lit "Visualization: Daily sales and units...");
     PltXticks; PltTightLayout; PltSavefig; PltClose].
Proof. vm_compute. split; reflexivity. Qed.



(** C10. When the statement runs and gives no row, the executor returns
    the empty sequence without fault, the frame has no column, the chart
    type chosen without a hint is bar, and [/query/visualize] gives no
    image, whatever the hint: the lookup of the first column raises, and
    the handler answers with an HTTP 500 (the session closed before). *)
Theorem visualize_data_zero_rows (app : App) (q sql : str)
    (chart_type : option str) (evs : list event) :
  generate_sql_query (llm_helper app) q SCHEMA_INFO = (Return sql, evs) ->
  startswith sql ERROR = false ->
  engine app sql = StoreRows [] ->
  session_execute app sql = (Return [], [SessionExecute sql]) /\
  columns (DataFrame_of_rows []) = [] /\
  select_chart_type None (DataFrame_of_rows []) = BAR /\
  visualize_data app q chart_type
  = (Raise (HTTPException 500
              (lit "index 0 is out of bounds for axis 0 with size 0")),
     evs ++ session_events sql
         ++ [Plt PltFigure; Plt (PltStyleUse (lit "ggplot"))]).
Proof.
  intros Hg Es Ee. repeat split.
  - unfold session_execute. run_monad. rewrite Ee. reflexivity.
  - assert (Ed : forall ct,
               draw_chart app (DataFrame_of_rows []) ct
               = (Raise (IndexError
                           (lit "index 0 is out of bounds for axis 0 with size 0")),
                  [])) by reflexivity.
    unfold visualize_data. rewrite Hg. run_monad. rewrite Es. run_monad.
    rewrite Ee. run_monad. rewrite Ed. run_monad.
    tidy_events. reflexivity.
Qed.

Lemma visualize_data_zero_rows_witness :
  visualize_data app_no_rows question_june (Some PIE)
  = (Raise (HTTPException 500
              (lit "index 0 is out of bounds for axis 0 with size 0")),
     [ModelCall (sql_prompt question_june SCHEMA_INFO);
      LogDebug (lit "Generated SQL: " ++ sql_june)]
     ++ session_events sql_june
     ++ [Plt PltFigure; Plt (PltStyleUse (lit "ggplot"))]).
Proof.
  apply (visualize_data_zero_rows app_no_rows question_june sql_june (Some PIE)).
  - vm_compute. reflexivity.
  - vm_compute. reflexivity.
  - reflexivity.
Defined.

Lemma answer_question_stream_chunks_witness :
  answer_question_stream app_sales question_yesterday
    = (lit "Generated SQL: " ++ sql_yesterday ++ [NL; NL])
      :: map word_chunk (split (strip answer_yesterday)) /\
  split (concat (tl (answer_question_stream app_sales question_yesterday)))
    = split (strip answer_yesterday) /\
  split (join [SPACE] (tl (answer_question_stream app_sales question_yesterday)))
    = split (strip answer_yesterday).
Proof.
  apply (answer_question_stream_chunks app_sales question_yesterday
           sql_yesterday (strip answer_yesterday) rows_yesterday
           [ModelCall (sql_prompt question_yesterday SCHEMA_INFO);
            LogDebug (lit "Generated SQL: " ++ sql_yesterday)]
           [ModelCall (format_prompt question_yesterday
                         (lit "[{'SUM(total_sales)': 1234.5}]"))]).
  - vm_compute. reflexivity.
  - vm_compute. reflexivity.
  - reflexivity.
  - vm_compute. reflexivity.
  - vm_compute. reflexivity.
Defined.

Example answer_question_stream_yesterday :
  answer_question_stream app_sales question_yesterday
  = [lit "Generated SQL: " ++ sql_yesterday ++ [NL; NL];
     lit "Total "; lit "sales "; lit "yesterday "; lit "were ";
     lit "1,234.50 "; lit "in "; lit "all. "].
Proof. vm_compute. reflexivity. Qed.

Example answer_question_yesterday :
  answer_question app_sales question_yesterday
  = (Return {| question := question_yesterday;
               sql_query := sql_yesterday;
               answer := lit "Total sales yesterday were  1,234.50 in all.";
               data := rows_yesterday |},
     [ModelCall (sql_prompt question_yesterday SCHEMA_INFO);
      LogDebug (lit "Generated SQL: " ++ sql_yesterday);
      SessionOpen; SessionExecute sql_yesterday; SessionClose;
      ModelCall (format_prompt question_yesterday
                   (lit "[{'SUM(total_sales)': 1234.5}]"))]).
Proof. vm_compute. reflexivity. Qed.

(* ================================================================== *)
(** * Part III: further properties of the code                         *)
(* ================================================================== *)

(** ** More on the sanitizer *)

Lemma clean_body_eq (s : str) :
  clean_body s
  = ensure_semicolon (join [SPACE] (split (remove_line_comments s))).
Proof.
  destruct (clean_body_shape s) as (vs & _ & E & _ & Hens).
  now rewrite E, Hens.
Qed.

(** X1. The last [strip()] of the sanitizer never changes anything: the
    result is the words left after the fence and the comments are removed,
    joined by single spaces, with the semicolon added when the last word
    does not end with one. *)
Theorem clean_sql_response_normal_form (x : str) :
  _clean_sql_response x
  = ensure_semicolon
      (join [SPACE] (split (remove_line_comments (strip_fence x)))).
Proof.
  rewrite clean_unfold.
  destruct (clean_body_shape (strip_fence x)) as (vs & Hvs & E & _ & Hens).
  rewrite Hens. unfold clean_body. rewrite Hens.
  now apply strip_join_words.
Qed.

(** X2. The texts the sanitizer leaves as they are are exactly those that
    end with the semicolon, have no two dashes in a row and are their own
    words joined by single spaces. *)
Theorem clean_sql_response_fixed_points (x : str) :
  _clean_sql_response x = x <->
  (endswith x [SEMI] = true /\
   contains DASHES x = false /\
   join [SPACE] (split x) = x).
Proof.
  split.
  - intro Hx. rewrite clean_unfold in Hx.
    destruct (clean_body_shape (strip_fence x)) as (vs & Hvs & E & Hend & _).
    rewrite Hx in E. repeat split.
    + now rewrite E.
    + rewrite <- Hx. apply clean_body_no_dashes.
    + rewrite E. now rewrite split_join.
  - intros (Hend & Hd & Hj).
    rewrite clean_unfold, strip_fence_semicolon by exact Hend.
    unfold clean_body, remove_line_comments.
    rewrite re_sub_comment_id by exact Hd.
    rewrite Hj, ensure_semicolon_id by exact Hend.
    rewrite <- Hj. apply strip_join_words, split_words.
Qed.

(** *** Whitespace at the ends does not count *)

Lemma split_all_space (ws : str) : forallb isspace ws = true -> split ws = [].
Proof.
  induction ws as [|c ws IH]; [reflexivity|].
  cbn [forallb]. intro H. apply andb_true_iff in H as [Hc Hws].
  rewrite split_space by exact Hc. now apply IH.
Qed.

Lemma split_app_space (s ws : str) :
  forallb isspace ws = true -> split (s ++ ws) = split s.
Proof.
  intro Hws. induction s as [|c t IH].
  - simpl app. now rewrite split_all_space.
  - destruct (isspace c) eqn:Hc.
    + change ((c :: t) ++ ws) with (c :: (t ++ ws)).
      now rewrite !split_space.
    + destruct t as [|d t].
      * simpl app. destruct ws as [|w ws]; [reflexivity|].
        cbn [forallb] in Hws. apply andb_true_iff in Hws as [Hw Hws].
        rewrite split_word_space by assumption.
        rewrite split_all_space by exact Hws.
        simpl. now rewrite Hc.
      * change ((c :: d :: t) ++ ws) with (c :: d :: (t ++ ws)).
        change ((d :: t) ++ ws) with (d :: (t ++ ws)) in IH.
        destruct (isspace d) eqn:Hd.
        -- rewrite !split_word_space by assumption.
           rewrite !split_space in IH by assumption. now rewrite IH.
        -- rewrite !split_word_more by assumption. now rewrite IH.
Qed.

Lemma isspace_not_DASH (c : char) : isspace c = true -> c <> DASH.
Proof. intros H ->. discriminate. Qed.

Lemma startswith_DASHES_space (c : char) (t : str) :
  isspace c = true -> startswith (c :: t) DASHES = false.
Proof.
  intro H. unfold DASHES. rewrite startswith_cons.
  destruct (N.eqb_spec c DASH) as [E|_]; [|reflexivity].
  now apply isspace_not_DASH in H.
Qed.

Lemma re_sub_comment_all_space (ws : str) (b : bool) :
  forallb isspace ws = true -> forallb isspace (re_sub_comment b ws) = true.
Proof.
  revert b. induction ws as [|c ws IH]; intros b H; [reflexivity|].
  cbn [forallb] in H. apply andb_true_iff in H as [Hc Hws]. destruct b.
  - rewrite re_sub_comment_cons_true. destruct (c =? NL)%N.
    + cbn [forallb]. now rewrite Hc, IH.
    + now apply IH.
  - rewrite re_sub_comment_cons_false, startswith_DASHES_space by exact Hc.
    cbn [forallb]. now rewrite Hc, IH.
Qed.

Lemma re_sub_comment_app_space (y ws : str) (b : bool) :
  forallb isspace ws = true ->
  exists ws', forallb isspace ws' = true /\
              re_sub_comment b (y ++ ws) = re_sub_comment b y ++ ws'.
Proof.
  intro Hws. revert b. induction y as [|c y IH]; intro b.
  - exists (re_sub_comment b ws). split.
    + now apply re_sub_comment_all_space.
    + now destruct b.
  - change ((c :: y) ++ ws) with (c :: (y ++ ws)). destruct b.
    + rewrite !re_sub_comment_cons_true. destruct (c =? NL)%N.
      * destruct (IH false) as (ws' & H1 & H2). exists ws'.
        split; [exact H1|]. now rewrite H2.
      * apply IH.
    + rewrite !re_sub_comment_cons_false.
      assert (E : startswith (c :: y ++ ws) DASHES = startswith (c :: y) DASHES).
      { destruct ws as [|w ws]; [now rewrite app_nil_r|].
        cbn [forallb] in Hws. apply andb_true_iff in Hws as [Hw _].
        change (c :: y ++ w :: ws) with ((c :: y) ++ w :: ws).
        apply startswith_sep. intros [F|[F|[]]]; subst w; discriminate. }
      rewrite E. destruct (startswith (c :: y) DASHES).
      * apply IH.
      * destruct (IH false) as (ws' & H1 & H2). exists ws'.
        split; [exact H1|]. now rewrite H2.
Qed.

Lemma lstrip_decompose (s : str) :
  exists ws, forallb isspace ws = true /\ s = ws ++ lstrip s.
Proof.
  induction s as [|c s (ws & H1 & H2)]; [now exists []|].
  simpl. destruct (isspace c) eqn:Hc.
  - exists (c :: ws). split.
    + cbn [forallb]. now rewrite Hc, H1.
    + simpl. now rewrite <- H2.
  - now exists [].
Qed.

Lemma rstrip_decompose (s : str) :
  exists ws, forallb isspace ws = true /\ s = rstrip s ++ ws.
Proof.
  destruct (lstrip_decompose (rev s)) as (ws & H1 & H2).
  exists (rev ws). split.
  - rewrite forallb_forall in *. intros c Hc. apply H1. now apply in_rev.
  - unfold rstrip. rewrite <- rev_app_distr, <- H2. now rewrite rev_involutive.
Qed.

Lemma split_re_sub_lstrip (s : str) :
  split (re_sub_comment false (lstrip s)) = split (re_sub_comment false s).
Proof.
  induction s as [|c s IH]; [reflexivity|].
  simpl lstrip. destruct (isspace c) eqn:Hc; [|reflexivity].
  rewrite (re_sub_comment_cons_false c s), startswith_DASHES_space by exact Hc.
  now rewrite split_space.
Qed.

Lemma split_re_sub_strip (s : str) :
  split (remove_line_comments (strip s)) = split (remove_line_comments s).
Proof.
  unfold remove_line_comments, strip.
  rewrite <- (split_re_sub_lstrip s).
  generalize (lstrip s). intro y.
  destruct (rstrip_decompose y) as (ws & H1 & H2).
  destruct (re_sub_comment_app_space (rstrip y) ws false H1)
    as (ws' & H3 & H4).
  rewrite <- H2 in H4. rewrite H4. now rewrite split_app_space.
Qed.

Lemma clean_body_strip (s : str) : clean_body (strip s) = clean_body s.
Proof. unfold clean_body. now rewrite split_re_sub_strip. Qed.

Lemma slice_wrapped (p x q : str) :
  slice (p ++ x ++ q) (length p) (length q) = x.
Proof.
  unfold slice. rewrite !length_app.
  replace (length p + (length x + length q) - length q - length p)%nat
    with (length x) by lia.
  rewrite skipn_app, skipn_all, Nat.sub_diag. simpl.
  rewrite firstn_app, firstn_all, Nat.sub_diag. simpl. apply app_nil_r.
Qed.

Lemma endswith_app_same (a p : str) : endswith (a ++ p) p = true.
Proof. unfold endswith. rewrite rev_app_distr. apply startswith_app_same. Qed.

Lemma startswith_app_app (p x q : str) :
  startswith (p ++ x) (p ++ q) = startswith x q.
Proof.
  induction p as [|c p IH]; [reflexivity|].
  simpl app. now rewrite startswith_cons, N.eqb_refl.
Qed.

Lemma startswith_longer_false (s p q : str) :
  startswith s p = false -> startswith s (p ++ q) = false.
Proof.
  revert s. induction p as [|x p IH]; intros s H.
  - now rewrite startswith_nil in H.
  - destruct s as [|c s]; [reflexivity|].
    simpl app. rewrite startswith_cons in *.
    destruct (c =? x)%N; [|reflexivity]. now apply IH.
Qed.

Lemma strip_fence_no_fence (x : str) :
  startswith x FENCE = false -> strip_fence x = x.
Proof.
  intro H. unfold strip_fence.
  change FENCE_SQL with (FENCE ++ lit "sql").
  now rewrite startswith_longer_false, H.
Qed.

(** X3. A fence around the whole text is transparent: when [x] does not
    itself begin with a fence marker, the text [```sql x ```] sanitizes
    exactly as [x] does, and so does [``` x ```] when [x] does not begin
    with the letters sql. *)
Theorem clean_sql_response_fenced (x : str) :
  startswith x FENCE = false ->
  _clean_sql_response (FENCE_SQL ++ x ++ FENCE) = _clean_sql_response x /\
  (startswith x (lit "sql") = false ->
   _clean_sql_response (FENCE ++ x ++ FENCE) = _clean_sql_response x).
Proof.
  intro Hx. rewrite (clean_unfold x), (strip_fence_no_fence x Hx). split.
  - rewrite clean_unfold. unfold strip_fence.
    rewrite startswith_app_same, app_assoc, endswith_app_same.
    cbn [andb]. rewrite <- app_assoc.
    change 6%nat with (length FENCE_SQL). change 3%nat with (length FENCE).
    rewrite slice_wrapped. apply clean_body_strip.
  - intro Hsql. rewrite clean_unfold. unfold strip_fence.
    change FENCE_SQL with (FENCE ++ lit "sql").
    rewrite startswith_app_app.
    assert (E : startswith (x ++ FENCE) (lit "sql") = false).
    { change FENCE with (BACKTICK :: [BACKTICK; BACKTICK]).
      rewrite startswith_sep; [exact Hsql|].
      intros [F|[F|[F|[]]]]; discriminate. }
    rewrite E. cbn [andb].
    rewrite startswith_app_same, app_assoc, endswith_app_same.
    cbn [andb]. rewrite <- app_assoc.
    change 3%nat with (length FENCE).
    rewrite slice_wrapped. apply clean_body_strip.
Qed.

Lemma clean_sql_response_fenced_witness :
  _clean_sql_response (FENCE_SQL ++ raw_padded_select ++ FENCE)
    = _clean_sql_response raw_padded_select /\
  _clean_sql_response (FENCE ++ raw_padded_select ++ FENCE)
    = _clean_sql_response raw_padded_select.
Proof.
  destruct (clean_sql_response_fenced raw_padded_select eq_refl) as [H1 H2].
  split; [exact H1|]. apply H2. reflexivity.
Defined.

Lemma endswith_nil_l (p : str) : p <> [] -> endswith [] p = false.
Proof.
  intro H. unfold endswith. apply startswith_nil_l.
  intro E. apply H. rewrite <- (rev_involutive p), E. reflexivity.
Qed.

(** X4. The sanitizer never gives the empty text; when nothing but
    whitespace is left once the wrapping fence and the line comments are
    removed, it gives the lone semicolon, and [generate_sql_query] returns
    that statement, not an error marker. *)
Theorem clean_sql_response_never_empty (x : str) :
  _clean_sql_response x <> [] /\
  (split (remove_line_comments (strip_fence x)) = [] ->
   _clean_sql_response x = [SEMI] /\
   forall self q sch m,
     model self = Some m ->
     m (sql_prompt q sch) sql_config = GenText x ->
     x <> [] ->
     outcome (generate_sql_query self q sch) = Return [SEMI]).
Proof.
  split.
  - rewrite clean_unfold.
    destruct (clean_body_shape (strip_fence x)) as (vs & _ & E & Hend & _).
    rewrite E. intro F. rewrite F in Hend.
    rewrite endswith_nil_l in Hend; discriminate.
  - intro Hw.
    assert (E : _clean_sql_response x = [SEMI]).
    { rewrite clean_unfold, clean_body_eq, Hw. reflexivity. }
    split; [exact E|].
    intros self q sch m Hm Hg Hx.
    unfold generate_sql_query. run_monad. rewrite Hm. run_monad.
    rewrite Hg. run_monad. destruct x as [|c x]; [congruence|].
    run_monad. rewrite E. reflexivity.
Qed.

Lemma clean_sql_response_never_empty_witness :
  _clean_sql_response raw_comment_only = [SEMI] /\
  outcome (generate_sql_query (mock_llm raw_comment_only)
             question_orders SCHEMA_INFO) = Return [SEMI].
Proof.
  destruct (clean_sql_response_never_empty raw_comment_only) as [_ H].
  destruct (H eq_refl) as [H1 H2]. split; [exact H1|].
  apply (H2 (mock_llm raw_comment_only) question_orders SCHEMA_INFO
            (fun _ _ => GenText raw_comment_only)); try reflexivity.
  discriminate.
Defined.

(** *** The reserved prefix survives the sanitizer *)

Lemma startswith_app_true (a b p : str) :
  startswith a p = true -> startswith (a ++ b) p = true.
Proof.
  revert a. induction p as [|x p IH]; intros a H; [apply startswith_nil|].
  destruct a as [|c a]; [discriminate|].
  simpl app. rewrite startswith_cons in *.
  apply andb_true_iff in H as [H1 H2]. rewrite H1. now apply IH.
Qed.

Lemma startswith_re_sub_keep (s p : str) :
  ~ In DASH p -> startswith s p = true ->
  startswith (re_sub_comment false s) p = true.
Proof.
  revert s. induction p as [|x p IH]; intros s Hp H; [apply startswith_nil|].
  destruct s as [|c s]; [discriminate|].
  rewrite startswith_cons in H. apply andb_true_iff in H as [H1 H2].
  apply N.eqb_eq in H1. subst x.
  rewrite re_sub_comment_cons_false.
  assert (E : startswith (c :: s) DASHES = false).
  { unfold DASHES. rewrite startswith_cons.
    destruct (N.eqb_spec c DASH) as [->|_]; [|reflexivity].
    exfalso. apply Hp. now left. }
  rewrite E, startswith_cons, N.eqb_refl. apply IH; [|exact H2].
  intro F. apply Hp. now right.
Qed.

Lemma startswith_join_split (s p : str) :
  p <> [] -> nospace p = true -> startswith s p = true ->
  startswith (join [SPACE] (split s)) p = true.
Proof.
  intros Hp Hn H. destruct s as [|d t]; [now rewrite startswith_nil_l in H|].
  assert (Hd : isspace d = false).
  { destruct p as [|x p]; [congruence|]. rewrite startswith_cons in H.
    apply andb_true_iff in H as [H _]. apply N.eqb_eq in H. subst x.
    simpl in Hn. apply andb_true_iff in Hn as [Hn _].
    now apply negb_true_iff in Hn. }
  destruct (split_head t d Hd) as (w & ws & rest & Hs & Ht & _ & Hr).
  assert (Hw : startswith (d :: w) p = true).
  { rewrite Ht in H. destruct Hr as [->|(sp & r & -> & Hsp)].
    - now rewrite app_nil_r in H.
    - rewrite startswith_sep in H; [exact H|]. now apply nospace_not_In. }
  rewrite Hs. destruct ws as [|w' ws]; [exact Hw|].
  rewrite join_cons2. now apply startswith_app_true.
Qed.

Lemma startswith_clean_body (s p : str) :
  p <> [] -> nospace p = true -> ~ In DASH p ->
  startswith s p = true -> startswith (clean_body s) p = true.
Proof.
  intros Hp Hn Hd H. rewrite clean_body_eq. unfold ensure_semicolon.
  assert (G : startswith (join [SPACE] (split (remove_line_comments s))) p
              = true).
  { apply startswith_join_split; try assumption.
    now apply startswith_re_sub_keep. }
  destruct (endswith _ [SEMI]); [exact G|]. now apply startswith_app_true.
Qed.

(** X5. A model text that begins with the reserved prefix keeps it through
    the sanitizer, so [/query] takes a successful generation for a failed
    one: it answers 400 with the sanitized text as detail, and neither the
    store nor the formatter is reached. *)
Theorem answer_question_prefix_false_positive (app : App) (q text : str) m :
  model (llm_helper app) = Some m ->
  m (sql_prompt q SCHEMA_INFO) sql_config = GenText text ->
  startswith text ERROR = true ->
  startswith (_clean_sql_response text) ERROR = true /\
  answer_question app q
  = (Raise (HTTPException 400 (_clean_sql_response text)),
     [ModelCall (sql_prompt q SCHEMA_INFO);
      LogDebug (lit "Generated SQL: " ++ _clean_sql_response text)]).
Proof.
  intros Hm Hg Ht.
  assert (E : startswith (_clean_sql_response text) ERROR = true).
  { rewrite clean_unfold, strip_fence_no_fence.
    - apply startswith_clean_body; try assumption; try reflexivity.
      + discriminate.
      + intros [F|[F|[F|[F|[F|[]]]]]]; discriminate.
    - destruct text as [|c t]; [reflexivity|].
      unfold ERROR in Ht. change (lit "Error") with (69%N :: lit "rror") in Ht.
      rewrite startswith_cons in Ht. apply andb_true_iff in Ht as [Hc _].
      apply N.eqb_eq in Hc. subst c. reflexivity. }
  split; [exact E|].
  unfold answer_question, generate_sql_query. run_monad. rewrite Hm. run_monad.
  rewrite Hg. run_monad.
  destruct text as [|c t]; [discriminate|]. run_monad.
  rewrite E. reflexivity.
Qed.

Lemma answer_question_prefix_false_positive_witness :
  startswith (_clean_sql_response raw_refusal) ERROR = true /\
  answer_question app_refusal question_orders
  = (Raise (HTTPException 400 (_clean_sql_response raw_refusal)),
     [ModelCall (sql_prompt question_orders SCHEMA_INFO);
      LogDebug (lit "Generated SQL: " ++ _clean_sql_response raw_refusal)]).
Proof.
  apply (answer_question_prefix_false_positive app_refusal question_orders
           raw_refusal (fun _ _ => GenText raw_refusal)); reflexivity.
Defined.

(** ** More on the formatter *)

Lemma lstrip_all_space (ws : str) : forallb isspace ws = true -> lstrip ws = [].
Proof.
  induction ws as [|c ws IH]; [reflexivity|].
  cbn [forallb]. intro H. apply andb_true_iff in H as [Hc Hws].
  simpl. rewrite Hc. now apply IH.
Qed.

Lemma strip_all_space (ws : str) : forallb isspace ws = true -> strip ws = [].
Proof. intro H. unfold strip. now rewrite lstrip_all_space. Qed.

(** X6. A formatted text of whitespace only is not empty, so it passes the
    emptiness test, and its [strip()] is: [/query] then succeeds with the
    empty answer. *)
Theorem answer_question_blank_answer (app : App) (q sql text : str)
    (evs : list event) (rows : list row) m :
  generate_sql_query (llm_helper app) q SCHEMA_INFO = (Return sql, evs) ->
  startswith sql ERROR = false ->
  engine app sql = StoreRows rows ->
  model (llm_helper app) = Some m ->
  m (format_prompt q (str_of_rows app rows)) format_config = GenText text ->
  text <> [] ->
  forallb isspace text = true ->
  outcome (format_response (llm_helper app) q (str_of_rows app rows))
    = Return [] /\
  outcome (answer_question app q)
    = Return {| question := q; sql_query := sql; answer := []; data := rows |}.
Proof.
  intros Hg Es Ee Hm Hf Hne Hws.
  assert (F : format_response (llm_helper app) q (str_of_rows app rows)
              = (Return [], [ModelCall (format_prompt q (str_of_rows app rows))])).
  { unfold format_response. run_monad. rewrite Hm. run_monad. rewrite Hf.
    run_monad. destruct text as [|c t]; [congruence|]. run_monad.
    now rewrite strip_all_space. }
  split; [now rewrite F|].
  unfold answer_question. rewrite Hg. run_monad. rewrite Es. run_monad.
  rewrite Ee. run_monad. rewrite F. reflexivity.
Qed.

Lemma answer_question_blank_answer_witness :
  outcome (format_response (llm_helper app_blank_answer) question_yesterday
             (str_of_rows app_blank_answer rows_yesterday))
    = Return [] /\
  outcome (answer_question app_blank_answer question_yesterday)
    = Return {| question := question_yesterday; sql_query := sql_yesterday;
                answer := []; data := rows_yesterday |}.
Proof.
  apply (answer_question_blank_answer app_blank_answer question_yesterday
           sql_yesterday ([NL] ++ lit "  " ++ [NL])
           [ModelCall (sql_prompt question_yesterday SCHEMA_INFO);
            LogDebug (lit "Generated SQL: " ++ sql_yesterday)]
           rows_yesterday
           (fun prompt _ =>
              if startswith prompt (lit "You are an expert SQLite SQL developer.")
              then GenText sql_yesterday
              else GenText ([NL] ++ lit "  " ++ [NL]))).
  - vm_compute. reflexivity.
  - vm_compute. reflexivity.
  - reflexivity.
  - reflexivity.
  - vm_compute. reflexivity.
  - discriminate.
  - reflexivity.
Defined.

(** ** More on the handlers *)

(** X7. [/query/clean] never raises.  It returns the generator's marker
    after the text [Error: ], the store's message after
    [Error processing request: ] (with the session left open), and
    otherwise whatever the formatter returned, a marker included. *)
Theorem clean_answer_responses (app : App) (q : str) :
  exists sql evs,
    generate_sql_query (llm_helper app) q SCHEMA_INFO = (Return sql, evs) /\
    if startswith sql ERROR
    then clean_answer app q = (Return (lit "Error: " ++ sql), evs)
    else
      match engine app sql with
      | StoreRaises cls msg =>
          clean_answer app q
          = (Return (lit "Error processing request: " ++ msg),
             evs ++ [SessionOpen; SessionExecute sql])
      | StoreRows rows =>
          exists ans evs',
            format_response (llm_helper app) q (str_of_rows app rows)
              = (Return ans, evs') /\
            clean_answer app q
            = (Return ans, evs ++ session_events sql ++ evs')
      end.
Proof.
  destruct (generate_sql_query_returns (llm_helper app) q SCHEMA_INFO)
    as (sql & evs & Hg & _).
  exists sql, evs. split; [exact Hg|].
  unfold clean_answer. rewrite Hg.
  destruct (startswith sql ERROR) eqn:Es.
  - run_monad. rewrite Es. run_monad. tidy_events. reflexivity.
  - destruct (engine app sql) as [cls msg|rows] eqn:Ee.
    + run_monad. rewrite Es. run_monad. rewrite Ee. run_monad.
      tidy_events. reflexivity.
    + destruct (format_response_returns (llm_helper app) q
                  (str_of_rows app rows)) as (ans & evs' & Hf & _).
      exists ans, evs'. split; [exact Hf|].
      run_monad. rewrite Es. run_monad. rewrite Ee. run_monad.
      rewrite Hf. run_monad. tidy_events. reflexivity.
Qed.

(** X8. The stream never fails as a whole: the generator returns, and its
    chunks are the inline error alone when the generation failed, the SQL
    line and then the inline error when the store or the formatter failed,
    and the SQL line and the words otherwise. *)
Theorem answer_question_stream_cases (app : App) (q : str) :
  outcome (generate app q) = Return tt /\
  exists sql evs,
    generate_sql_query (llm_helper app) q SCHEMA_INFO = (Return sql, evs) /\
    if startswith sql ERROR
    then answer_question_stream app q = [error_line sql]
    else
      match engine app sql with
      | StoreRaises cls msg =>
          answer_question_stream app q = [sql_line sql; error_line msg]
      | StoreRows rows =>
          exists ans evs',
            format_response (llm_helper app) q (str_of_rows app rows)
              = (Return ans, evs') /\
            answer_question_stream app q
            = sql_line sql
              :: (if startswith ans ERROR then [error_line ans]
                  else map word_chunk (split ans))
      end.
Proof.
  destruct (generate_sql_query_returns (llm_helper app) q SCHEMA_INFO)
    as (sql & evs & Hg & Hl & _).
  unfold answer_question_stream, generate. rewrite Hg.
  destruct (startswith sql ERROR) eqn:Es.
  - run_monad. rewrite Es. run_monad. split; [reflexivity|].
    exists sql, evs. split; [reflexivity|]. rewrite Es.
    unfold events. cbn [snd]. rewrite !chunks_app, (chunks_llm evs Hl).
    reflexivity.
  - destruct (engine app sql) as [cls msg|rows] eqn:Ee.
    + run_monad. rewrite Es. run_monad. rewrite Ee. run_monad.
      split; [reflexivity|].
      exists sql, evs. split; [reflexivity|]. rewrite Es, Ee.
      unfold events. cbn [snd]. rewrite !chunks_app, (chunks_llm evs Hl).
      reflexivity.
    + destruct (format_response_returns (llm_helper app) q
                  (str_of_rows app rows)) as (ans & evs' & Hf & Hl' & _).
      run_monad. rewrite Es. run_monad. rewrite Ee. run_monad.
      rewrite Hf. run_monad.
      destruct (startswith ans ERROR) eqn:Ea.
      * run_monad. split; [reflexivity|].
        exists sql, evs. split; [reflexivity|]. rewrite Es, Ee.
        exists ans, evs'. split; [exact Hf|]. rewrite Ea.
        unfold events. cbn [snd].
        rewrite !chunks_app, (chunks_llm evs Hl), (chunks_llm evs' Hl').
        reflexivity.
      * rewrite for_each_words. run_monad. split; [reflexivity|].
        exists sql, evs. split; [reflexivity|]. rewrite Es, Ee.
        exists ans, evs'. split; [exact Hf|]. rewrite Ea.
        unfold events. cbn [snd].
        rewrite !chunks_app, (chunks_llm evs Hl), (chunks_llm evs' Hl').
        rewrite chunks_word_events. reflexivity.
Qed.

Lemma outcome_try_except_500 {A} (body : M A) :
  outcome (try_except body (fun e => raise (HTTPException 500 (str_of_exn e))))
  = match outcome body with
    | Return a => Return a
    | Raise e => Raise (HTTPException 500 (str_of_exn e))
    end.
Proof. now destruct body as [[a|e] evs]. Qed.

(** X9. Every failure of [/query/visualize] is an HTTP 500: the 400 raised
    for a generator marker is caught by the handler's own catch-all and
    sent as a 500 whose detail is the text of that 400; an exception of the
    store gives a 500 with its message; and whatever happens while
    charting, the outcome is the image or a 500. *)
Theorem visualize_data_failures (app : App) (q : str) (chart_type : option str) :
  exists sql evs,
    generate_sql_query (llm_helper app) q SCHEMA_INFO = (Return sql, evs) /\
    if startswith sql ERROR
    then visualize_data app q chart_type
         = (Raise (HTTPException 500 (str_of_exn (HTTPException 400 sql))), evs)
    else
      match engine app sql with
      | StoreRaises cls msg =>
          visualize_data app q chart_type
          = (Raise (HTTPException 500 msg), evs ++ session_events sql)
      | StoreRows rows =>
          outcome (visualize_data app q chart_type) = Return tt \/
          exists e, outcome (visualize_data app q chart_type)
                    = Raise (HTTPException 500 (str_of_exn e))
      end.
Proof.
  destruct (generate_sql_query_returns (llm_helper app) q SCHEMA_INFO)
    as (sql & evs & Hg & _).
  exists sql, evs. split; [exact Hg|].
  destruct (startswith sql ERROR) eqn:Es.
  - unfold visualize_data. rewrite Hg. run_monad. rewrite Es. run_monad.
    tidy_events. reflexivity.
  - destruct (engine app sql) as [cls msg|rows] eqn:Ee.
    + unfold visualize_data. rewrite Hg. run_monad. rewrite Es. run_monad.
      rewrite Ee. run_monad. tidy_events. reflexivity.
    + unfold visualize_data. rewrite outcome_try_except_500.
      match goal with |- context [outcome ?b] => destruct (outcome b) as [[]|e] end.
      * now left.
      * right. now exists e.
Qed.

(** *** Charts that draw nothing, charts that cannot be drawn *)

Lemma to_datetime_column_events (app : App) (df : DataFrame) (c : str) :
  events (to_datetime_column app df c) = [].
Proof.
  unfold to_datetime_column. rewrite events_bind, to_datetime_records_events.
  now destruct (outcome (to_datetime_records app c (records df))).
Qed.

Lemma columns_at_events (cols : list str) (i : nat) :
  events (columns_at cols i) = [].
Proof. unfold columns_at. now destruct (nth_error cols i). Qed.

(** A chart type other than line, bar and pie draws nothing. *)
Lemma draw_chart_other_type (app : App) (df : DataFrame) (ct : str) :
  str_eqb ct LINE = false -> str_eqb ct BAR = false -> str_eqb ct PIE = false ->
  events (draw_chart app df ct) = [].
Proof.
  intros Hl Hb Hp. unfold draw_chart. destruct (has_column df DATE).
  - rewrite events_bind, to_datetime_column_events.
    destruct (outcome (to_datetime_column app df DATE)); [|reflexivity].
    now rewrite Hl, Hb.
  - rewrite events_bind, columns_at_events.
    destruct (outcome (columns_at (columns df) 0)); [|reflexivity].
    now rewrite Hb, Hp.
Qed.

Lemma plots_app (a b : list event) : plots (a ++ b) = plots a ++ plots b.
Proof.
  induction a as [|ev a IH]; [reflexivity|].
  destruct ev; simpl; rewrite IH; reflexivity.
Qed.

Lemma plots_llm (evs : list event) :
  forallb is_llm_event evs = true -> plots evs = [].
Proof.
  induction evs as [|ev evs IH]; [reflexivity|].
  simpl. intro H. apply andb_true_iff in H as [H1 H2].
  destruct ev; try discriminate; now apply IH.
Qed.

Lemma select_chart_type_histogram (rows : list row) :
  has_column (DataFrame_of_rows rows) DATE = false ->
  (10 < length rows)%nat ->
  select_chart_type None (DataFrame_of_rows rows) = HISTOGRAM.
Proof.
  intros Hd Hn. unfold select_chart_type, not_given, len.
  change (records (DataFrame_of_rows rows)) with rows.
  apply Nat.leb_gt in Hn. now rewrite Hd, Hn.
Qed.

(** X10. The histogram that is chosen for more than 10 rows without a
    date column is never drawn: the request plots no data at all, and when
    the rows have a column it still succeeds, with the figure set up, the
    title and the layout as its only plot commands. *)
Theorem visualize_data_histogram_empty (app : App) (q sql : str)
    (evs : list event) (rows : list row) :
  generate_sql_query (llm_helper app) q SCHEMA_INFO = (Return sql, evs) ->
  startswith sql ERROR = false ->
  engine app sql = StoreRows rows ->
  has_column (DataFrame_of_rows rows) DATE = false ->
  (10 < length rows)%nat ->
  select_chart_type None (DataFrame_of_rows rows) = HISTOGRAM /\
  existsb is_series (plots (events (visualize_data app q None))) = false /\
  (columns (DataFrame_of_rows rows) <> [] ->
   visualize_data app q None
   = (Return tt,
      evs ++ session_events sql ++ chart_prologue ++ chart_epilogue q)).
Proof.
  intros Hg Es Ee Hd Hn.
  pose proof (select_chart_type_histogram rows Hd Hn) as Hh.
  pose proof (generate_sql_query_events _ _ _ _ _ Hg) as Hl.
  assert (Hdraw : forall c, nth_error (columns (DataFrame_of_rows rows)) 0 = Some c ->
                  draw_chart app (DataFrame_of_rows rows) HISTOGRAM = (Return tt, [])).
  { intros c Hc. unfold draw_chart, columns_at. now rewrite Hd, Hc. }
  assert (Hnone : nth_error (columns (DataFrame_of_rows rows)) 0 = None ->
                  exists e, draw_chart app (DataFrame_of_rows rows) HISTOGRAM
                            = (Raise e, [])).
  { intros Hc. unfold draw_chart, columns_at. rewrite Hd, Hc. eexists. reflexivity. }
  split; [exact Hh|]. split.
  - unfold visualize_data. rewrite Hg. run_monad. rewrite Es. run_monad.
    rewrite Ee. run_monad. rewrite Hh.
    destruct (nth_error (columns (DataFrame_of_rows rows)) 0) as [c|] eqn:Hc.
    + rewrite (Hdraw c eq_refl). run_monad. unfold events. cbn [snd].
      rewrite !plots_app, (plots_llm evs Hl). reflexivity.
    + destruct (Hnone eq_refl) as [e He]. rewrite He. run_monad.
      unfold events. cbn [snd].
      rewrite !plots_app, (plots_llm evs Hl). reflexivity.
  - intro Hcols.
    destruct (nth_error (columns (DataFrame_of_rows rows)) 0) as [c|] eqn:Hc.
    + unfold visualize_data. rewrite Hg. run_monad. rewrite Es. run_monad.
      rewrite Ee. run_monad. rewrite Hh, (Hdraw c eq_refl). run_monad.
      tidy_events. reflexivity.
    + exfalso. apply Hcols.
      destruct (columns (DataFrame_of_rows rows)); [reflexivity|discriminate].
Qed.

Lemma visualize_data_histogram_empty_witness :
  select_chart_type None (DataFrame_of_rows (repeat item_row 11)) = HISTOGRAM /\
  existsb is_series (plots (events (visualize_data app_items question_items None)))
    = false /\
  visualize_data app_items question_items None
  = (Return tt,
     [ModelCall (sql_prompt question_items SCHEMA_INFO);
      LogDebug (lit "Generated SQL: " ++ sql_items)]
     ++ session_events sql_items ++ chart_prologue
     ++ chart_epilogue question_items).
Proof.
  destruct (visualize_data_histogram_empty app_items question_items sql_items
              [ModelCall (sql_prompt question_items SCHEMA_INFO);
               LogDebug (lit "Generated SQL: " ++ sql_items)]
              (repeat item_row 11)) as (H1 & H2 & H3).
  - vm_compute. reflexivity.
  - vm_compute. reflexivity.
  - reflexivity.
  - vm_compute. reflexivity.
  - simpl. lia.
  - split; [exact H1|]. split; [exact H2|]. apply H3.
    vm_compute. discriminate.
Defined.

(** X11. A result with a single column that is not [date] cannot be shown
    as a bar or a pie chart: the lookup of the second column raises, and
    the request ends in an HTTP 500.  Without a hint this is what happens
    to every such result of at most 10 rows. *)
Theorem visualize_data_single_column (app : App) (q sql c : str)
    (chart_type : option str) (evs : list event) (rows : list row) :
  generate_sql_query (llm_helper app) q SCHEMA_INFO = (Return sql, evs) ->
  startswith sql ERROR = false ->
  engine app sql = StoreRows rows ->
  columns (DataFrame_of_rows rows) = [c] ->
  has_column (DataFrame_of_rows rows) DATE = false ->
  select_chart_type chart_type (DataFrame_of_rows rows) = BAR \/
  select_chart_type chart_type (DataFrame_of_rows rows) = PIE ->
  visualize_data app q chart_type
  = (Raise (HTTPException 500
              (lit "index 1 is out of bounds for axis 0 with size 1")),
     evs ++ session_events sql ++ chart_prologue).
Proof.
  intros Hg Es Ee Hc Hd Hct.
  assert (Hdraw : draw_chart app (DataFrame_of_rows rows)
                    (select_chart_type chart_type (DataFrame_of_rows rows))
                  = (Raise (IndexError
                              (lit "index 1 is out of bounds for axis 0 with size 1")),
                     [])).
  { unfold draw_chart, columns_at. rewrite Hd, Hc.
    destruct Hct as [-> | ->]; reflexivity. }
  unfold visualize_data. rewrite Hg. run_monad. rewrite Es. run_monad.
  rewrite Ee. run_monad. rewrite Hdraw. run_monad. tidy_events. reflexivity.
Qed.

Lemma visualize_data_single_column_witness :
  visualize_data app_count question_count None
  = (Raise (HTTPException 500
              (lit "index 1 is out of bounds for axis 0 with size 1")),
     [ModelCall (sql_prompt question_count SCHEMA_INFO);
      LogDebug (lit "Generated SQL: " ++ sql_count)]
     ++ session_events sql_count ++ chart_prologue).
Proof.
  apply (visualize_data_single_column app_count question_count sql_count
           (lit "COUNT(*)") None _ rows_count).
  - vm_compute. reflexivity.
  - vm_compute. reflexivity.
  - reflexivity.
  - vm_compute. reflexivity.
  - vm_compute. reflexivity.
  - left. vm_compute. reflexivity.
Defined.

(** *** [/query/html] *)

(** X12. [/query/html] never raises: a failure of [/query] comes back as
    the error page that carries the text of its HTTP exception, and a
    success as the page built from the four fields of the answer. *)
Theorem html_answer_responses (app : App) (q : str) :
  exists sql evs,
    generate_sql_query (llm_helper app) q SCHEMA_INFO = (Return sql, evs) /\
    if startswith sql ERROR
    then html_answer app q
         = (Return (html_error (HTTPException 400 sql)), evs)
    else
      match engine app sql with
      | StoreRaises cls msg =>
          html_answer app q
          = (Return (html_error (HTTPException 500 msg)),
             evs ++ session_events sql)
      | StoreRows rows =>
          exists ans evs',
            format_response (llm_helper app) q (str_of_rows app rows)
              = (Return ans, evs') /\
            html_answer app q
            = (Return (if startswith ans ERROR
                       then html_error (HTTPException 400 ans)
                       else html_page app {| question := q; sql_query := sql;
                                             answer := ans; data := rows |}),
               evs ++ session_events sql ++ evs')
      end.
Proof.
  destruct (generate_sql_query_returns (llm_helper app) q SCHEMA_INFO)
    as (sql & evs & Hg & _).
  exists sql, evs. split; [exact Hg|].
  unfold html_answer, answer_question. rewrite Hg.
  destruct (startswith sql ERROR) eqn:Es.
  - run_monad. rewrite Es. run_monad. tidy_events. reflexivity.
  - destruct (engine app sql) as [cls msg|rows] eqn:Ee.
    + run_monad. rewrite Es. run_monad. rewrite Ee. run_monad.
      tidy_events. reflexivity.
    + destruct (format_response_returns (llm_helper app) q
                  (str_of_rows app rows)) as (ans & evs' & Hf & _).
      exists ans, evs'. split; [exact Hf|].
      run_monad. rewrite Es. run_monad. rewrite Ee. run_monad.
      rewrite Hf. run_monad.
      destruct (startswith ans ERROR); run_monad; tidy_events; reflexivity.
Qed.

(** *** What a success of [/query] means for the other endpoints *)

Lemma answer_question_success (app : App) (q : str) (r : QueryResponse) :
  outcome (answer_question app q) = Return r ->
  exists evs evs',
    question r = q /\
    generate_sql_query (llm_helper app) q SCHEMA_INFO
      = (Return (sql_query r), evs) /\
    startswith (sql_query r) ERROR = false /\
    engine app (sql_query r) = StoreRows (data r) /\
    format_response (llm_helper app) q (str_of_rows app (data r))
      = (Return (answer r), evs') /\
    startswith (answer r) ERROR = false.
Proof.
  destruct (generate_sql_query_returns (llm_helper app) q SCHEMA_INFO)
    as (sql & evs & Hg & _).
  unfold answer_question. rewrite Hg.
  destruct (startswith sql ERROR) eqn:Es.
  - run_monad. rewrite Es. run_monad. discriminate.
  - destruct (engine app sql) as [cls msg|rows] eqn:Ee.
    + run_monad. rewrite Es. run_monad. rewrite Ee. run_monad. discriminate.
    + destruct (format_response_returns (llm_helper app) q
                  (str_of_rows app rows)) as (ans & evs' & Hf & _).
      run_monad. rewrite Es. run_monad. rewrite Ee. run_monad.
      rewrite Hf. run_monad.
      destruct (startswith ans ERROR) eqn:Ea; run_monad; [discriminate|].
      unfold outcome. cbn [fst]. intro H. injection H as <-.
      cbn [question sql_query answer data].
      exists evs, evs'. repeat split; assumption.
Qed.

Lemma generate_sql_query_same_reply (self self' : LLMHelper) (q schema : str) :
  reply self' (sql_prompt q schema) sql_config
    = reply self (sql_prompt q schema) sql_config ->
  generate_sql_query self' q schema = generate_sql_query self q schema.
Proof.
  unfold reply, generate_sql_query, require_model, generate_content.
  destruct (model self') as [m'|], (model self) as [m|]; intro H;
    try discriminate; [|reflexivity].
  injection H as H. run_monad. now rewrite H.
Qed.

Lemma format_response_same_reply (self self' : LLMHelper) (q d : str) :
  reply self' (format_prompt q d) format_config
    = reply self (format_prompt q d) format_config ->
  format_response self' q d = format_response self q d.
Proof.
  unfold reply, format_response, require_model, generate_content.
  destruct (model self') as [m'|], (model self) as [m|]; intro H;
    try discriminate; [|reflexivity].
  injection H as H. run_monad. now rewrite H.
Qed.

(** X13. The endpoints agree on a success. When [/query] has returned a
    body, a request to one of the other endpoints that meets the same
    replies of the backend and the same outcome of the store gives the same
    answer: [/query/clean] returns the answer of the body, [/query/stream]
    sends its SQL and the words of its answer, and [/query/html] returns the
    page built from it. *)
Theorem endpoints_agree_on_success (app app' : App) (q : str)
    (r : QueryResponse) :
  outcome (answer_question app q) = Return r ->
  same_replies app app' q r ->
  outcome (clean_answer app' q) = Return (answer r) /\
  answer_question_stream app' q
    = sql_line (sql_query r) :: map word_chunk (split (answer r)) /\
  outcome (html_answer app' q) = Return (html_page app' r).
Proof.
  intros H (Rg & Re & Rs & Rf).
  apply answer_question_success in H
    as (evs & evs' & Hq & Hg & Es & Ee & Hf & Ea).
  rewrite <- (generate_sql_query_same_reply _ _ _ _ Rg) in Hg.
  rewrite <- (format_response_same_reply _ _ _ _ Rf), <- Rs in Hf.
  rewrite <- Re in Ee.
  pose proof (generate_sql_query_events _ _ _ _ _ Hg) as Hl.
  pose proof (format_response_events _ _ _ _ _ Hf) as Hl'.
  repeat split.
  - unfold clean_answer. rewrite Hg. run_monad. rewrite Es. run_monad.
    rewrite Ee. run_monad. rewrite Hf. reflexivity.
  - unfold answer_question_stream, generate. rewrite Hg. run_monad.
    rewrite Es. run_monad. rewrite Ee. run_monad. rewrite Hf. run_monad.
    rewrite Ea, for_each_words. run_monad. unfold events. cbn [snd].
    rewrite !chunks_app, (chunks_llm evs Hl), (chunks_llm evs' Hl').
    rewrite chunks_word_events. reflexivity.
  - unfold html_answer, answer_question. rewrite Hg. run_monad.
    rewrite Es. run_monad. rewrite Ee. run_monad. rewrite Hf. run_monad.
    rewrite Ea. run_monad. unfold outcome. cbn [fst].
    destruct r as [rq rsql rans rdata].
    cbn [question sql_query answer data] in *. now subst rq.
Qed.

Lemma endpoints_agree_on_success_witness :
  outcome (clean_answer app_sales_later question_yesterday)
    = Return (lit "Total sales yesterday were  1,234.50 in all.") /\
  answer_question_stream app_sales_later question_yesterday
    = sql_line sql_yesterday
      :: map word_chunk (split (lit "Total sales yesterday were  1,234.50 in all.")) /\
  outcome (html_answer app_sales_later question_yesterday)
    = Return (html_page app_sales_later
                {| question := question_yesterday; sql_query := sql_yesterday;
                   answer := lit "Total sales yesterday were  1,234.50 in all.";
                   data := rows_yesterday |}).
Proof.
  apply (endpoints_agree_on_success app_sales app_sales_later
           question_yesterday
           {| question := question_yesterday; sql_query := sql_yesterday;
              answer := lit "Total sales yesterday were  1,234.50 in all.";
              data := rows_yesterday |}).
  - vm_compute. reflexivity.
  - repeat split; vm_compute; reflexivity.
Defined.

(** *** Only sanitized SQL reaches the store *)

Lemma executed_app (a b : list event) :
  executed (a ++ b) = executed a ++ executed b.
Proof.
  induction a as [|ev a IH]; [reflexivity|].
  destruct ev; simpl; rewrite IH; reflexivity.
Qed.

Lemma executed_none (evs : list event) :
  forallb no_execute_event evs = true -> executed evs = [].
Proof.
  induction evs as [|ev evs IH]; [reflexivity|].
  simpl. intro H. apply andb_true_iff in H as [H1 H2].
  destruct ev; try discriminate; now apply IH.
Qed.

Lemma llm_events_no_execute (evs : list event) :
  forallb is_llm_event evs = true -> forallb no_execute_event evs = true.
Proof.
  rewrite !forallb_forall. intros H ev Hin. specialize (H ev Hin).
  now destruct ev.
Qed.

Section Only.
Variable P : event -> bool.

Lemma only_ret {A} (a : A) : only P (ret a).
Proof. reflexivity. Qed.

Lemma only_raise {A} (e : exn) : only P (@raise A e).
Proof. reflexivity. Qed.

Lemma only_emit (ev : event) : P ev = true -> only P (emit ev).
Proof. intro H. unfold only, emit, events. simpl. now rewrite H. Qed.

Lemma only_bind {A B} (m : M A) (k : A -> M B) :
  only P m -> (forall a, only P (k a)) -> only P (bind m k).
Proof.
  unfold only. intros Hm Hk. rewrite events_bind.
  apply forallb_app_true; [exact Hm|].
  destruct (outcome m); [apply Hk|reflexivity].
Qed.

Lemma only_try_except {A} (m : M A) (h : exn -> M A) :
  only P m -> (forall e, only P (h e)) -> only P (try_except m h).
Proof.
  unfold only. intros Hm Hh. rewrite events_try_except.
  apply forallb_app_true; [exact Hm|].
  destruct (outcome m); [reflexivity|apply Hh].
Qed.

Lemma only_for_each {A} (xs : list A) (body : A -> M unit) :
  (forall x, only P (body x)) -> only P (for_each xs body).
Proof.
  intro H. induction xs as [|x xs IH]; [reflexivity|].
  cbn [for_each]. apply only_bind; [apply H|]. intros _. exact IH.
Qed.

Lemma only_columns_at (cols : list str) (i : nat) : only P (columns_at cols i).
Proof. unfold only. now rewrite columns_at_events. Qed.

Lemma only_to_datetime_column (app : App) (df : DataFrame) (c : str) :
  only P (to_datetime_column app df c).
Proof. unfold only. now rewrite to_datetime_column_events. Qed.
End Only.

Lemma only_format_response (self : LLMHelper) (q data : str) :
  only no_execute_event (format_response self q data).
Proof.
  destruct (format_response_returns self q data) as (s & evs & H & Hl & _).
  unfold only. rewrite H. now apply llm_events_no_execute.
Qed.

Ltac only_tac :=
  repeat first
    [ apply only_ret | apply only_raise | apply only_format_response
    | apply only_columns_at | apply only_to_datetime_column
    | apply only_emit; reflexivity
    | apply only_bind | apply only_try_except | apply only_for_each
    | intro
    | match goal with
      | |- only _ (if ?c then _ else _) => destruct c
      | |- only _ (match ?e with _ => _ end) => destruct e
      end ].

Lemma only_draw_chart (app : App) (df : DataFrame) (chart_type : str) :
  only no_execute_event (draw_chart app df chart_type).
Proof. unfold draw_chart. only_tac. Qed.

(** The scoped use of the session sends what its body sends. *)
Lemma executed_scoped {A B} (use : M A) (rest : A -> M B) :
  (forall a, only no_execute_event (rest a)) ->
  executed (events (get_session ;; x <- try_finally use session_close ;; rest x))
  = executed (events use).
Proof.
  intro Hr. rewrite events_bind. change (outcome get_session) with (Return tt).
  rewrite events_bind, events_try_finally, !executed_app.
  match goal with
  | |- context [executed (match ?o with Return a => _ | Raise _ => _ end)] =>
      assert (E : executed match o with
                           | Return a => events (rest a)
                           | Raise _ => []
                           end = [])
        by (apply executed_none; destruct o; [apply Hr|reflexivity]);
      rewrite E
  end.
  cbn. now rewrite !app_nil_r.
Qed.

Lemma session_execute_executed (app : App) (sql : str) :
  executed (events (session_execute app sql)) = [sql].
Proof. unfold session_execute. run_monad. now destruct (engine app sql). Qed.

(** A handler that generates the SQL and goes on under a catch-all, when
    what follows sends the statement unless it carries the marker. *)
Lemma handler_executed {B} (app : App) (q : str)
    (body : str -> M B) (handler : exn -> M B) :
  (forall sql, executed (events (body sql))
               = if startswith sql ERROR then [] else [sql]) ->
  (forall e, only no_execute_event (handler e)) ->
  sanitized_or_none app q
    (executed (events (try_except
                         (sql_query <- generate_sql_query (llm_helper app) q SCHEMA_INFO ;;
                          body sql_query)
                         handler))).
Proof.
  intros Hbody Hh.
  rewrite events_try_except, events_bind.
  destruct (generate_sql_query_returns (llm_helper app) q SCHEMA_INFO)
    as (sql & evs & Hg & Hl & Hres).
  rewrite Hg. change (outcome (Return sql, evs)) with (Return sql).
  change (events (Return sql, evs)) with evs.
  rewrite !executed_app, Hbody.
  rewrite (executed_none evs) by now apply llm_events_no_execute.
  match goal with
  | |- context [executed (match ?o with Return _ => [] | Raise e => _ end)] =>
      assert (E : executed match o with
                           | Return _ => []
                           | Raise e => events (handler e)
                           end = [])
        by (apply executed_none; destruct o; [reflexivity|apply Hh]);
      rewrite E
  end.
  destruct (startswith sql ERROR) eqn:Es; [now left|].
  right. unfold generation_result in Hres.
  destruct (model (llm_helper app)) as [m|]; [|destruct Hres; congruence].
  destruct (m (sql_prompt q SCHEMA_INFO) sql_config) as [e|[|c t]] eqn:Em;
    try (destruct Hres; congruence).
  exists m, (c :: t). subst sql. repeat split; auto.
Qed.

(** X14. On each of the four endpoints that use the store, a request sends
    at most one statement, and that statement is the sanitized text of the
    backend, never an error marker, never the raw text. *)
Theorem executed_sql_is_sanitized (app : App) (q : str)
    (chart_type : option str) :
  sanitized_or_none app q (executed (events (answer_question app q))) /\
  sanitized_or_none app q (executed (events (generate app q))) /\
  sanitized_or_none app q (executed (events (visualize_data app q chart_type))) /\
  sanitized_or_none app q (executed (events (clean_answer app q))).
Proof.
  repeat split.
  - unfold answer_question. apply handler_executed.
    + intro sql. destruct (startswith sql ERROR); [reflexivity|].
      rewrite executed_scoped; [apply session_execute_executed|]. only_tac.
    + only_tac.
  - unfold generate. apply handler_executed.
    + intro sql. destruct (startswith sql ERROR); [reflexivity|].
      rewrite events_bind. change (outcome (emit _)) with (Return tt).
      rewrite executed_app.
      rewrite executed_scoped; [apply session_execute_executed|]. only_tac.
    + only_tac.
  - unfold visualize_data. apply handler_executed.
    + intro sql. destruct (startswith sql ERROR); [reflexivity|].
      rewrite executed_scoped.
      * rewrite events_bind, executed_app, session_execute_executed.
        now destruct (outcome (session_execute app sql)).
      * only_tac. apply only_draw_chart.
    + only_tac.
  - unfold clean_answer. apply handler_executed.
    + intro sql. destruct (startswith sql ERROR); [reflexivity|].
      rewrite events_bind. change (outcome get_session) with (Return tt).
      rewrite events_bind, !executed_app, session_execute_executed.
      destruct (outcome (session_execute app sql)); [|reflexivity].
      rewrite events_bind. change (outcome session_close) with (Return tt).
      rewrite executed_app, (executed_none (events (format_response _ _ _ ;; _))).
      * reflexivity.
      * only_tac.
    + only_tac.
Qed.

(** ** The construction of the helper and its catalogue *)

Lemma str_eqb_refl (a : str) : str_eqb a a = true.
Proof. induction a as [|c a IH]; [reflexivity|]. simpl. now rewrite N.eqb_refl. Qed.

Lemma str_eqb_eq (a b : str) : str_eqb a b = true <-> a = b.
Proof.
  split; [|intros ->; apply str_eqb_refl].
  revert b. induction a as [|c a IH]; intros [|d b] H; try discriminate.
  - reflexivity.
  - simpl in H. apply andb_true_iff in H as [H1 H2].
    apply N.eqb_eq in H1. subst d. f_equal. now apply IH.
Qed.

Lemma str_eqb_neq (a b : str) : str_eqb a b = false <-> a <> b.
Proof.
  split.
  - intros H E. apply str_eqb_eq in E. congruence.
  - intro H. destruct (str_eqb a b) eqn:E; [|reflexivity].
    apply str_eqb_eq in E. contradiction.
Qed.

(** Lookup after a store: the stored value under its key, the old value
    under any other key. *)
Lemma dict_get_set {V} (d : dict V) (k k' : str) (v : V) :
  dict_get (dict_set d k v) k'
  = if str_eqb k k' then Some v else dict_get d k'.
Proof.
  induction d as [|[k0 v0] d IH]; [reflexivity|].
  cbn [dict_set]. destruct (str_eqb k0 k) eqn:E0.
  - apply str_eqb_eq in E0. subst k0. cbn [dict_get].
    now destruct (str_eqb k k').
  - cbn [dict_get]. destruct (str_eqb k0 k') eqn:E1; [|exact IH].
    apply str_eqb_eq in E1. subst k0.
    destruct (str_eqb k k') eqn:E2; [|reflexivity].
    apply str_eqb_eq in E2. subst k. rewrite str_eqb_refl in E0. discriminate.
Qed.

Lemma dict_keys_In {V} (d : dict V) (k : str) :
  In k (dict_keys d) <-> dict_mem d k = true.
Proof.
  unfold dict_mem. induction d as [|[k0 v0] d IH]; [simpl; split; [tauto|discriminate]|].
  cbn [dict_keys map fst dict_get]. destruct (str_eqb k0 k) eqn:E.
  - apply str_eqb_eq in E. subst k0. split; [reflexivity|]. intros _. now left.
  - apply str_eqb_neq in E. split.
    + intros [F|F]; [contradiction|]. now apply IH.
    + intro F. right. now apply IH.
Qed.

Lemma dict_set_keys_NoDup {V} (d : dict V) (k : str) (v : V) :
  NoDup (dict_keys d) -> NoDup (dict_keys (dict_set d k v)).
Proof.
  induction d as [|[k0 v0] d IH]; intro H.
  - simpl. constructor; [tauto|constructor].
  - cbn [dict_set]. destruct (str_eqb k0 k) eqn:E; [exact H|].
    inversion H as [|? ? Hn Hd]; subst. cbn [dict_keys map fst].
    constructor; [|now apply IH].
    intro F. apply dict_keys_In in F. unfold dict_mem in F.
    rewrite dict_get_set in F.
    destruct (str_eqb k k0) eqn:E'.
    + apply str_eqb_eq in E'. subst k. rewrite str_eqb_refl in E. discriminate.
    + apply Hn. now apply dict_keys_In.
Qed.

(** What the catalogue holds while it is built. *)
Lemma catalogue_fold (ms : list ModelEntry) (d : dict ModelEntry) :
  let d' := fold_left
              (fun d m => if supports_generate m
                          then dict_set d (entry_name m) m else d) ms d in
  (NoDup (dict_keys d) -> NoDup (dict_keys d')) /\
  (forall k v, dict_get d' k = Some v ->
     dict_get d k = Some v \/
     (In v ms /\ entry_name v = k /\ supports_generate v = true)) /\
  (forall k, dict_mem d k = true -> dict_mem d' k = true) /\
  (forall m, In m ms -> supports_generate m = true ->
     dict_mem d' (entry_name m) = true).
Proof.
  revert d. induction ms as [|m ms IH]; intro d; cbn [fold_left].
  - repeat split; auto; try (intros ? []).
  - set (d1 := if supports_generate m then dict_set d (entry_name m) m else d).
    destruct (IH d1) as (H1 & H2 & H3 & H4). repeat split.
    + intro Hd. apply H1. unfold d1.
      destruct (supports_generate m); [now apply dict_set_keys_NoDup|exact Hd].
    + intros k v Hg. destruct (H2 k v Hg) as [Hg1|(Hin & Hn & Hs)].
      * unfold d1 in Hg1. destruct (supports_generate m) eqn:Es; [|now left].
        rewrite dict_get_set in Hg1.
        destruct (str_eqb (entry_name m) k) eqn:E; [|now left].
        apply str_eqb_eq in E. injection Hg1 as <-.
        right. repeat split; auto. now left.
      * right. repeat split; auto. now right.
    + intros k Hk. apply H3. unfold d1.
      destruct (supports_generate m); [|exact Hk].
      unfold dict_mem in *. rewrite dict_get_set.
      now destruct (str_eqb (entry_name m) k).
    + intros m' [<-|Hin] Hs.
      * apply H3. unfold d1. rewrite Hs. unfold dict_mem.
        now rewrite dict_get_set, str_eqb_refl.
      * now apply H4.
Qed.

Ltac run_init :=
  cbv beta iota delta [ibind itry iret iraise iemit]; cbn [fst].

Lemma catalogue_of_get (ms : list ModelEntry) (k : str) (v : ModelEntry) :
  dict_get (catalogue_of ms) k = Some v ->
  In v ms /\ entry_name v = k /\ supports_generate v = true.
Proof.
  intro Hg. destruct (catalogue_fold ms []) as (_ & H2 & _).
  destruct (H2 k v Hg) as [F|F]; [discriminate|exact F].
Qed.

Lemma get_available_models_returns (genai : Genai) :
  exists d evs,
    _get_available_models genai = (Return d, evs) /\
    (forall k v, dict_get d k = Some v ->
       entry_name v = k /\ supports_generate v = true /\
       exists ms, list_models genai = ListModels ms /\ In v ms).
Proof.
  unfold _get_available_models.
  destruct (list_models genai) as [e|ms]; run_init.
  - eexists; eexists. split; [reflexivity|]. intros k v F. discriminate.
  - eexists; eexists. split; [reflexivity|]. intros k v Hg.
    apply catalogue_of_get in Hg as (Hin & Hn & Hs).
    repeat split; auto. now exists ms.
Qed.

(** X15. [_get_available_models] never raises.  When the listing fails it
    logs the failure and gives the empty catalogue; otherwise the keys of
    the catalogue are, without repetition, exactly the names of the listed
    models that support [generateContent], and each key leads to a listed
    model of that name. *)
Theorem get_available_models_catalogue (genai : Genai) :
  match list_models genai with
  | ListRaises e =>
      _get_available_models genai
      = (Return [],
         [InitLogError (lit "Error fetching available models: " ++ str_of_exn e)])
  | ListModels ms =>
      exists d,
        _get_available_models genai = (Return d, []) /\
        NoDup (dict_keys d) /\
        (forall k, dict_mem d k = true <->
           exists m, In m ms /\ entry_name m = k /\ supports_generate m = true) /\
        (forall k v, dict_get d k = Some v ->
           In v ms /\ entry_name v = k /\ supports_generate v = true)
  end.
Proof.
  unfold _get_available_models.
  destruct (list_models genai) as [e|ms]; run_init; [reflexivity|].
  exists (catalogue_of ms).
  destruct (catalogue_fold ms []) as (H1 & _ & _ & H4).
  split; [reflexivity|]. split; [apply H1; constructor|]. split.
  - intro k. split.
    + unfold dict_mem. destruct (dict_get (catalogue_of ms) k) as [v|] eqn:Hg;
        [|discriminate].
      intros _. exists v. now apply catalogue_of_get.
    + intros (m & Hin & <- & Hs). now apply H4.
  - intros k v. apply catalogue_of_get.
Qed.

Lemma init_ready (genai : Genai) (api_key : option str) (name : str) :
  match fst (__init__ genai api_key name) with
  | Return self =>
      model_name (helper self) = name /\
      (exists m, model (helper self) = Some m /\
                 GenerativeModel genai name = ModelHandle m) /\
      (exists entry ms,
         dict_get (available_models self) name = Some entry /\
         entry_name entry = name /\ supports_generate entry = true /\
         list_models genai = ListModels ms /\ In entry ms)
  | Raise e => True
  end.
Proof.
  unfold __init__.
  destruct (get_available_models_returns genai) as (d & evs & Hd & Hinv).
  rewrite Hd. run_init.
  destruct api_key as [[|c key]|]; run_init; try exact I.
  destruct (configure genai (c :: key)) as [e|] eqn:Ec; run_init; [exact I|].
  destruct (dict_is_empty d); run_init; [exact I|].
  destruct (dict_mem d name) eqn:Em; cbn [negb]; run_init; [|exact I].
  destruct (GenerativeModel genai name) as [e|m] eqn:Eg; run_init; [exact I|].
  cbn [fst helper model_name model available_models].
  repeat split.
  - now exists m.
  - unfold dict_mem in Em. destruct (dict_get d name) as [entry|] eqn:Hg;
      [|discriminate].
    destruct (Hinv name entry Hg) as (Hn & Hs & ms & Hl & Hin).
    exists entry, ms. auto.
Qed.

(** X16. The constructor either returns a helper that is ready (the API
    key was there and accepted, the model of the requested name is set,
    and the catalogue holds under that name a listed model that supports
    [generateContent]), or raises a [RuntimeError] whose text begins with
    [LLM initialization failed: ]; no other exception leaves it. *)
Theorem init_postcondition (genai : Genai) (api_key : option str) (name : str) :
  match fst (__init__ genai api_key name) with
  | Return self =>
      model_name (helper self) = name /\
      (exists m, model (helper self) = Some m /\
                 GenerativeModel genai name = ModelHandle m) /\
      (exists key, api_key = Some key /\ key <> [] /\
                   configure genai key = None) /\
      (exists entry ms,
         dict_get (available_models self) name = Some entry /\
         entry_name entry = name /\ supports_generate entry = true /\
         list_models genai = ListModels ms /\ In entry ms)
  | Raise e =>
      exists reason,
        e = RuntimeError (lit "LLM initialization failed: " ++ reason)
  end.
Proof.
  unfold __init__.
  destruct (get_available_models_returns genai) as (d & evs & Hd & Hinv).
  rewrite Hd. run_init.
  destruct api_key as [[|c key]|]; run_init; try (eexists; reflexivity).
  destruct (configure genai (c :: key)) as [e|] eqn:Ec; run_init;
    [eexists; reflexivity|].
  destruct (dict_is_empty d); run_init; [eexists; reflexivity|].
  destruct (dict_mem d name) eqn:Em; cbn [negb]; run_init;
    [|eexists; reflexivity].
  destruct (GenerativeModel genai name) as [e|m] eqn:Eg; run_init;
    [eexists; reflexivity|].
  cbn [fst helper model_name model available_models].
  repeat split.
  - now exists m.
  - exists (c :: key). repeat split; [discriminate|exact Ec].
  - unfold dict_mem in Em. destruct (dict_get d name) as [entry|] eqn:Hg;
      [|discriminate].
    destruct (Hinv name entry Hg) as (Hn & Hs & ms & Hl & Hin).
    exists entry, ms. auto.
Qed.

(** X17. On a helper the constructor returned, the fallbacks for a missing
    model are dead: [get_model_info] reports the name, the description, the
    limits and the methods of the listed model, with the status active, and
    [generate_sql_query] and [format_response] do ask the backend. *)
Theorem constructed_helper_is_ready (genai : Genai) (api_key : option str)
    (name : str) (self : LLMHelperObject) :
  fst (__init__ genai api_key name) = Return self ->
  (exists entry ms,
     list_models genai = ListModels ms /\ In entry ms /\
     entry_name entry = name /\ supports_generate entry = true /\
     get_model_info self
     = Info name (entry_description entry) (entry_input_token_limit entry)
            (entry_output_token_limit entry) (entry_supported_methods entry)
            (lit "active")) /\
  (forall q sch,
     hd_error (events (generate_sql_query (helper self) q sch))
     = Some (ModelCall (sql_prompt q sch))) /\
  (forall q data,
     hd_error (events (format_response (helper self) q data))
     = Some (ModelCall (format_prompt q data))).
Proof.
  intro H. pose proof (init_ready genai api_key name) as P.
  rewrite H in P.
  destruct P as (Hn & (m & Hm & _) & (entry & ms & Hg & He & Hs & Hl & Hin)).
  repeat split.
  - exists entry, ms. repeat split; auto.
    unfold get_model_info. now rewrite Hm, Hn, Hg.
  - intros q sch. unfold generate_sql_query. run_monad. rewrite Hm. run_monad.
    now destruct (m (sql_prompt q sch) sql_config) as [e|[|c t]].
  - intros q data. unfold format_response. run_monad. rewrite Hm. run_monad.
    now destruct (m (format_prompt q data) format_config) as [e|[|c t]].
Qed.

Lemma constructed_helper_is_ready_witness :
  (exists entry ms,
     list_models genai_two_models = ListModels ms /\ In entry ms /\
     entry_name entry = lit "models/gemini-1.5-flash" /\
     supports_generate entry = true /\
     get_model_info flash_object
     = Info (lit "models/gemini-1.5-flash") (entry_description entry)
            (entry_input_token_limit entry) (entry_output_token_limit entry)
            (entry_supported_methods entry) (lit "active")) /\
  (forall q sch,
     hd_error (events (generate_sql_query (helper flash_object) q sch))
     = Some (ModelCall (sql_prompt q sch))) /\
  (forall q data,
     hd_error (events (format_response (helper flash_object) q data))
     = Some (ModelCall (format_prompt q data))).
Proof.
  apply (constructed_helper_is_ready genai_two_models (Some (lit "secret"))
           (lit "models/gemini-1.5-flash") flash_object).
  vm_compute. reflexivity.
Defined.

(** ** Which charts draw data *)

Lemma draw_chart_dated_other (app : App) (df : DataFrame) (ct : str) :
  has_column df DATE = true ->
  str_eqb ct LINE = false -> str_eqb ct BAR = false ->
  events (draw_chart app df ct) = [].
Proof.
  intros Hd Hl Hb. unfold draw_chart. rewrite Hd.
  rewrite events_bind, to_datetime_column_events.
  destruct (outcome (to_datetime_column app df DATE)); [|reflexivity].
  now rewrite Hl, Hb.
Qed.

Lemma draw_chart_undated_other (app : App) (df : DataFrame) (ct : str) :
  has_column df DATE = false ->
  str_eqb ct BAR = false -> str_eqb ct PIE = false ->
  events (draw_chart app df ct) = [].
Proof.
  intros Hd Hb Hp. unfold draw_chart. rewrite Hd.
  rewrite events_bind, columns_at_events.
  destruct (outcome (columns_at (columns df) 0)); [|reflexivity].
  now rewrite Hb, Hp.
Qed.

(** X18. Data is drawn only for a line or a bar chart of rows with a date
    column, and for a bar or a pie chart of rows without one: a pie chart
    of dated rows, a line chart of undated rows and every other chart type
    draw nothing. *)
Theorem draw_chart_series_only_if (app : App) (df : DataFrame) (ct : str) :
  existsb is_series (plots (events (draw_chart app df ct))) = true ->
  (has_column df DATE = true /\ (ct = LINE \/ ct = BAR)) \/
  (has_column df DATE = false /\ (ct = BAR \/ ct = PIE)).
Proof.
  intro H. destruct (has_column df DATE) eqn:Hd.
  - left. split; [reflexivity|].
    destruct (str_eqb ct LINE) eqn:Hl; [left; now apply str_eqb_eq|].
    destruct (str_eqb ct BAR) eqn:Hb; [right; now apply str_eqb_eq|].
    rewrite draw_chart_dated_other in H by assumption. discriminate.
  - right. split; [reflexivity|].
    destruct (str_eqb ct BAR) eqn:Hb; [left; now apply str_eqb_eq|].
    destruct (str_eqb ct PIE) eqn:Hp; [right; now apply str_eqb_eq|].
    rewrite draw_chart_undated_other in H by assumption. discriminate.
Qed.

Lemma draw_chart_series_only_if_witness :
  (has_column (DataFrame_of_rows rows_two_days) DATE = true /\
   (BAR = LINE \/ BAR = BAR)) \/
  (has_column (DataFrame_of_rows rows_two_days) DATE = false /\
   (BAR = BAR \/ BAR = PIE)).
Proof.
  apply (draw_chart_series_only_if app_two_days
           (DataFrame_of_rows rows_two_days) BAR).
  vm_compute. reflexivity.
Defined.

(** ** The CSV loader *)

Ltac run_ld :=
  cbv beta iota delta [lbind lret lraise lemit ltry_except ltry_finally].

Lemma convert_if_present_uniform (conv : list value -> convert_outcome)
    (c : str) (df : DataFrame) :
  exists r, forall db, convert_if_present conv c df db = ((r, []), db).
Proof.
  unfold convert_if_present, convert_column.
  destruct (has_column df c); [|eexists; reflexivity].
  destruct (conv (column df c)); eexists; reflexivity.
Qed.

Lemma lbind_uniform {A B} (m : Ld A) (k : A -> Ld B) :
  (exists r, forall db, m db = ((r, []), db)) ->
  (forall a, exists r, forall db, k a db = ((r, []), db)) ->
  exists r, forall db, lbind m k db = ((r, []), db).
Proof.
  intros [[a|e] Hm] Hk.
  - destruct (Hk a) as [r Hr]. exists r. intro db. unfold lbind.
    now rewrite Hm, Hr.
  - exists (Raise e). intro db. unfold lbind. now rewrite Hm.
Qed.

Lemma convert_numeric_uniform (env : LoadEnv) (cols : list str) (df : DataFrame) :
  exists r, forall db, convert_numeric env cols df db = ((r, []), db).
Proof.
  revert df. induction cols as [|c cols IH]; intro df; [eexists; reflexivity|].
  cbn [convert_numeric]. apply lbind_uniform; [apply convert_if_present_uniform|].
  exact IH.
Qed.

(** The cleaning does not look at the database. *)
Lemma clean_frame_uniform (env : LoadEnv) (table_name : str) (df : DataFrame) :
  exists r, forall db, clean_frame env table_name df db = ((r, []), db).
Proof.
  unfold clean_frame.
  apply lbind_uniform; [apply convert_if_present_uniform|]. intro df1.
  apply lbind_uniform; [apply convert_if_present_uniform|]. intro df2.
  apply convert_numeric_uniform.
Qed.

(** *** What the cleaning keeps *)

Lemma cell_set_cell_other (c c0 : str) (v : value) (r : row) :
  c <> c0 -> cell c0 (set_cell c v r) = cell c0 r.
Proof.
  intro H. induction r as [|[k w] r IH].
  - simpl. apply str_eqb_neq in H. now rewrite H.
  - cbn [set_cell]. destruct (str_eqb k c) eqn:E.
    + apply str_eqb_eq in E. subst k. cbn [cell].
      apply str_eqb_neq in H. now rewrite H.
    + cbn [cell]. now rewrite IH.
Qed.

Lemma In_assign_column (c : str) (cells : list value) (rs : list row) (r' : row) :
  In r' (assign_column c cells rs) ->
  exists r, In r rs /\ (r' = r \/ exists v, r' = set_cell c v r).
Proof.
  revert cells. induction rs as [|r rs IH]; intros cells H.
  - destruct cells; contradiction.
  - destruct cells as [|v cells].
    + exists r'. split; [exact H|now left].
    + cbn [assign_column] in H. destruct H as [<-|H].
      * exists r. split; [now left|]. right. now exists v.
      * destruct (IH cells H) as (r0 & Hin & Hr). exists r0.
        split; [now right|exact Hr].
Qed.

Lemma length_assign_column (c : str) (cells : list value) (rs : list row) :
  length (assign_column c cells rs) = length rs.
Proof.
  revert cells. induction rs as [|r rs IH]; intros [|v cells]; try reflexivity.
  cbn [assign_column length]. now rewrite IH.
Qed.

(** One step: the columns stay, no row is added, the converted column is
    complete, and the columns that were complete stay complete. *)
Lemma convert_if_present_step (conv : list value -> convert_outcome)
    (c : str) (df df' : DataFrame) (db db' : DB) (evs : list load_event) :
  convert_if_present conv c df db = ((Return df', evs), db') ->
  columns df' = columns df /\
  (length (records df') <= length (records df))%nat /\
  (has_column df c = true -> column_complete c df') /\
  (forall c0, c0 <> c -> column_complete c0 df -> column_complete c0 df').
Proof.
  unfold convert_if_present, convert_column.
  destruct (has_column df c).
  - destruct (conv (column df c)) as [e|cells]; [discriminate|].
    unfold lret. intro H. injection H as <- _ _. cbn [dropna columns records].
    repeat split.
    + etransitivity; [apply filter_length_le|].
      now rewrite length_assign_column.
    + intros _ r Hr. apply filter_In in Hr as [_ Hr].
      now apply negb_true_iff in Hr.
    + intros c0 Hc0 Hok r Hr. apply filter_In in Hr as [Hr _].
      apply In_assign_column in Hr as (r0 & Hin & [->|[v ->]]).
      * now apply Hok.
      * rewrite cell_set_cell_other by congruence. now apply Hok.
  - unfold lret. intro H. injection H as <- _ _.
    repeat split; auto. discriminate.
Qed.

Lemma has_column_columns (df df' : DataFrame) (c : str) :
  columns df' = columns df -> has_column df' c = has_column df c.
Proof. unfold has_column. now intros ->. Qed.

Lemma convert_numeric_step (env : LoadEnv) (cols : list str)
    (df df' : DataFrame) (db db' : DB) (evs : list load_event) :
  NoDup cols ->
  convert_numeric env cols df db = ((Return df', evs), db') ->
  columns df' = columns df /\
  (length (records df') <= length (records df))%nat /\
  (forall c, In c cols -> has_column df c = true -> column_complete c df') /\
  (forall c0, ~ In c0 cols -> column_complete c0 df -> column_complete c0 df').
Proof.
  revert df db evs. induction cols as [|c cols IH]; intros df db evs Hnd H.
  - cbn [convert_numeric] in H. unfold lret in H. injection H as <- _ _.
    repeat split; auto. intros c [].
  - cbn [convert_numeric] in H. unfold lbind in H.
    destruct (convert_if_present (to_numeric_coerce env) c df db)
      as [[[df1|e] evs1] db1] eqn:E1; [|discriminate].
    destruct (convert_numeric env cols df1 db1) as [[r2 evs2] db2] eqn:E2.
    injection H as -> _ ->.
    apply convert_if_present_step in E1 as (Hc1 & Hl1 & Hk1 & Hp1).
    inversion Hnd as [|? ? Hnotin Hnd']; subst.
    apply IH in E2 as (Hc2 & Hl2 & Hk2 & Hp2); [|exact Hnd'].
    repeat split.
    + congruence.
    + lia.
    + intros c0 [<-|Hin] Hhas.
      * apply Hp2; [exact Hnotin|]. now apply Hk1.
      * apply Hk2; [exact Hin|]. now rewrite (has_column_columns df df1).
    + intros c0 Hc0 Hok. apply Hp2.
      * intro F. apply Hc0. now right.
      * apply Hp1; [|exact Hok]. intro F. apply Hc0. now left.
Qed.

Lemma numeric_cols_cases (table_name : str) :
  numeric_cols table_name = [lit "total_sales"; lit "total_units_ordered"] \/
  numeric_cols table_name
    = [lit "ad_sales"; lit "impressions"; lit "ad_spend"; lit "clicks";
       lit "units_sold"] \/
  numeric_cols table_name = [].
Proof.
  unfold numeric_cols.
  destruct (str_eqb table_name PRODUCT_TOTAL_SALES); [now left|].
  destruct (str_eqb table_name PRODUCT_AD_SALES); [right; now left|].
  right. now right.
Qed.

Lemma NoDup_str (l : list str) :
  (fix nodupb (l : list str) : bool :=
     match l with
     | [] => true
     | x :: l' => negb (existsb (str_eqb x) l') && nodupb l'
     end) l = true -> NoDup l.
Proof.
  induction l as [|x l IH]; [constructor|].
  intro H. apply andb_true_iff in H as [H1 H2]. constructor; [|now apply IH].
  intro F. apply negb_true_iff in H1.
  assert (E : existsb (str_eqb x) l = true).
  { apply existsb_exists. exists x. split; [exact F|apply str_eqb_refl]. }
  congruence.
Qed.

Lemma cleaned_columns_NoDup (table_name : str) :
  NoDup (cleaned_columns table_name).
Proof.
  unfold cleaned_columns.
  destruct (numeric_cols_cases table_name) as [-> | [-> | ->]];
    apply NoDup_str; reflexivity.
Qed.

Lemma clean_frame_complete (env : LoadEnv) (table_name : str)
    (df df' : DataFrame) (db db' : DB) (evs : list load_event) :
  clean_frame env table_name df db = ((Return df', evs), db') ->
  columns df' = columns df /\
  (length (records df') <= length (records df))%nat /\
  (forall c, In c (cleaned_columns table_name) -> has_column df c = true ->
     column_complete c df').
Proof.
  unfold clean_frame, lbind. intro H.
  destruct (convert_if_present (to_datetime_coerce env) DATE df db)
    as [[[df1|e] evs1] db1] eqn:E1; [|discriminate].
  destruct (convert_if_present (to_datetime_coerce env)
              ELIGIBILITY_DATETIME_UTC df1 db1)
    as [[[df2|e] evs2] db2] eqn:E2; [|discriminate].
  destruct (convert_numeric env (numeric_cols table_name) df2 db2)
    as [[r3 evs3] db3] eqn:E3.
  injection H as -> _ _.
  pose proof (cleaned_columns_NoDup table_name) as Hnd.
  unfold cleaned_columns in *.
  inversion Hnd as [|? ? Hn1 Hnd1]; subst.
  inversion Hnd1 as [|? ? Hn2 Hnd2]; subst.
  apply convert_if_present_step in E1 as (Hc1 & Hl1 & Hk1 & Hp1).
  apply convert_if_present_step in E2 as (Hc2 & Hl2 & Hk2 & Hp2).
  apply convert_numeric_step in E3 as (Hc3 & Hl3 & Hk3 & Hp3); [|exact Hnd2].
  repeat split.
  - congruence.
  - lia.
  - intros c [<-|[<-|Hin]] Hhas.
    + apply Hp3; [intro F; apply Hn1; now right|].
      apply Hp2; [intro F; apply Hn1; left; now symmetry|]. now apply Hk1.
    + apply Hp3; [exact Hn2|]. apply Hk2.
      now rewrite (has_column_columns df df1).
    + apply Hk3; [exact Hin|].
      rewrite (has_column_columns df1 df2), (has_column_columns df df1);
        assumption.
Qed.

(** *** The paths of a load *)

Lemma frame_empty_records (df : DataFrame) :
  frame_empty df = false -> records df <> [].
Proof. unfold frame_empty. destruct (records df); [discriminate|discriminate]. Qed.

Lemma load_data_from_csv_paths (env : LoadEnv) (table_name csv_file_name : str)
    (db : DB) :
  exists evs db',
    load_data_from_csv env table_name csv_file_name db
      = ((Return tt, evs), db') /\
    load_path env table_name csv_file_name db evs db'.
Proof.
  unfold load_data_from_csv.
  destruct (csv_exists env csv_file_name) eqn:Ex; cbn [negb].
  2: { eexists; eexists. split; [reflexivity|]. now constructor. }
  destruct (in_model_mapping table_name) eqn:Ek; cbn [negb].
  2: { eexists; eexists. split; [reflexivity|]. now constructor. }
  unfold count_rows. run_ld.
  destruct (count_fails env table_name) as [e|] eqn:Ec.
  { eexists; eexists. split; [reflexivity|].
    apply LoadFailed; auto. left. congruence. }
  destruct (table_rows db table_name) as [|r0 rs0] eqn:Et; cbn [length Nat.ltb Nat.leb].
  2: { eexists; eexists. split; [reflexivity|].
       apply LoadHasData; auto. rewrite Et. discriminate. }
  destruct (read_csv env csv_file_name) as [e|df] eqn:Er.
  { eexists; eexists. split; [reflexivity|]. apply LoadFailed; auto. }
  destruct (clean_frame_uniform env table_name df) as [r Hc].
  rewrite Hc. destruct r as [df'|e].
  2: { eexists; eexists. split; [reflexivity|]. apply LoadFailed; auto. }
  destruct (frame_empty df') eqn:Ee; cbn [negb].
  { eexists; eexists. split; [reflexivity|]. now constructor. }
  unfold to_sql.
  destruct (to_sql_fails env table_name (records df')) as [e|] eqn:Es.
  { eexists; eexists. split; [reflexivity|]. apply LoadFailed; auto. }
  rewrite Et. eexists; eexists. split; [reflexivity|].
  apply (LoadWrote env table_name csv_file_name db df df'); auto.
  - now rewrite Hc.
  - now apply frame_empty_records.
Qed.

Lemma table_rows_set (db : DB) (table : str) (rows : list row) :
  table_rows (dict_set db table rows) table = rows.
Proof. unfold table_rows. now rewrite dict_get_set, str_eqb_refl. Qed.

(** X19. The loader never raises.  It opens a session exactly when the
    file is there, and then closes it before it returns, whatever happens
    in between; on its two early exits (a table without model class, a
    table that already holds rows) the session is closed twice, by the
    exit itself and by the [finally]. *)
Theorem load_data_from_csv_closes_session (env : LoadEnv)
    (table_name csv_file_name : str) (db : DB) :
  exists evs db',
    load_data_from_csv env table_name csv_file_name db
      = ((Return tt, evs), db') /\
    opens evs = (if csv_exists env csv_file_name then 1 else 0)%nat /\
    (opens evs <= closes evs)%nat /\
    (csv_exists env csv_file_name = true ->
     last evs Opened = Closed /\
     (closes evs = 2%nat <->
      in_model_mapping table_name = false \/
      (count_fails env table_name = None /\
       table_rows db table_name <> []))).
Proof.
  destruct (load_data_from_csv_paths env table_name csv_file_name db)
    as (evs & db' & H & P).
  exists evs, db'. split; [exact H|].
  destruct P as [Ex|Ex Ek|Ex Ek Ec Et|Ex Ek Ef|Ex Ek Et|df df' Ex Ek Ec Et Er Hc Hr];
    rewrite Ex; cbn [opens closes filter length last].
  - repeat split; try lia; discriminate.
  - repeat split; try lia. intros _. now left.
  - repeat split; try lia. intros _. right. now split.
  - repeat split; try lia; try discriminate.
    intros [F|[F1 F2]]; [congruence|]. destruct Ef; congruence.
  - repeat split; try lia; try discriminate.
    intros [F|[F1 F2]]; congruence.
  - repeat split; try lia; try discriminate.
    intros [F|[F1 F2]]; congruence.
Qed.

(** X20. A load writes at most once, and only rows (at least one) into a
    table that is known and holds nothing, committing after the write; in
    every other case, a table that already holds rows among them, the
    database is left as it was. *)
Theorem load_data_from_csv_writes (env : LoadEnv)
    (table_name csv_file_name : str) (db : DB) :
  exists evs db',
    load_data_from_csv env table_name csv_file_name db
      = ((Return tt, evs), db') /\
    ((written evs = [] /\ db' = db) \/
     (exists rows,
        rows <> [] /\
        written evs = [(table_name, rows)] /\
        db' = dict_set db table_name rows /\
        table_rows db table_name = [] /\
        in_model_mapping table_name = true /\
        csv_exists env csv_file_name = true /\
        In Committed evs)).
Proof.
  destruct (load_data_from_csv_paths env table_name csv_file_name db)
    as (evs & db' & H & P).
  exists evs, db'. split; [exact H|].
  destruct P as [Ex|Ex Ek|Ex Ek Ec Et|Ex Ek Ef|Ex Ek Et|df df' Ex Ek Ec Et Er Hc Hr];
    try (left; split; reflexivity).
  right. exists (records df'). repeat split; auto. cbn. tauto.
Qed.

(** X21. Every row the loader writes comes out of the cleaning of the CSV
    frame: there are no more rows than the file had, and in each column
    the loader cleans for the table (the two date columns and the numeric
    columns) that the file has, no written row lacks its value. *)
Theorem load_data_from_csv_writes_complete_rows (env : LoadEnv)
    (table_name csv_file_name : str) (db db' : DB) (evs : list load_event)
    (table : str) (rows : list row) :
  load_data_from_csv env table_name csv_file_name db
    = ((Return tt, evs), db') ->
  In (table, rows) (written evs) ->
  exists df,
    read_csv env csv_file_name = ReadFrame df /\
    table = table_name /\
    (length rows <= length (records df))%nat /\
    forall c r,
      In c (cleaned_columns table_name) -> has_column df c = true ->
      In r rows -> isna (cell c r) = false.
Proof.
  intros H Hin.
  destruct (load_data_from_csv_paths env table_name csv_file_name db)
    as (evs0 & db0 & H0 & P).
  rewrite H in H0. injection H0 as <- <-.
  destruct P as [Ex|Ex Ek|Ex Ek Ec Et|Ex Ek Ef|Ex Ek Et|df df' Ex Ek Ec Et Er Hc Hr];
    try contradiction.
  cbn in Hin. destruct Hin as [Hin|[]]. injection Hin as <- <-.
  exists df. split; [exact Er|]. split; [reflexivity|].
  destruct (clean_frame env table_name df db) as [[r evs1] db1] eqn:E.
  cbn [fst] in Hc. subst r.
  apply clean_frame_complete in E as (_ & Hl & Hk).
  split; [exact Hl|]. intros c r Hc Hhas Hr'. now apply (Hk c Hc Hhas r).
Qed.

Lemma load_data_from_csv_writes_complete_rows_witness :
  exists df,
    read_csv env_sales sales_csv_name = ReadFrame df /\
    PRODUCT_TOTAL_SALES = PRODUCT_TOTAL_SALES /\
    (length [ [(DATE, VTimestamp 1704067200000000000);
               (lit "item_id", VStr (lit "A1"));
               (TOTAL_SALES, VInt 12); (TOTAL_UNITS, VInt 3)] ]
     <= length (records df))%nat /\
    forall c r,
      In c (cleaned_columns PRODUCT_TOTAL_SALES) -> has_column df c = true ->
      In r [ [(DATE, VTimestamp 1704067200000000000);
              (lit "item_id", VStr (lit "A1"));
              (TOTAL_SALES, VInt 12); (TOTAL_UNITS, VInt 3)] ] ->
      isna (cell c r) = false.
Proof.
  apply (load_data_from_csv_writes_complete_rows env_sales PRODUCT_TOTAL_SALES
           sales_csv_name []
           (snd (load_data_from_csv env_sales PRODUCT_TOTAL_SALES
                   sales_csv_name []))
           (snd (fst (load_data_from_csv env_sales PRODUCT_TOTAL_SALES
                        sales_csv_name [])))
           PRODUCT_TOTAL_SALES).
  - vm_compute. reflexivity.
  - vm_compute. left. reflexivity.
Defined.

(** X22. Loading the same file twice in a row changes the database no
    more than loading it once: what the first load wrote keeps the second
    from writing. *)
Theorem load_data_from_csv_idempotent (env : LoadEnv)
    (table_name csv_file_name : str) (db : DB) :
  snd (load_data_from_csv env table_name csv_file_name
         (snd (load_data_from_csv env table_name csv_file_name db)))
  = snd (load_data_from_csv env table_name csv_file_name db).
Proof.
  destruct (load_data_from_csv_paths env table_name csv_file_name db)
    as (evs & db1 & H & P).
  rewrite H. cbn [snd].
  destruct P as [Ex|Ex Ek|Ex Ek Ec Et|Ex Ek Ef|Ex Ek Et|df df' Ex Ek Ec Et Er Hc Hr];
    try (now rewrite H).
  destruct (load_data_from_csv_paths env table_name csv_file_name
              (dict_set db table_name (records df')))
    as (evs2 & db2 & H2 & P2).
  rewrite H2. cbn [snd].
  inversion P2; subst; try reflexivity.
  exfalso. rewrite table_rows_set in *. contradiction.
Qed.

(** *** Loading again *)

(** What a load does to the database: it sets the table to rows that the
    file and the environment fix, when there are such rows and the table
    holds none. *)
Lemma load_data_from_csv_effect (env : LoadEnv) (table_name csv_file_name : str) :
  exists rows,
    forall db,
      snd (load_data_from_csv env table_name csv_file_name db)
      = match table_rows db table_name, rows with
        | [], _ :: _ => dict_set db table_name rows
        | _, _ => db
        end.
Proof.
  unfold load_data_from_csv.
  destruct (csv_exists env csv_file_name); cbn [negb].
  2: { exists []. intro db. now destruct (table_rows db table_name). }
  destruct (in_model_mapping table_name); cbn [negb].
  2: { exists []. intro db. now destruct (table_rows db table_name). }
  unfold count_rows.
  destruct (count_fails env table_name) as [e|].
  { exists []. intro db. now destruct (table_rows db table_name). }
  destruct (read_csv env csv_file_name) as [e|df].
  { exists []. intro db. run_ld.
    now destruct (table_rows db table_name). }
  destruct (clean_frame_uniform env table_name df) as [[df'|e] Hc].
  2: { exists []. intro db. run_ld.
       destruct (table_rows db table_name); cbn [length Nat.ltb Nat.leb];
         [rewrite Hc|]; reflexivity. }
  destruct (frame_empty df') eqn:Ee.
  { exists []. intro db. run_ld.
    destruct (table_rows db table_name); cbn [length Nat.ltb Nat.leb];
      [rewrite Hc, Ee|]; reflexivity. }
  unfold to_sql.
  destruct (to_sql_fails env table_name (records df')) as [e|] eqn:Es.
  { exists []. intro db. run_ld.
    destruct (table_rows db table_name); cbn [length Nat.ltb Nat.leb];
      [rewrite Hc, Ee, Es|]; reflexivity. }
  exists (records df'). intro db. run_ld.
  pose proof (frame_empty_records df' Ee) as Hne.
  destruct (table_rows db table_name) eqn:Et; cbn [length Nat.ltb Nat.leb].
  - rewrite Hc, Ee. cbn [negb]. rewrite Es, Et. cbn [snd app].
    destruct (records df'); [congruence|reflexivity].
  - now destruct (records df').
Qed.

Lemma table_rows_set_other (db : DB) (t t' : str) (rows : list row) :
  str_eqb t' t = false -> table_rows (dict_set db t' rows) t = table_rows db t.
Proof. intro H. unfold table_rows. now rewrite dict_get_set, H. Qed.

(** The step of one load, as [load_data_from_csv_effect] gives it. *)
Lemma load_step_table (db : DB) (t t' : str) (rows : list row) :
  str_eqb t' t = false ->
  table_rows match table_rows db t', rows with
             | [], _ :: _ => dict_set db t' rows
             | _, _ => db
             end t
  = table_rows db t.
Proof.
  intro H. destruct (table_rows db t'), rows; try reflexivity.
  now apply table_rows_set_other.
Qed.

Lemma load_step_settled (db : DB) (t : str) (rows : list row) :
  let db' := match table_rows db t, rows with
             | [], _ :: _ => dict_set db t rows
             | _, _ => db
             end in
  match table_rows db' t, rows with
  | [], _ :: _ => False
  | _, _ => True
  end.
Proof.
  cbn zeta. destruct (table_rows db t) eqn:E, rows as [|r0 rows];
    rewrite ?E; try exact I.
  now rewrite table_rows_set.
Qed.

(** X23. Starting twice is safe: the three loads of [init_db], run a
    second time right after the first, leave the database as the first run
    left it. *)
Theorem init_db_load_idempotent (env : LoadEnv) (db : DB) :
  snd (init_db_load env (snd (init_db_load env db)))
  = snd (init_db_load env db).
Proof.
  destruct (load_data_from_csv_effect env PRODUCT_TOTAL_SALES
              (lit "product_total_sales.csv")) as [rows1 H1].
  destruct (load_data_from_csv_effect env PRODUCT_AD_SALES
              (lit "product_ad_sales.csv")) as [rows2 H2].
  destruct (load_data_from_csv_effect env PRODUCT_ELIGIBILITY
              (lit "product_eligibility.csv")) as [rows3 H3].
  assert (Hrun : forall d,
             snd (init_db_load env d)
             = snd (load_data_from_csv env PRODUCT_ELIGIBILITY
                      (lit "product_eligibility.csv")
                      (snd (load_data_from_csv env PRODUCT_AD_SALES
                              (lit "product_ad_sales.csv")
                              (snd (load_data_from_csv env PRODUCT_TOTAL_SALES
                                      (lit "product_total_sales.csv") d)))))).
  { intro d. unfold init_db_load, lbind.
    destruct (load_data_from_csv_paths env PRODUCT_TOTAL_SALES
                (lit "product_total_sales.csv") d) as (e1 & d1 & E1 & _).
    rewrite E1. cbn [snd].
    destruct (load_data_from_csv_paths env PRODUCT_AD_SALES
                (lit "product_ad_sales.csv") d1) as (e2 & d2 & E2 & _).
    rewrite E2. cbn [snd].
    destruct (load_data_from_csv_paths env PRODUCT_ELIGIBILITY
                (lit "product_eligibility.csv") d2) as (e3 & d3 & E3 & _).
    now rewrite E3. }
  rewrite !Hrun.
  set (s1 := fun d => snd (load_data_from_csv env PRODUCT_TOTAL_SALES
                             (lit "product_total_sales.csv") d)).
  set (s2 := fun d => snd (load_data_from_csv env PRODUCT_AD_SALES
                             (lit "product_ad_sales.csv") d)).
  set (s3 := fun d => snd (load_data_from_csv env PRODUCT_ELIGIBILITY
                             (lit "product_eligibility.csv") d)).
  change (s3 (s2 (s1 (s3 (s2 (s1 db))))) = s3 (s2 (s1 db))).
  assert (T1 : match table_rows (s3 (s2 (s1 db))) PRODUCT_TOTAL_SALES, rows1 with
               | [], _ :: _ => False | _, _ => True end).
  { unfold s3, s2. rewrite H3, load_step_table by reflexivity.
    rewrite H2, load_step_table by reflexivity.
    unfold s1. rewrite H1. apply load_step_settled. }
  assert (T2 : match table_rows (s3 (s2 (s1 db))) PRODUCT_AD_SALES, rows2 with
               | [], _ :: _ => False | _, _ => True end).
  { unfold s3. rewrite H3, load_step_table by reflexivity.
    unfold s2. rewrite H2. apply load_step_settled. }
  assert (T3 : match table_rows (s3 (s2 (s1 db))) PRODUCT_ELIGIBILITY, rows3 with
               | [], _ :: _ => False | _, _ => True end).
  { unfold s3. rewrite H3. apply load_step_settled. }
  set (D := s3 (s2 (s1 db))) in *.
  assert (E1 : s1 D = D).
  { unfold s1. rewrite H1.
    destruct (table_rows D PRODUCT_TOTAL_SALES), rows1; tauto. }
  assert (E2 : s2 D = D).
  { unfold s2. rewrite H2.
    destruct (table_rows D PRODUCT_AD_SALES), rows2; tauto. }
  assert (E3 : s3 D = D).
  { unfold s3. rewrite H3.
    destruct (table_rows D PRODUCT_ELIGIBILITY), rows3; tauto. }
  now rewrite E1, E2, E3.
Qed.
